(** * MediTrack: form validation and submission pipeline

    A shallow embedding of the client-side validation and submission
    code of MediTrack (assets/js/form-validator.js, the FormHandler
    module, assets/js/error-manager.js, assets/js/utils.js) and the
    properties its design document states about it.

    Conventions of the embedding.
    - A JavaScript string is a Rocq [string]; a character is one code
      unit below 256 (the Latin-1 range of UTF-16).  White space and
      case mapping are those of ECMAScript on that range.
    - JavaScript numbers are [jsnum]: NaN, the two infinities, or a
      rational.  The conversions the engine performs (ToNumber,
      parseFloat, Date.parse, the clock) are not re-implemented: they
      are the fields of the class [JSHost], and every theorem holds for
      every host.
    - The DOM, localStorage, the notification layer and the backend are
      explicit state: a record that the operations read and return. *)

From stdpp Require Import gmap strings list.
From Stdlib Require Import ZArith QArith Qround Ascii String DecimalString List Bool Lia.
Import ListNotations.
Open Scope string_scope.

(* ================================================================== *)
(** * JavaScript strings *)
(* ================================================================== *)

Module JS.

(** ECMAScript WhiteSpace and LineTerminator code units below 256:
    TAB, LF, VT, FF, CR, SPACE and NO-BREAK SPACE. *)
Definition is_white_space (c : ascii) : bool :=
  match nat_of_ascii c with
  | 9%nat | 10%nat | 11%nat | 12%nat | 13%nat | 32%nat | 160%nat => true
  | _ => false
  end.

Definition is_empty (s : string) : bool :=
  match s with EmptyString => true | String _ _ => false end.

Fixpoint trimStart (s : string) : string :=
  match s with
  | EmptyString => EmptyString
  | String c s' => if is_white_space c then trimStart s' else s
  end.

(** A character is dropped when it is white space and nothing after it
    survives. *)
Fixpoint trimEnd (s : string) : string :=
  match s with
  | EmptyString => EmptyString
  | String c s' =>
      let r := trimEnd s' in
      if is_white_space c && is_empty r then EmptyString else String c r
  end.

(** [String.prototype.trim] *)
Definition trim (s : string) : string := trimEnd (trimStart s).

Definition in_range (lo hi : nat) (c : ascii) : bool :=
  let n := nat_of_ascii c in (lo <=? n)%nat && (n <=? hi)%nat.

Definition is_upper (c : ascii) : bool := in_range 65 90 c.
Definition is_lower (c : ascii) : bool := in_range 97 122 c.
Definition is_digit (c : ascii) : bool := in_range 48 57 c.

(** Lower-case mapping on the Latin-1 range: A-Z and the accented
    capitals 192..222 (the multiplication sign 215 apart) move up by
    32; every result stays below 256. *)
Definition lower_char (c : ascii) : ascii :=
  let n := nat_of_ascii c in
  if is_upper c || (in_range 192 222 c && negb (n =? 215)%nat)
  then ascii_of_nat (n + 32) else c.

(** [String.prototype.toLowerCase] *)
Fixpoint toLowerCase (s : string) : string :=
  match s with
  | EmptyString => EmptyString
  | String c s' => String (lower_char c) (toLowerCase s')
  end.

(** Upper-case mapping on the Latin-1 range.  The sharp s (223) becomes
    the two letters SS.  The capitals of the micro sign (181) and of y
    with diaeresis (255) lie above 255; these two are kept as they are,
    and neither form belongs to a character class tested in this
    development. *)
Definition upper_char (c : ascii) : string :=
  let n := nat_of_ascii c in
  if (n =? 223)%nat then "SS"
  else if is_lower c || (in_range 224 254 c && negb (n =? 247)%nat)
  then String (ascii_of_nat (n - 32)) EmptyString
  else String c EmptyString.

(** [String.prototype.toUpperCase] *)
Fixpoint toUpperCase (s : string) : string :=
  match s with
  | EmptyString => EmptyString
  | String c s' => upper_char c ++ toUpperCase s'
  end.

(** [String.prototype.startsWith] *)
Definition startsWith (s p : string) : bool := String.prefix p s.

(** [String.prototype.includes] *)
Fixpoint includes (s sub : string) : bool :=
  String.prefix sub s ||
  match s with
  | EmptyString => false
  | String _ s' => includes s' sub
  end.

(** [String.prototype.endsWith] *)
Fixpoint endsWith (s suf : string) : bool :=
  String.eqb s suf ||
  match s with
  | EmptyString => false
  | String _ s' => endsWith s' suf
  end.

(** [String.prototype.split] with a one-character separator: the
    pieces between the separators; one empty piece for the empty string. *)
Fixpoint split (sep : ascii) (s : string) : list string :=
  match s with
  | EmptyString => [EmptyString]
  | String c s' =>
      if Ascii.eqb c sep then EmptyString :: split sep s'
      else match split sep s' with
           | [] => [String c EmptyString]
           | p :: ps => String c p :: ps
           end
  end.

(** [Array.prototype.join] *)
Fixpoint join (sep : string) (l : list string) : string :=
  match l with
  | [] => EmptyString
  | [x] => x
  | x :: rest => x ++ sep ++ join sep rest
  end.

(** [Array.prototype.push] *)
Definition push {A : Type} (l : list A) (x : A) : list A := app l (cons x nil).

(** [Array.prototype.includes] on an array of strings *)
Definition arr_includes (l : list string) (x : string) : bool :=
  existsb (String.eqb x) l.

(** [String.prototype.substring(0, n)] *)
Definition substring0 (n : nat) (s : string) : string := String.substring 0 n s.

(** Truthiness of a string: every string but the empty one. *)
Definition truthy (s : string) : bool := negb (is_empty s).

(** Strings compare by code units. *)
Fixpoint str_gt (a b : string) : bool :=
  match a, b with
  | EmptyString, _ => false
  | String _ _, EmptyString => true
  | String x a', String y b' =>
      if Ascii.eqb x y then str_gt a' b'
      else (nat_of_ascii y <? nat_of_ascii x)%nat
  end.

(** ** Numbers *)

Inductive jsnum :=
| NaN
| Infty (negative : bool)
| Num (q : Q).

Definition isNaN_num (x : jsnum) : bool :=
  match x with NaN => true | _ => false end.

Definition isFinite_num (x : jsnum) : bool :=
  match x with Num _ => true | _ => false end.

Definition Qlt_bool (a b : Q) : bool := negb (Qle_bool b a).

(** [x < y]: false as soon as one side is NaN. *)
Definition num_lt (x y : jsnum) : bool :=
  match x, y with
  | NaN, _ | _, NaN => false
  | Infty true, Infty true => false
  | Infty true, _ => true
  | _, Infty true => false
  | Infty false, _ => false
  | _, Infty false => true
  | Num a, Num b => Qlt_bool a b
  end.

Definition num_gt (x y : jsnum) : bool := num_lt y x.

(** [x >= y]: false as soon as one side is NaN. *)
Definition num_ge (x y : jsnum) : bool :=
  match x, y with
  | NaN, _ | _, NaN => false
  | _, _ => negb (num_lt x y)
  end.

Definition num_le (x y : jsnum) : bool := num_ge y x.

Definition of_Z (n : Z) : jsnum := Num (inject_Z n).
Definition of_nat (n : nat) : jsnum := of_Z (Z.of_nat n).

(** [Number.isInteger] *)
Definition isInteger_num (x : jsnum) : bool :=
  match x with
  | Num q => Qeq_bool q (inject_Z (Qfloor q))
  | _ => false
  end.

(** ** Exceptions *)

(** A thrown [Error] object: the name of its constructor and its
    message.  The wording of the messages the engine itself produces
    (TypeError, ReferenceError) is that of V8. *)
Record js_error := {
  error_name : string;
  error_message : string
}.

Definition Error (m : string) : js_error := {| error_name := "Error"; error_message := m |}.
Definition TypeError (m : string) : js_error := {| error_name := "TypeError"; error_message := m |}.
Definition ReferenceError (m : string) : js_error :=
  {| error_name := "ReferenceError"; error_message := m |}.

(** How a call ends: with a value, or with an exception.  For an
    [async] function: the promise is fulfilled, or rejected. *)
Inductive completion (A : Type) :=
| Return (a : A)
| Throw (e : js_error).
Arguments Return {A} a.
Arguments Throw {A} e.

(** The names every object inherits from [Object.prototype]. *)
Definition object_prototype_names : list string :=
  ["constructor"; "hasOwnProperty"; "isPrototypeOf"; "propertyIsEnumerable";
   "toLocaleString"; "toString"; "valueOf"; "__proto__";
   "__defineGetter__"; "__defineSetter__"; "__lookupGetter__"; "__lookupSetter__"].

(** The double quote, as a string. *)
Definition dquote : string := String (ascii_of_nat 34) EmptyString.

(** A number in decimal, as template literals print it. *)
Definition show_nat (n : nat) : string := NilZero.string_of_uint (Nat.to_uint n).

(** ** Further string operations *)

(** [String.prototype.repeat(n)] for a count that is a non-negative
    integer. *)
Fixpoint repeat (s : string) (n : nat) : string :=
  match n with
  | O => EmptyString
  | S k => s ++ repeat s k
  end.

(** [s.replace(/[^...]/g, '')] for a negated character class: the
    characters of the class [keep] stay, the others go. *)
Fixpoint filter_chars (keep : ascii -> bool) (s : string) : string :=
  match s with
  | EmptyString => EmptyString
  | String c s' =>
      if keep c then String c (filter_chars keep s') else filter_chars keep s'
  end.

(** An integer argument of [substring], clamped to [0, length]. *)
Definition clamp (n : Z) (s : string) : nat := Nat.min (Z.to_nat n) (String.length s).

(** [s.substring(start, end)] for integer arguments: both are clamped,
    and swapped when the first is the larger. *)
Definition substring (start finish : Z) (s : string) : string :=
  let a := clamp start s in
  let b := clamp finish s in
  String.substring (Nat.min a b) (Nat.max a b - Nat.min a b) s.

(** [s.substring(start)] *)
Definition substring_from (start : Z) (s : string) : string :=
  let a := clamp start s in String.substring a (String.length s - a) s.

(** [s.replace(pattern, replacement)] for a string pattern and a
    replacement without [$]: the first occurrence is replaced. *)
Fixpoint replace (pattern replacement s : string) : string :=
  if String.prefix pattern s
  then replacement ++
       String.substring (String.length pattern) (String.length s - String.length pattern) s
  else match s with
       | EmptyString => EmptyString
       | String c s' => String c (replace pattern replacement s')
       end.

(** An integer in decimal, as template literals print it. *)
Definition show_Z (n : Z) : string :=
  match n with
  | Z0 => "0"
  | Zpos p => show_nat (Pos.to_nat p)
  | Zneg p => "-" ++ show_nat (Pos.to_nat p)
  end.

End JS.

(** The conversions of the JavaScript engine and of the browser. *)
Class JSHost := {
  (** [Number(s)], the coercion behind [isNaN(s)], [isFinite(s)] and
      the comparison of a string with a number *)
  ToNumber : string -> JS.jsnum;
  (** [parseFloat(s)] *)
  parseFloat : string -> JS.jsnum;
  (** [Date.parse(s)], the time value of [new Date(s)]: milliseconds,
      [None] for NaN *)
  Date_parse : string -> option Z;
  (** [new Date(t).toISOString()] for a valid time value [t] *)
  toISOString : Z -> string;
  (** local midnight of the day of [t]: [setHours(0, 0, 0, 0)] *)
  startOfDay : Z -> Z;
  (** [navigator.userAgent] *)
  userAgent : string
}.

(* ================================================================== *)
(** * Error/Notification layer: ErrorManager.categorizeError *)
(* ================================================================== *)

Module ErrorManager.

Inductive category :=
| NETWORK | API | VALIDATION | AUTH | PERMISSION | DATA | UI | SYSTEM | UNKNOWN.

(** The [code] of a standardized error: absent, a number or a string. *)
Inductive error_code :=
| CodeUndefined
| CodeNull
| CodeNum (n : Z)
| CodeStr (s : string).

(** The standardized error object of [standardizeError]; the fields
    [categorizeError] does not read are kept as plain strings. *)
Record ErrorObject := {
  err_id : string;
  err_timestamp : string;
  err_message : string;
  err_stack : string;
  err_code : error_code;
  err_type : string;
  err_category : category;
  err_severity : string
}.

Section Categorize.
Context {host : JSHost}.

(** The number a code stands for in [code >= 400 && code < 600]. *)
Definition code_number (c : error_code) : JS.jsnum :=
  match c with
  | CodeUndefined => JS.NaN
  | CodeNull => JS.of_Z 0
  | CodeNum n => JS.of_Z n
  | CodeStr s => ToNumber s
  end.

(** [code === n] for a number literal [n] *)
Definition code_is (c : error_code) (n : Z) : bool :=
  match c with CodeNum m => Z.eqb m n | _ => false end.

(** [code === s] for a string literal [s] *)
Definition code_is_str (c : error_code) (s : string) : bool :=
  match c with CodeStr t => String.eqb t s | _ => false end.

Definition is_network_error (message : string) (code : error_code) (type : string) : bool :=
  String.eqb type "NetworkError" ||
  JS.includes message "network" ||
  JS.includes message "connection" ||
  JS.includes message "timeout" ||
  code_is_str code "NETWORK_ERROR".

Definition is_api_error (message : string) (code : error_code) (type : string) : bool :=
  (JS.num_ge (code_number code) (JS.of_Z 400) && JS.num_lt (code_number code) (JS.of_Z 600)) ||
  JS.includes message "api" ||
  JS.includes message "server" ||
  String.eqb type "HTTPError".

Definition categorizeError (errorObj : ErrorObject) : category :=
  let message := JS.toLowerCase (err_message errorObj) in
  let code := err_code errorObj in
  let type := err_type errorObj in
  (* Network errors *)
  if is_network_error message code type then NETWORK
  (* API errors *)
  else if is_api_error message code type then
    if code_is code 401 || code_is code 403 ||
       JS.includes message "unauthorized" || JS.includes message "forbidden"
    then AUTH
    else if code_is code 403 ||
            JS.includes message "permission" || JS.includes message "access denied"
    then PERMISSION
    else API
  (* Validation errors *)
  else if code_is code 400 ||
          JS.includes message "validation" ||
          JS.includes message "invalid" ||
          JS.includes message "required" ||
          String.eqb type "ValidationError"
  then VALIDATION
  (* Data errors *)
  else if JS.includes message "data" ||
          JS.includes message "parse" ||
          JS.includes message "json" ||
          String.eqb type "SyntaxError" ||
          String.eqb type "DataError"
  then DATA
  (* UI errors *)
  else if JS.includes message "element" ||
          JS.includes message "dom" ||
          JS.includes message "render" ||
          String.eqb type "DOMException"
  then UI
  (* Authentication errors *)
  else if JS.includes message "auth" ||
          JS.includes message "login" ||
          JS.includes message "token" ||
          JS.includes message "session"
  then AUTH
  else UNKNOWN.

End Categorize.

(** An error object with the given message, code and type, the other
    fields as [standardizeError] initialises them. *)
Definition mkError (message : string) (code : error_code) (type : string) : ErrorObject :=
  {| err_id := "err_0"; err_timestamp := EmptyString; err_message := message;
     err_stack := EmptyString; err_code := code; err_type := type;
     err_category := UNKNOWN; err_severity := "medium" |}.

(** ** Standardized errors *)

(** What [handleError] receives: an [Error] (the name of its
    constructor, its message, stack and code), a plain object, of
    which the properties read are strings or numbers when they are
    there, a string, or anything else. *)
Inductive raised :=
| RaisedError (name message stack : string) (code : error_code)
| RaisedObject (message error description : option string)
               (code status statusCode : error_code)
               (stack type name : option string)
| RaisedString (s : string)
| RaisedOther.

(** [a || b] for optional strings *)
Definition or_string (a : option string) (b : option string) : option string :=
  match a with
  | Some s => if JS.truthy s then a else b
  | None => b
  end.

Definition code_truthy (c : error_code) : bool :=
  match c with
  | CodeUndefined | CodeNull => false
  | CodeNum n => negb (Z.eqb n 0)
  | CodeStr s => JS.truthy s
  end.

(** [a || b] for codes *)
Definition or_code (a b : error_code) : error_code := if code_truthy a then a else b.

(** [standardizeError(error, context)]; [id] is what [generateErrorId]
    returns and [timestamp] the time as an ISO string.  A stack that
    is absent reads as the empty string here. *)
Definition standardizeError (error : raised) (id timestamp : string) : ErrorObject :=
  let standardError := {| err_id := id; err_timestamp := timestamp;
                          err_message := EmptyString; err_stack := EmptyString;
                          err_code := CodeNull; err_type := "Error";
                          err_category := UNKNOWN; err_severity := "medium" |} in
  match error with
  | RaisedError name message stack code =>
      {| err_id := id; err_timestamp := timestamp; err_message := message;
         err_stack := stack; err_code := code; err_type := name;
         err_category := err_category standardError;
         err_severity := err_severity standardError |}
  | RaisedObject message error description code status statusCode stack type name =>
      {| err_id := id; err_timestamp := timestamp;
         err_message :=
           default "Unknown error"
                   (or_string (or_string (or_string message error) description)
                              (Some "Unknown error"));
         err_stack := default EmptyString stack;
         err_code := or_code (or_code code status) statusCode;
         err_type := default "CustomError"
                             (or_string (or_string type name) (Some "CustomError"));
         err_category := err_category standardError;
         err_severity := err_severity standardError |}
  | RaisedString s =>
      {| err_id := id; err_timestamp := timestamp; err_message := s;
         err_stack := EmptyString; err_code := CodeNull; err_type := "StringError";
         err_category := err_category standardError;
         err_severity := err_severity standardError |}
  | RaisedOther =>
      {| err_id := id; err_timestamp := timestamp;
         err_message := "Unknown error occurred";
         err_stack := EmptyString; err_code := CodeNull; err_type := "Error";
         err_category := err_category standardError;
         err_severity := err_severity standardError |}
  end.

(** ** The error log *)

(** [config.logging.maxLogEntries] *)
Definition maxLogEntries : nat := 100.

(** What [logError(errorObj)] makes of [this.errorLog]: the error goes
    in front, and the log is cut at its size limit. *)
Definition logError_log (errorObj : ErrorObject) (errorLog : list ErrorObject)
  : list ErrorObject :=
  let log := errorObj :: errorLog in
  if (maxLogEntries <? List.length log)%nat then firstn maxLogEntries log else log.

(** ** Retry *)

(** [config.retry.maxAttempts] *)
Definition maxAttempts : nat := 3.

(** [this.retryAttempts], and the calls of NotificationManager made so
    far: the method and the message of each. *)
Record manager := {
  retryAttempts : gmap string nat;
  notices : list (string * string)
}.

(** What [attemptRetry] resolves to. *)
Inductive retry_result :=
| RetrySucceeded (attempts : nat)     (* success: true, with the attempts *)
| RetryFailed (attempts : nat)        (* success: false, with the error and the attempts *)
| RetryRefused (reason : string).     (* success: false, with a reason *)

(** [attemptRetry(errorObj, context, options)] for the retry key
    [context.operationId || errorObj.id]; [retryFunction] is how the
    call of [context.retryFunction] ends, when the context has such a
    function.  The delay before the call is not modelled. *)
Definition attemptRetry (retryKey : string) (retryFunction : option (JS.completion string))
    (m : manager) : retry_result * manager :=
  let currentAttempts := default 0%nat (retryAttempts m !! retryKey) in
  if (maxAttempts <=? currentAttempts)%nat then
    (RetryRefused "Max retry attempts exceeded", m)
  else
    (* Show retry notification *)
    let shown :=
      JS.push (notices m)
              ("info", "Retrying operation... (Attempt " ++ JS.show_nat (currentAttempts + 1) ++
                       "/" ++ JS.show_nat maxAttempts ++ ")") in
    (* Update retry count *)
    let counted := <[ retryKey := (currentAttempts + 1)%nat ]> (retryAttempts m) in
    match retryFunction with
    | None =>
        (RetryRefused "No retry function provided",
         {| retryAttempts := counted; notices := shown |})
    | Some (JS.Return _) =>
        (* Success - clear retry count *)
        (RetrySucceeded (currentAttempts + 1),
         {| retryAttempts := delete retryKey counted;
            notices := JS.push shown
                         ("success", "Operation completed successfully after retry") |})
    | Some (JS.Throw _) =>
        (* Retry failed *)
        if (maxAttempts <=? currentAttempts + 1)%nat then
          (RetryFailed (currentAttempts + 1),
           {| retryAttempts := delete retryKey counted;
              notices := JS.push shown
                           ("error", "Operation failed after maximum retry attempts") |})
        else
          (RetryFailed (currentAttempts + 1),
           {| retryAttempts := counted; notices := shown |})
    end.

(** Calls of [attemptRetry] one after the other, each with its retry
    key and the outcome of its retry function: what the calls resolve
    to, and the state left. *)
Fixpoint retry_series (calls : list (string * JS.completion string)) (m : manager)
  : list retry_result * manager :=
  match calls with
  | [] => ([], m)
  | (retryKey, outcome) :: rest =>
      let '(r, m1) := attemptRetry retryKey (Some outcome) m in
      let '(rs, m2) := retry_series rest m1 in
      (r :: rs, m2)
  end.

(** ** Recovery *)

(** [config.recovery.fallbackUrls], in the order of its entries *)
Definition fallbackUrls : list (string * string) :=
  [("/api/", "/api/v1/"); ("/auth/", "/api/auth/")].

Fixpoint first_fallback (entries : list (string * string)) (originalUrl : string)
  : option string :=
  match entries with
  | [] => None
  | (pattern, replacement) :: rest =>
      if JS.includes originalUrl pattern
      then Some (JS.replace pattern replacement originalUrl)
      else first_fallback rest originalUrl
  end.

(** [getFallbackUrl(originalUrl)]; [None] stands for null. *)
Definition getFallbackUrl (originalUrl : string) : option string :=
  first_fallback fallbackUrls originalUrl.

(** What [attemptRecovery] reads of the context and of the page:
    [context.originalUrl]; how a call of [context.recoveryFunction]
    ends, for each URL, when the context has that function; how
    clearing the caches ends, when the window has caches; and how
    [AuthManager.refreshSession()] ends, when there is an AuthManager. *)
Record recovery_context := {
  originalUrl : option string;
  recoveryFunction : option (string -> JS.completion string);
  clear_caches : option (JS.completion unit);
  refreshSession : option (JS.completion bool)
}.

Inductive recovery_result :=
| Recovered (result : string)             (* success: true *)
| NotRecovered (reason : string)          (* success: false, with a reason *)
| RecoveryFailed (e : JS.js_error).       (* success: false, with the error caught *)

Definition category_is (errorObj : ErrorObject) (c : category) : bool :=
  match err_category errorObj, c with
  | NETWORK, NETWORK | API, API | VALIDATION, VALIDATION | AUTH, AUTH
  | PERMISSION, PERMISSION | DATA, DATA | UI, UI | SYSTEM, SYSTEM | UNKNOWN, UNKNOWN => true
  | _, _ => false
  end.

(** The part of [attemptRecovery] after the fallback: the caches, then
    the session. *)
Definition recover_data_auth (errorObj : ErrorObject) (context : recovery_context)
    (shown : list (string * string)) : recovery_result * list (string * string) :=
  (* Clear caches for data errors *)
  let after_caches :=
    if category_is errorObj DATA then
      match clear_caches context with
      | Some (JS.Throw e) => (Some e, shown)
      | Some (JS.Return _) =>
          (None, JS.push shown ("info", "Cache cleared, please refresh the page"))
      | None => (None, shown)
      end
    else (None, shown) in
  match after_caches with
  | (Some e, shown1) => (RecoveryFailed e, shown1)
  | (None, shown1) =>
      (* Refresh authentication for auth errors *)
      if category_is errorObj AUTH then
        match refreshSession context with
        | Some (JS.Throw e) => (RecoveryFailed e, shown1)
        | Some (JS.Return true) => (Recovered "Session refreshed", shown1)
        | Some (JS.Return false) | None =>
            (NotRecovered "No recovery method available", shown1)
        end
      else (NotRecovered "No recovery method available", shown1)
  end.

(** [attemptRecovery(errorObj, context)]: what it resolves to, and the
    calls of NotificationManager it makes. *)
Definition attemptRecovery (errorObj : ErrorObject) (context : recovery_context)
  : recovery_result * list (string * string) :=
  (* Try fallback URLs for API errors *)
  let fallback :=
    if category_is errorObj API then
      match originalUrl context with
      | Some url =>
          if JS.truthy url then
            match getFallbackUrl url with
            | Some fallbackUrl =>
                if JS.truthy fallbackUrl && negb (String.eqb fallbackUrl url)
                then Some fallbackUrl else None
            | None => None
            end
          else None
      | None => None
      end
    else None in
  match fallback with
  | Some fallbackUrl =>
      let shown := [("info", "Attempting to use alternative server endpoint...")] in
      match recoveryFunction context with
      | Some f =>
          match f fallbackUrl with
          | JS.Return result =>
              (Recovered result,
               JS.push shown ("success", "Successfully connected using alternative endpoint"))
          | JS.Throw e => (RecoveryFailed e, shown)
          end
      | None => recover_data_auth errorObj context shown
      end
  | None => recover_data_auth errorObj context []
  end.

End ErrorManager.

(* ================================================================== *)
(** * Regular expressions *)
(* ================================================================== *)

(** The patterns of the source are anchored at both ends and use
    character classes, sequence, alternation and bounded or unbounded
    repetition only; [matches r s] decides whether the whole of [s]
    belongs to [r], which is what [/^r$/.test(s)] returns. *)
Module Regex.

Inductive regex :=
| Void
| Eps
| Class (p : ascii -> bool)
| Seq (r s : regex)
| Alt (r s : regex)
| Star (r : regex).

Fixpoint nullable (r : regex) : bool :=
  match r with
  | Void => false
  | Eps => true
  | Class _ => false
  | Seq a b => nullable a && nullable b
  | Alt a b => nullable a || nullable b
  | Star _ => true
  end.

Fixpoint deriv (c : ascii) (r : regex) : regex :=
  match r with
  | Void => Void
  | Eps => Void
  | Class p => if p c then Eps else Void
  | Seq a b =>
      Alt (Seq (deriv c a) b) (if nullable a then deriv c b else Void)
  | Alt a b => Alt (deriv c a) (deriv c b)
  | Star a => Seq (deriv c a) (Star a)
  end.

Fixpoint matches (r : regex) (s : string) : bool :=
  match s with
  | EmptyString => nullable r
  | String c s' => matches (deriv c r) s'
  end.

(** [r{n}] followed by [k] *)
Fixpoint rep (n : nat) (r k : regex) : regex :=
  match n with
  | O => k
  | S m => Seq r (rep m r k)
  end.

(** [r{0,n}] *)
Fixpoint upto (n : nat) (r : regex) : regex :=
  match n with
  | O => Eps
  | S k => Alt Eps (Seq r (upto k r))
  end.

(** [r{n}], [r{lo,hi}] and [r{n,}] *)
Definition times (n : nat) (r : regex) : regex := rep n r Eps.
Definition range (lo hi : nat) (r : regex) : regex := rep lo r (upto (hi - lo) r).
Definition atleast (n : nat) (r : regex) : regex := rep n r (Star r).

(** [r+] and [r?] *)
Definition plus (r : regex) : regex := Seq r (Star r).
Definition opt (r : regex) : regex := Alt Eps r.

Definition chr (c : ascii) : regex := Class (Ascii.eqb c).

(** [seqs [r1; ...; rn]] is [r1 r2 ... rn]. *)
Fixpoint seqs (l : list regex) : regex :=
  match l with
  | [] => Eps
  | r :: rest => Seq r (seqs rest)
  end.

(** Character classes of the source patterns. *)
Definition upper : ascii -> bool := JS.is_upper.                    (* [A-Z] *)
Definition digit : ascii -> bool := JS.is_digit.                    (* \d, [0-9] *)
Definition upper_digit (c : ascii) : bool := JS.is_upper c || JS.is_digit c.   (* [A-Z0-9] *)
Definition upper_digit_hyphen (c : ascii) : bool :=                 (* [A-Z0-9\-] *)
  JS.is_upper c || JS.is_digit c || Ascii.eqb c "-".
Definition not_space_at (c : ascii) : bool :=                       (* [^\s@] *)
  negb (JS.is_white_space c || Ascii.eqb c "@").
Definition space_hyphen_paren (c : ascii) : bool :=                 (* [\s\-\(\)] *)
  JS.is_white_space c || Ascii.eqb c "-" || Ascii.eqb c "(" || Ascii.eqb c ")".
Definition digit_space_hyphen_paren (c : ascii) : bool :=           (* [\d\s\-\(\)] *)
  JS.is_digit c || space_hyphen_paren c.

(** A letter of a pattern with the [i] flag. *)
Definition chr_i (c : ascii) : regex :=
  Class (fun x => Ascii.eqb (JS.lower_char x) (JS.lower_char c)).

(** [/^[^\s@]+@[^\s@]+\.[^\s@]+$/] *)
Definition email_re : regex :=
  seqs [plus (Class not_space_at); chr "@"; plus (Class not_space_at);
        chr "."; plus (Class not_space_at)].

(** [/^[\+]?[1-9][\d]{0,15}$/] *)
Definition phone_re : regex :=
  seqs [opt (chr "+"); Class (JS.in_range 49 57); upto 15 (Class digit)].

(** [/^[\+]?[\d\s\-\(\)]{10,}$/] *)
Definition handler_phone_re : regex :=
  seqs [opt (chr "+"); atleast 10 (Class digit_space_hyphen_paren)].

(** [/^([01]?[0-9]|2[0-3]):[0-5][0-9]$/] *)
Definition time_re : regex :=
  seqs [Alt (Seq (opt (Class (JS.in_range 48 49))) (Class digit))
            (Seq (chr "2") (Class (JS.in_range 48 51)));
        chr ":"; Class (JS.in_range 48 53); Class digit].

(** [/^[A-Z]{2}\d{6}$/] *)
Definition patientId_re : regex := rep 2 (Class upper) (times 6 (Class digit)).

(** [/^[A-Z0-9]{6,12}$/] *)
Definition patient_re : regex := range 6 12 (Class upper_digit).

(** [/^[A-Z0-9\-]{8,16}$/] *)
Definition sample_re : regex := range 8 16 (Class upper_digit_hyphen).

(** [/^LAB[A-Z0-9]{5,10}$/] *)
Definition lab_re : regex :=
  seqs [chr "L"; chr "A"; chr "B"; range 5 10 (Class upper_digit)].

(** [/^[A-Z0-9\-]{3,20}$/] *)
Definition generic_id_re : regex := range 3 20 (Class upper_digit_hyphen).

(** [/^[A-Z0-9]{3,10}$/] *)
Definition drugCode_re : regex := range 3 10 (Class upper_digit).

(** [/^[A-Z0-9\-]{4,20}$/] *)
Definition batchNumber_re : regex := range 4 20 (Class upper_digit_hyphen).

(** [/^\d+(\.\d+)?\s*(mg|g|ml|l|%|μg|ng)$/i].  Under the [i] flag the
    Greek mu of the pattern also matches the micro sign (181), the only
    one of its case variants below 256. *)
Definition concentration_re : regex :=
  seqs [plus (Class digit);
        opt (Seq (chr ".") (plus (Class digit)));
        Star (Class JS.is_white_space);
        Alt (Seq (chr_i "m") (chr_i "g"))
       (Alt (chr_i "g")
       (Alt (Seq (chr_i "m") (chr_i "l"))
       (Alt (chr_i "l")
       (Alt (chr "%")
       (Alt (Seq (Class (fun x => (nat_of_ascii x =? 181)%nat)) (chr_i "g"))
            (Seq (chr_i "n") (chr_i "g")))))))].

(** The patterns of [Utils.Medical.validateReference]. *)

(** [/^LO\d{8}$/] *)
Definition lab_order_re : regex := seqs [chr "L"; chr "O"; times 8 (Class digit)].

(** [/^RX\d{10}$/] *)
Definition prescription_re : regex := seqs [chr "R"; chr "X"; times 10 (Class digit)].

(** [/^PV\d{6}\-\d{4}$/] *)
Definition patient_visit_re : regex :=
  seqs [chr "P"; chr "V"; times 6 (Class digit); chr "-"; times 4 (Class digit)].

(** [/^[A-Z]{2}\d{6,12}$/] *)
Definition reference_re : regex := rep 2 (Class upper) (range 6 12 (Class digit)).

End Regex.

(* ================================================================== *)
(** * The document: fields, forms, values *)
(* ================================================================== *)

Module DOM.

(** A [File] of a file input. *)
Record file := {
  file_name : string;
  file_size : Z;
  file_type : string;
  file_text : string              (* what FileReader.readAsText delivers *)
}.

(** An [input], [select] or [textarea] element.  [fvalue] is the
    [value] property of an input or textarea; a select element carries
    the values of its options and of those selected, its [value] being
    the first selected one. *)
Record field := {
  tagName : string;               (* "INPUT", "SELECT", "TEXTAREA" *)
  ftype : string;                 (* field.type *)
  name_attr : option string;      (* the name attribute, when present *)
  fid : string;                   (* field.id *)
  fvalue : string;
  checked : bool;
  disabled : bool;
  required : bool;                (* field.hasAttribute('required') *)
  placeholder : string;
  label : option string;          (* textContent of label[for=id], when there is one *)
  data_required : option string;  (* field.dataset.required *)
  data_rules : option string;     (* field.dataset.rules *)
  data_allowFuture : option string;  (* field.dataset.allowFuture *)
  files : list file;              (* field.files *)
  options : list string;          (* select: the values of the options *)
  selected : list string;         (* select: the values of the selected options *)
  default_value : string;         (* what form.reset() puts back *)
  default_checked : bool;
  default_selected : list string
}.

(** Assignments to the mutable properties of a field. *)
Definition with_state (v : string) (c : bool) (sel : list string) (fl : list file)
    (f : field) : field :=
  {| tagName := tagName f; ftype := ftype f; name_attr := name_attr f; fid := fid f;
     fvalue := v; checked := c; disabled := disabled f;
     required := required f; placeholder := placeholder f; label := label f;
     data_required := data_required f; data_rules := data_rules f;
     data_allowFuture := data_allowFuture f; files := fl;
     options := options f; selected := sel;
     default_value := default_value f; default_checked := default_checked f;
     default_selected := default_selected f |}.

Definition with_checked (b : bool) (f : field) : field :=
  with_state (fvalue f) b (selected f) (files f) f.
Definition with_value (v : string) (f : field) : field :=
  with_state v (checked f) (selected f) (files f) f.
Definition with_selected (l : list string) (f : field) : field :=
  with_state (fvalue f) (checked f) l (files f) f.
Definition with_files (l : list file) (f : field) : field :=
  with_state (fvalue f) (checked f) (selected f) l f.

(** What [form.reset()] does to a field. *)
Definition reset_field (f : field) : field :=
  with_state (default_value f) (default_checked f) (default_selected f) [] f.

(** [field.name]: the attribute, or the empty string. *)
Definition name (f : field) : string :=
  match name_attr f with Some n => n | None => EmptyString end.

Definition is_select (f : field) : bool := String.eqb (tagName f) "SELECT".

(** [field.value] *)
Definition value (f : field) : string :=
  if is_select f then hd EmptyString (selected f) else fvalue f.

(** Truthiness of an optional attribute: present and not empty. *)
Definition attr_truthy (a : option string) : bool :=
  match a with Some s => JS.truthy s | None => false end.

(** [a || d] for an optional string attribute *)
Definition attr_or (a : option string) (d : string) : string :=
  match a with
  | Some s => if JS.truthy s then s else d
  | None => d
  end.

(** [s || d] for strings *)
Definition str_or (s d : string) : string := if JS.truthy s then s else d.

(** The submit button of a form. *)
Record button := {
  btn_disabled : bool;
  btn_text : string               (* textContent *)
}.

Record form := {
  form_id : string;                       (* form.id *)
  data_formType : option string;          (* form.dataset.formType *)
  data_clearOnSuccess : option string;    (* form.dataset.clearOnSuccess *)
  data_successRedirect : option string;   (* form.dataset.successRedirect *)
  submitButton : option button;           (* form.querySelector('button[type="submit"]') *)
  fields : list field                     (* querySelectorAll('input, select, textarea') *)
}.

(** The [_metadata] object [prepareFormData] attaches. *)
Record metadata := {
  meta_formType : string;
  meta_timestamp : string;
  meta_userAgent : string;
  meta_url : string
}.

(** Values that travel through form data and JSON.  An entry of a
    FormData is a string or a File; [prepareFormData] also produces
    [false], arrays of earlier values, and the metadata object. *)
Inductive atom :=
| AUndefined
| ANull
| ABool (b : bool)
| AStr (s : string)
| AFile (f : file)
| AFunction       (* a property inherited from Object.prototype *)
| AObject.        (* an object without enumerable properties *)

Inductive jsval :=
| VAtom (a : atom)
| VArr (l : list atom)
| VMeta (m : metadata).

Definition VStr (s : string) : jsval := VAtom (AStr s).
Definition VBool (b : bool) : jsval := VAtom (ABool b).
Definition VFile (f : file) : jsval := VAtom (AFile f).

(** ToBoolean *)
Definition atom_truthy (a : atom) : bool :=
  match a with
  | AUndefined | ANull => false
  | ABool b => b
  | AStr s => JS.truthy s
  | AFile _ | AFunction | AObject => true
  end.

Definition truthy (v : jsval) : bool :=
  match v with
  | VAtom a => atom_truthy a
  | VArr _ | VMeta _ => true
  end.

(** ToString.  Inside [Array.prototype.join], null and undefined give
    the empty string. *)
Definition atom_toString (a : atom) : string :=
  match a with
  | AUndefined => "undefined"
  | ANull => "null"
  | ABool true => "true"
  | ABool false => "false"
  | AStr s => s
  | AFile _ => "[object File]"
  | AFunction => "function () { [native code] }"
  | AObject => "[object Object]"
  end.

Definition atom_join_piece (a : atom) : string :=
  match a with
  | AUndefined | ANull => EmptyString
  | _ => atom_toString a
  end.

Definition toString (v : jsval) : string :=
  match v with
  | VAtom a => atom_toString a
  | VArr l => JS.join "," (List.map atom_join_piece l)
  | VMeta _ => "[object Object]"
  end.

(** What [JSON.parse(JSON.stringify(v))] returns for a value inside an
    array: functions and undefined become null, a File an empty object. *)
Definition atom_json_in_array (a : atom) : atom :=
  match a with
  | AUndefined | AFunction => ANull
  | AFile _ => AObject
  | _ => a
  end.

(** The same for the value of a property; [None] when the property is
    left out of the text. *)
Definition json_roundtrip (v : jsval) : option jsval :=
  match v with
  | VAtom AUndefined | VAtom AFunction => None
  | VAtom (AFile _) => Some (VAtom AObject)
  | VAtom a => Some (VAtom a)
  | VArr l => Some (VArr (List.map atom_json_in_array l))
  | VMeta m => Some (VMeta m)
  end.

End DOM.

(* ================================================================== *)
(** * Rule registry and field validator: FormValidator *)
(* ================================================================== *)

Module FormValidator.
Import DOM.

(** A rule: [test] and [message].  [test v = None] when the call
    throws. *)
Record rule := {
  test : string -> option bool;
  message : string
}.

(** [value.replace(/[\s\-\(\)]/g, '')] *)
Fixpoint strip_phone_punctuation (s : string) : string :=
  match s with
  | EmptyString => EmptyString
  | String c s' =>
      if Regex.space_hyphen_paren c then strip_phone_punctuation s'
      else String c (strip_phone_punctuation s')
  end.

Section Rules.
Context {host : JSHost}.

(** ** [FormValidator.rules] *)

Definition required : rule :=
  {| test := fun value => Some (negb (JS.is_empty (JS.trim value)));
     message := "This field is required" |}.

Definition email : rule :=
  {| test := fun value => Some (Regex.matches Regex.email_re value);
     message := "Please enter a valid email address" |}.

Definition phone : rule :=
  {| test := fun value =>
       Some (Regex.matches Regex.phone_re (strip_phone_punctuation value));
     message := "Please enter a valid phone number" |}.

Definition number : rule :=
  {| test := fun value =>
       Some (negb (JS.isNaN_num (ToNumber value)) && JS.isFinite_num (ToNumber value));
     message := "Please enter a valid number" |}.

Definition positiveNumber : rule :=
  {| test := fun value =>
       Some (negb (JS.isNaN_num (ToNumber value)) && JS.isFinite_num (ToNumber value) &&
             JS.num_gt (parseFloat value) (JS.of_Z 0));
     message := "Please enter a positive number" |}.

Definition integer : rule :=
  {| test := fun value => Some (JS.isInteger_num (ToNumber value));
     message := "Please enter a whole number" |}.

Definition date : rule :=
  {| test := fun value =>
       Some (match Date_parse value with Some _ => true | None => false end);
     message := "Please enter a valid date" |}.

(** The factories.  Called through [getRuleConfig] their parameter is
    the text after the colon. *)
Definition minLength (min : string) : rule :=
  {| test := fun value => Some (JS.num_ge (JS.of_nat (String.length value)) (ToNumber min));
     message := "Must be at least " ++ min ++ " characters long" |}.

Definition maxLength (max : string) : rule :=
  {| test := fun value => Some (JS.num_le (JS.of_nat (String.length value)) (ToNumber max));
     message := "Must not exceed " ++ max ++ " characters" |}.

(** [pattern(regex, customMessage)] receives a string for [regex]; a
    string has no [test] method, so the rule's test throws. *)
Definition pattern (regex : string) : rule :=
  {| test := fun _ => None;
     message := "Invalid format" |}.

(** ** [FormValidator.medicalRules] *)

Definition patientId : rule :=
  {| test := fun value => Some (Regex.matches Regex.patientId_re value);
     message := "Patient ID must be 2 letters followed by 6 digits (e.g., AB123456)" |}.

Definition drugCode : rule :=
  {| test := fun value => Some (Regex.matches Regex.drugCode_re value);
     message := "Drug code must be 3-10 alphanumeric characters" |}.

Definition batchNumber : rule :=
  {| test := fun value => Some (Regex.matches Regex.batchNumber_re value);
     message := "Batch number must be 4-20 alphanumeric characters with optional hyphens" |}.

Definition concentration : rule :=
  {| test := fun value => Some (Regex.matches Regex.concentration_re value);
     message := "Enter concentration with unit (e.g., 500mg, 2.5ml, 10%)" |}.

(** What a property of a registry object is. *)
Inductive registry_entry :=
| Plain (r : rule)
| Factory (f : string -> rule)
| Inherited.          (* a property of Object.prototype *)

Definition rules_own_names : list string :=
  ["required"; "email"; "phone"; "number"; "positiveNumber"; "integer"; "date";
   "minLength"; "maxLength"; "pattern"].

(** [this.rules[name]] *)
Definition rules (name : string) : option registry_entry :=
  if String.eqb name "required" then Some (Plain required)
  else if String.eqb name "email" then Some (Plain email)
  else if String.eqb name "phone" then Some (Plain phone)
  else if String.eqb name "number" then Some (Plain number)
  else if String.eqb name "positiveNumber" then Some (Plain positiveNumber)
  else if String.eqb name "integer" then Some (Plain integer)
  else if String.eqb name "date" then Some (Plain date)
  else if String.eqb name "minLength" then Some (Factory minLength)
  else if String.eqb name "maxLength" then Some (Factory maxLength)
  else if String.eqb name "pattern" then Some (Factory pattern)
  else if JS.arr_includes JS.object_prototype_names name then Some Inherited
  else None.

(** [this.medicalRules[name]] *)
Definition medicalRules (name : string) : option registry_entry :=
  if String.eqb name "patientId" then Some (Plain patientId)
  else if String.eqb name "drugCode" then Some (Plain drugCode)
  else if String.eqb name "batchNumber" then Some (Plain batchNumber)
  else if String.eqb name "concentration" then Some (Plain concentration)
  else if JS.arr_includes JS.object_prototype_names name then Some Inherited
  else None.

(** What [getRuleConfig] hands to the loop of [validateField]. *)
Inductive rule_config :=
| RuleNull                        (* null or another falsy value: the rule is skipped *)
| RuleObj (r : rule)
| RuleNoTest                      (* a truthy value without a test method *)
| RuleLookupThrows (e : JS.js_error).

(** [this.rules[ruleName](param)] for a method inherited from
    Object.prototype. *)
Definition inherited_call (ruleName param : string) : rule_config :=
  if String.eqb ruleName "hasOwnProperty" || String.eqb ruleName "propertyIsEnumerable"
  then (if JS.arr_includes rules_own_names param then RuleNoTest else RuleNull)
  else if String.eqb ruleName "isPrototypeOf" ||
          String.eqb ruleName "__lookupGetter__" || String.eqb ruleName "__lookupSetter__"
  then RuleNull
  else if String.eqb ruleName "__defineGetter__" || String.eqb ruleName "__defineSetter__"
  then RuleLookupThrows
         (JS.TypeError ("Object.prototype." ++ ruleName ++ ": Expecting function"))
  else RuleNoTest.

Definition getRuleConfig (rule : string) : rule_config :=
  (* Check standard rules first *)
  match rules rule with
  | Some (Plain r) => RuleObj r
  | Some (Factory _) | Some Inherited => RuleNoTest
  | None =>
      (* Check medical rules *)
      match medicalRules rule with
      | Some (Plain r) => RuleObj r
      | Some (Factory _) | Some Inherited => RuleNoTest
      | None =>
          (* Handle parameterized rules *)
          if JS.includes rule ":" then
            let parts := JS.split ":" rule in
            let ruleName := nth 0 parts EmptyString in
            let param := nth 1 parts EmptyString in
            match rules ruleName with
            | Some (Factory f) => RuleObj (f param)
            | Some Inherited =>
                (* __proto__ is an object, not a function *)
                if String.eqb ruleName "__proto__" then RuleNull
                else inherited_call ruleName param
            | Some (Plain _) | None => RuleNull
            end
          else RuleNull
      end
  end.

(** ** Field validation *)

Definition getFieldRules (f : field) : list string :=
  ((* Required rule *)
   (if DOM.required f || match data_required f with
                         | Some s => String.eqb s "true"
                         | None => false
                         end
    then ["required"] else []) ++
   (* Type-based rules *)
   (if String.eqb (ftype f) "email" then ["email"] else []) ++
   (if String.eqb (ftype f) "tel" then ["phone"] else []) ++
   (if String.eqb (ftype f) "number" then ["number"] else []) ++
   (* Custom rules from data attributes *)
   (if attr_truthy (data_rules f)
    then JS.split "," (attr_or (data_rules f) EmptyString) else []))%list.

(** The error state of a field in the document: its [is-valid] and
    [is-invalid] classes, and the texts of the [.invalid-feedback]
    nodes below its parent, in document order. *)
Record field_ui := {
  is_valid : bool;
  is_invalid : bool;
  feedback : list string
}.

(** Removes both classes and the first feedback node. *)
Definition clearFieldError (u : field_ui) : field_ui :=
  {| is_valid := false; is_invalid := false; feedback := tl (feedback u) |}.

(** Clears, marks the field invalid and appends a feedback node as the
    last child of the parent. *)
Definition showFieldError (u : field_ui) (msg : string) : field_ui :=
  let u' := clearFieldError u in
  {| is_valid := false; is_invalid := true; feedback := (feedback u' ++ [msg])%list |}.

Definition showFieldSuccess (u : field_ui) : field_ui :=
  let u' := clearFieldError u in
  {| is_valid := true; is_invalid := false; feedback := feedback u' |}.

(** The loop [rules.forEach(rule => ...)]: the messages of the failing
    rules in order, and the rules the loop looked up, until one of them
    throws. *)
Fixpoint apply_rules (rs : list string) (value : string)
    (errors consulted : list string) : JS.completion (list string) * list string :=
  match rs with
  | [] => (JS.Return errors, consulted)
  | r :: rest =>
      let seen := (consulted ++ [r])%list in
      match getRuleConfig r with
      | RuleNull => apply_rules rest value errors seen
      | RuleLookupThrows e => (JS.Throw e, seen)
      | RuleNoTest => (JS.Throw (JS.TypeError "ruleConfig.test is not a function"), seen)
      | RuleObj cfg =>
          match test cfg value with
          | None => (JS.Throw (JS.TypeError "regex.test is not a function"), seen)
          | Some true => apply_rules rest value errors seen
          | Some false => apply_rules rest value (errors ++ [message cfg])%list seen
          end
      end
  end.

(** One call of [validateField]: what it returns, the rules it looked
    up, and the error state it leaves. *)
Record run := {
  result : JS.completion bool;
  consulted : list string;
  ui : field_ui
}.

Definition validateField (f : field) (u : field_ui) : run :=
  let value := JS.trim (DOM.value f) in
  let rs := getFieldRules f in
  (* Skip validation for empty optional fields *)
  if negb (JS.truthy value) && negb (JS.arr_includes rs "required") then
    {| result := JS.Return true; consulted := []; ui := clearFieldError u |}
  else
    (* Apply validation rules *)
    match apply_rules rs value [] [] with
    | (JS.Throw e, seen) => {| result := JS.Throw e; consulted := seen; ui := u |}
    | (JS.Return [], seen) =>
        {| result := JS.Return true; consulted := seen; ui := showFieldSuccess u |}
    | (JS.Return (e :: _), seen) =>
        {| result := JS.Return false; consulted := seen; ui := showFieldError u e |}
    end.

(** ** Form validation *)

(** The error state of the fields of a form: the classes of each
    field, by its index among the fields of the form, and the feedback
    nodes below each parent; [parent i] is the parent of the field
    with index [i].  The parents of two fields are the same node or
    lie apart: none of them contains another. *)
Record form_ui := {
  parent : nat -> nat;
  classes : gmap nat (bool * bool);       (* is-valid and is-invalid *)
  nodes : gmap nat (list string)
}.

(** The error state of the field with index [i]. *)
Definition ui_of (d : form_ui) (i : nat) : field_ui :=
  let c := default (false, false) (classes d !! i) in
  {| is_valid := fst c; is_invalid := snd c;
     feedback := default [] (nodes d !! parent d i) |}.

Definition set_ui (d : form_ui) (i : nat) (u : field_ui) : form_ui :=
  {| parent := parent d;
     classes := <[ i := (is_valid u, is_invalid u) ]> (classes d);
     nodes := <[ parent d i := feedback u ]> (nodes d) |}.

(** The loop [fields.forEach(field => ...)] of [validateForm], from
    the field with index [i] on.  An exception of [validateField] ends
    the loop and the call. *)
Fixpoint validate_fields (fs : list field) (i : nat) (isValid : bool)
    (firstInvalidField : option nat) (d : form_ui)
  : JS.completion (bool * option nat) * form_ui :=
  match fs with
  | [] => (JS.Return (isValid, firstInvalidField), d)
  | f :: rest =>
      let r := validateField f (ui_of d i) in
      match result r with
      | JS.Throw e => (JS.Throw e, d)
      | JS.Return fieldValid =>
          let d' := set_ui d i (ui r) in
          if fieldValid then validate_fields rest (S i) isValid firstInvalidField d'
          else validate_fields rest (S i) false
                 (match firstInvalidField with
                  | None => Some i
                  | Some first => Some first
                  end) d'
      end
  end.

(** One call of [validateForm]: what it returns, the field it calls
    [focus()] and [scrollIntoView()] on, and the error state it
    leaves. *)
Record form_run := {
  form_result : JS.completion bool;
  focused : option nat;
  form_state : form_ui
}.

Definition validateForm (fm : form) (d : form_ui) : form_run :=
  match validate_fields (fields fm) 0 true None d with
  | (JS.Throw e, d') => {| form_result := JS.Throw e; focused := None; form_state := d' |}
  | (JS.Return (isValid, firstInvalidField), d') =>
      (* Focus first invalid field *)
      {| form_result := JS.Return isValid; focused := firstInvalidField; form_state := d' |}
  end.

(** [FormValidator.clearFormErrors(form)]: no class and no feedback
    node is left in the form. *)
Definition clearFormErrors (d : form_ui) : form_ui :=
  {| parent := parent d; classes := ∅; nodes := ∅ |}.

End Rules.
End FormValidator.

(* ================================================================== *)
(** * Utils.String.validateMedicalId *)
(* ================================================================== *)

(** Number and date formatting of the engine. *)
Class JSFormat := {
  (** [String(x)], the text of a number in a template literal *)
  Number_toString : JS.jsnum -> string;
  (** [new Date(t).toLocaleDateString('en-US', {year: 'numeric',
      month: 'short', day: 'numeric'})] for a valid time value [t] *)
  toLocaleDateString_short : Z -> string
}.

Module Utils.

Record id_result := {
  id_isValid : bool;
  id_formatted : string;
  id_errors : list string
}.

(** [validateMedicalId(id, type)] for a string [id]; [type] defaults
    to ['patient']. *)
Definition validateMedicalId (id : string) (type : string) : id_result :=
  if negb (JS.truthy id) then
    {| id_isValid := false; id_formatted := id; id_errors := ["ID is required"] |}
  else
    let cleanId := JS.toUpperCase (JS.trim id) in
    let check (re : Regex.regex) (msg : string) :=
      if negb (Regex.matches re cleanId)
      then {| id_isValid := false; id_formatted := id; id_errors := [msg] |}
      else {| id_isValid := true; id_formatted := cleanId; id_errors := [] |} in
    if String.eqb type "patient" then
      check Regex.patient_re "Patient ID must be 6-12 characters, letters and numbers only"
    else if String.eqb type "sample" then
      check Regex.sample_re
            "Sample ID must be 8-16 characters, letters, numbers, and hyphens only"
    else if String.eqb type "lab" then
      check Regex.lab_re
            ("Lab ID must start with " ++ JS.dquote ++ "LAB" ++ JS.dquote ++
             " followed by 5-10 alphanumeric characters")
    else
      (* Generic ID validation *)
      check Regex.generic_id_re
            "ID must be 3-20 characters, letters, numbers, and hyphens only".

(** ** Utils.String *)

Definition is_alnum (c : ascii) : bool :=                            (* [a-zA-Z0-9] *)
  JS.is_lower c || JS.is_upper c || JS.is_digit c.

Definition is_word (c : ascii) : bool := is_alnum c || Ascii.eqb c "_".   (* \w *)

(** [truncate(str, length, suffix)] for a string [str] and an integer
    [length]; the defaults are 100 and ['...']. *)
Definition truncate (str : string) (length : Z) (suffix : string) : string :=
  if negb (JS.truthy str) then str
  else if (Z.of_nat (String.length str) <=? length)%Z then str
  else JS.substring 0 (length - Z.of_nat (String.length suffix)) str ++ suffix.

(** [sanitize(str)]: [str.replace(/[^a-zA-Z0-9]/g, '')] *)
Definition sanitize (str : string) : string :=
  if negb (JS.truthy str) then str
  else JS.filter_chars is_alnum str.

Definition word_space_hyphen (c : ascii) : bool :=                   (* [\w\s-] *)
  is_word c || JS.is_white_space c || Ascii.eqb c "-".

Definition space_underscore_hyphen (c : ascii) : bool :=             (* [\s_-] *)
  JS.is_white_space c || Ascii.eqb c "_" || Ascii.eqb c "-".

(** [s.replace(/[\s_-]+/g, '-')]: every maximal run of the class
    becomes one hyphen.  [in_run] tells that the character before
    belongs to the run under replacement. *)
Fixpoint hyphenate (in_run : bool) (s : string) : string :=
  match s with
  | EmptyString => EmptyString
  | String c s' =>
      if space_underscore_hyphen c
      then (if in_run then hyphenate true s' else String "-" (hyphenate true s'))
      else String c (hyphenate false s')
  end.

(** [s.replace(/^-+|-+$/g, '')]: the hyphens at the start go, then
    those at the end. *)
Fixpoint strip_leading_hyphens (s : string) : string :=
  match s with
  | EmptyString => EmptyString
  | String c s' => if Ascii.eqb c "-" then strip_leading_hyphens s' else s
  end.

Fixpoint strip_trailing_hyphens (s : string) : string :=
  match s with
  | EmptyString => EmptyString
  | String c s' =>
      let r := strip_trailing_hyphens s' in
      if Ascii.eqb c "-" && JS.is_empty r then EmptyString else String c r
  end.

(** [toSlug(str)] *)
Definition toSlug (str : string) : string :=
  if negb (JS.truthy str) then str
  else
    strip_trailing_hyphens
      (strip_leading_hyphens
         (hyphenate false
            (JS.filter_chars word_space_hyphen (JS.trim (JS.toLowerCase str))))).

(** [mask(str, options)] for a string [str]; [maskChar], [visibleStart]
    and [visibleEnd] are the entries of the configuration the options
    give, ['*'], 2 and 2 by default; the two numbers are integers. *)
Definition mask (str maskChar : string) (visibleStart visibleEnd : Z) : string :=
  if negb (JS.truthy str) then str
  else
    let len := Z.of_nat (String.length str) in
    if (len <=? visibleStart + visibleEnd)%Z then JS.repeat maskChar (String.length str)
    else
      let start := JS.substring 0 visibleStart str in
      let finish := JS.substring_from (len - visibleEnd) str in
      let middle := JS.repeat maskChar (Z.to_nat (len - visibleStart - visibleEnd)) in
      start ++ middle ++ finish.

(** ** Utils.Medical.validateReference *)

(** [validateReference(reference, type)] for a string [reference];
    [type] defaults to ['general']. *)
Definition validateReference (reference : string) (type : string) : id_result :=
  if negb (JS.truthy reference) then
    {| id_isValid := false; id_formatted := reference;
       id_errors := ["Reference number is required"] |}
  else
    let cleanRef := JS.toUpperCase (JS.trim reference) in
    let check (re : Regex.regex) (msg : string) :=
      if negb (Regex.matches re cleanRef)
      then {| id_isValid := false; id_formatted := reference; id_errors := [msg] |}
      else {| id_isValid := true; id_formatted := cleanRef; id_errors := [] |} in
    if String.eqb type "lab_order" then
      check Regex.lab_order_re "Lab order must be format: LO########"
    else if String.eqb type "prescription" then
      check Regex.prescription_re "Prescription must be format: RX##########"
    else if String.eqb type "patient_visit" then
      check Regex.patient_visit_re "Patient visit must be format: PV######-####"
    else
      check Regex.reference_re "Reference must be format: 2 letters followed by 6-12 digits".

(** ** Utils.Number.validateMedicalRange and Utils.Medical.validateVitals *)

(** A value handed in where a number is expected: null, undefined, a
    number or a string. *)
Inductive number_input :=
| InNull
| InUndefined
| InNumber (x : JS.jsnum)
| InString (s : string).

(** A reference range; each bound is a number or absent. *)
Record range := {
  range_min : option JS.jsnum;
  range_max : option JS.jsnum;
  critical_low : option JS.jsnum;
  critical_high : option JS.jsnum
}.

Record range_result := {
  range_isValid : bool;
  status : string;
  range_warnings : list string
}.

Record vitals_result := {
  vitals_isValid : bool;
  vitals_warnings : list string;
  vitals_errors : list string
}.

Section Number.
Context {host : JSHost} {format : JSFormat}.

(** [isNaN(value)] *)
Definition input_isNaN (value : number_input) : bool :=
  match value with
  | InNull => false
  | InUndefined => true
  | InNumber x => JS.isNaN_num x
  | InString s => JS.isNaN_num (ToNumber s)
  end.

(** [parseFloat(value)]: the argument is converted to a string first;
    the text of a number reads back as that number. *)
Definition input_parseFloat (value : number_input) : JS.jsnum :=
  match value with
  | InNull | InUndefined => JS.NaN
  | InNumber x => x
  | InString s => parseFloat s
  end.

(** The text of a value in a template literal. *)
Definition input_toString (value : number_input) : string :=
  match value with
  | InNull => "null"
  | InUndefined => "undefined"
  | InNumber x => Number_toString x
  | InString s => s
  end.

(** One of the four checks: when the bound is there and the test
    holds, the status changes and a warning is added. *)
Definition range_check (bound : option JS.jsnum) (test : JS.jsnum -> bool)
    (new_status : string) (warning : JS.jsnum -> string) (result : range_result)
  : range_result :=
  match bound with
  | Some b =>
      if test b
      then {| range_isValid := range_isValid result; status := new_status;
              range_warnings := JS.push (range_warnings result) (warning b) |}
      else result
  | None => result
  end.

(** [Utils.Number.validateMedicalRange(value, range)] *)
Definition validateMedicalRange (value : number_input) (r : range) : range_result :=
  match value with
  | InNull | InUndefined =>
      {| range_isValid := false; status := "invalid"; range_warnings := [] |}
  | _ =>
      if input_isNaN value then
        {| range_isValid := false; status := "invalid"; range_warnings := [] |}
      else
        let numValue := input_parseFloat value in
        let result := {| range_isValid := true; status := "normal"; range_warnings := [] |} in
        let result :=
          range_check (range_min r) (fun b => JS.num_lt numValue b) "low"
            (fun b => "Value is below normal range (minimum: " ++ Number_toString b ++ ")")
            result in
        let result :=
          range_check (range_max r) (fun b => JS.num_gt numValue b) "high"
            (fun b => "Value is above normal range (maximum: " ++ Number_toString b ++ ")")
            result in
        let result :=
          range_check (critical_low r) (fun b => JS.num_lt numValue b) "critical_low"
            (fun _ => "CRITICAL: Value is dangerously low") result in
        range_check (critical_high r) (fun b => JS.num_gt numValue b) "critical_high"
          (fun _ => "CRITICAL: Value is dangerously high") result
  end.

Definition mkRange (lo hi clo chi : Z) : range :=
  {| range_min := Some (JS.of_Z lo); range_max := Some (JS.of_Z hi);
     critical_low := Some (JS.of_Z clo); critical_high := Some (JS.of_Z chi) |}.

(** [ranges[vital]]: a range of the table, or a property of
    Object.prototype, which has none of the four bounds. *)
Definition ranges (vital : string) : option range :=
  if String.eqb vital "temperature" then Some (mkRange 35 42 35 40)
  else if String.eqb vital "heart_rate" then Some (mkRange 40 120 40 150)
  else if String.eqb vital "blood_pressure_systolic" then Some (mkRange 90 140 80 180)
  else if String.eqb vital "blood_pressure_diastolic" then Some (mkRange 60 90 50 110)
  else if String.eqb vital "respiratory_rate" then Some (mkRange 12 20 10 30)
  else if String.eqb vital "oxygen_saturation" then Some (mkRange 95 100 88 100)
  else if JS.arr_includes JS.object_prototype_names vital then
    Some {| range_min := None; range_max := None; critical_low := None; critical_high := None |}
  else None.

(** The body of the loop of [validateVitals] for one entry. *)
Definition check_vital (result : vitals_result) (entry : string * number_input)
  : vitals_result :=
  let '(vital, value) := entry in
  match ranges vital, value with
  | None, _ | _, InNull | _, InUndefined => result
  | Some r, _ =>
      let validation := validateMedicalRange value r in
      let text := vital ++ ": " ++ input_toString value ++ " (" ++
                  JS.join ", " (range_warnings validation) ++ ")" in
      if JS.includes (status validation) "critical" then
        {| vitals_isValid := false; vitals_warnings := vitals_warnings result;
           vitals_errors := JS.push (vitals_errors result) ("CRITICAL " ++ text) |}
      else if negb (String.eqb (status validation) "normal") then
        {| vitals_isValid := vitals_isValid result;
           vitals_warnings := JS.push (vitals_warnings result) text;
           vitals_errors := vitals_errors result |}
      else result
  end.

(** [Utils.Medical.validateVitals(vitals)]; [vitals] is given by its
    entries, in the order [Object.entries] lists them. *)
Definition validateVitals (vitals : list (string * number_input)) : vitals_result :=
  fold_left check_vital vitals
            {| vitals_isValid := true; vitals_warnings := []; vitals_errors := [] |}.

End Number.

(** ** Utils.Array *)

(** An integer argument of [slice] as an index into an array of
    length [len]: a negative one counts from the end. *)
Definition slice_index (n : Z) (len : nat) : nat :=
  if (n <? 0)%Z then Z.to_nat (Z.max (Z.of_nat len + n) 0)
  else Nat.min (Z.to_nat n) len.

(** [array.slice(start, end)] for integer arguments *)
Definition slice {A : Type} (start finish : Z) (array : list A) : list A :=
  let from := slice_index start (List.length array) in
  let to := slice_index finish (List.length array) in
  firstn (to - from) (skipn from array).

Record pagination := {
  pg_page : Z;
  pg_size : Z;
  pg_total : Z;
  pg_pages : Z;
  hasNext : bool;
  hasPrev : bool
}.

(** [paginate(array, page, size)] for an array, an integer [page] and
    a positive integer [size]; the defaults are 1 and 10. *)
Definition paginate {A : Type} (array : list A) (page : Z) (size : positive)
  : list A * pagination :=
  let total := Z.of_nat (List.length array) in
  let pages := Qceiling (total # size) in
  let currentPage := Z.max 1 (Z.min page pages) in
  let start := ((currentPage - 1) * Zpos size)%Z in
  let data := slice start (start + Zpos size) array in
  (data,
   {| pg_page := currentPage; pg_size := Zpos size; pg_total := total; pg_pages := pages;
      hasNext := (currentPage <? pages)%Z; hasPrev := (1 <? currentPage)%Z |}).

Section ByKey.
Context {A K : Type} `{EqDecision K}.

(** The key of an item: [key(item)], or [item[key]].  Two keys are the
    same member of a [Set] exactly when they are equal. *)
Variable key : A -> K.

(** The filter of [uniqueBy], with the keys seen so far. *)
Fixpoint unique_from (seen : list K) (array : list A) : list A :=
  match array with
  | [] => []
  | item :: rest =>
      let keyValue := key item in
      if bool_decide (keyValue ∈ seen) then unique_from seen rest
      else item :: unique_from (keyValue :: seen) rest
  end.

(** [uniqueBy(array, key)] *)
Definition uniqueBy (array : list A) : list A := unique_from [] array.

End ByKey.

Section GroupBy.
Context {A : Type}.

(** The group key of an item, as the property name it becomes. *)
Variable key : A -> string.

(** The reducer of [groupBy] over the items.  [groups[groupKey]] of a
    key that is no own property is what Object.prototype provides: a
    truthy value without a [push] method. *)
Fixpoint group_from (groups : gmap string (list A)) (array : list A)
  : JS.completion (gmap string (list A)) :=
  match array with
  | [] => JS.Return groups
  | item :: rest =>
      let groupKey := key item in
      match groups !! groupKey with
      | Some l => group_from (<[ groupKey := JS.push l item ]> groups) rest
      | None =>
          if JS.arr_includes JS.object_prototype_names groupKey
          then JS.Throw (JS.TypeError "groups[groupKey].push is not a function")
          else group_from (<[ groupKey := [item] ]> groups) rest
      end
  end.

(** [groupBy(array, key)]: the own properties of the object returned. *)
Definition groupBy (array : list A) : JS.completion (gmap string (list A)) :=
  group_from ∅ array.

End GroupBy.

(** ** Utils.Storage *)

(** [clearByPrefix(prefix, storageType)] on the storage chosen, which
    maps keys to texts: the number of items cleared, and the storage
    left. *)
Definition clearByPrefix (prefix : string) (storage : gmap string string)
  : nat * gmap string string :=
  let keysToRemove :=
    List.filter (fun key => JS.truthy key && JS.startsWith key prefix)
                (List.map fst (map_to_list storage)) in
  (List.length keysToRemove,
   fold_left (fun (st : gmap string string) key => delete key st) keysToRemove storage).

(** ** Utils.DateTime.getTimeAgo *)

(** The argument of [getTimeAgo]: a [Date] with its time value, absent
    for an invalid date, or a string, which [new Date] parses. *)
Inductive date_input :=
| DateObject (t : option Z)
| DateString (s : string).

Section DateTime.
Context {host : JSHost} {format : JSFormat}.

Definition time_value (date : date_input) : option Z :=
  match date with
  | DateObject t => t
  | DateString s => Date_parse s
  end.

(** [n unit(s) ago] *)
Definition ago (n : Z) (unit : string) : string :=
  JS.show_Z n ++ " " ++ unit ++ (if (1 <? n)%Z then "s" else EmptyString) ++ " ago".

(** [getTimeAgo(date)] at the time [now].  With an invalid date every
    comparison fails and [formatDate] answers for the last branch. *)
Definition getTimeAgo (date : date_input) (now : Z) : string :=
  match time_value date with
  | None => "Invalid Date"
  | Some t =>
      let diffMs := (now - t)%Z in
      let diffSecs := (diffMs / 1000)%Z in
      let diffMins := (diffSecs / 60)%Z in
      let diffHours := (diffMins / 60)%Z in
      let diffDays := (diffHours / 24)%Z in
      if (diffSecs <? 60)%Z then "Just now"
      else if (diffMins <? 60)%Z then ago diffMins "minute"
      else if (diffHours <? 24)%Z then ago diffHours "hour"
      else if (diffDays <? 7)%Z then ago diffDays "day"
      else toLocaleDateString_short t
  end.

End DateTime.

End Utils.

(* ================================================================== *)
(** * Toast notifications: NotificationManager *)
(* ================================================================== *)

Module NotificationManager.

(** A toast of the container: its id, its type, its message, and
    whether it is persistent (a persistent toast has no close button). *)
Record toast := {
  toast_id : string;
  toast_type : string;
  toast_message : string;
  toast_persistent : bool
}.

Definition defaultDuration : Z := 5000.
Definition maxNotifications : nat := 5.

(** [config.container]: null until [ensureContainer] creates it, then
    its children in document order. *)
Definition container := option (list toast).

Definition ensureContainer (c : container) : list toast := default [] c.

(** The loop of [limitNotifications]:
    [while (notifications.length > max) notifications[0].remove()]. *)
Fixpoint limit_children (children : list toast) : list toast :=
  match children with
  | [] => []
  | _ :: rest =>
      if (maxNotifications <? List.length children)%nat then limit_children rest
      else children
  end.

Definition limitNotifications (c : container) : container :=
  option_map limit_children c.

(** One call of [show]: the id it returns, the delay of the timer it
    sets for the removal, if it sets one, and the container it leaves.
    [id] is what [generateId] returns. *)
Record shown := {
  shown_id : string;
  timer : option Z;
  after : container
}.

Definition show (id message type : string) (duration : Z) (persistent : bool)
    (c : container) : shown :=
  (* Ensure container exists *)
  let children := ensureContainer c in
  let notification :=
    {| toast_id := id; toast_type := type; toast_message := message;
       toast_persistent := persistent |} in
  (* Add to container *)
  let c1 := Some (children ++ [notification])%list in
  {| shown_id := id;
     (* Auto-remove if not persistent *)
     timer := if negb persistent && (0 <? duration)%Z then Some duration else None;
     (* Limit number of notifications *)
     after := limitNotifications c1 |}.

(** With the default options. *)
Definition success (id message : string) (c : container) : shown :=
  show id message "success" defaultDuration false c.

Definition error (id message : string) (c : container) : shown :=
  show id message "error" 0 true c.

Definition warning (id message : string) (c : container) : shown :=
  show id message "warning" defaultDuration false c.

Definition info (id message : string) (c : container) : shown :=
  show id message "info" defaultDuration false c.

(** What the timer of [hide] does: the toast with this id leaves its
    parent. *)
Fixpoint remove_toast (id : string) (children : list toast) : list toast :=
  match children with
  | [] => []
  | t :: rest => if String.eqb (toast_id t) id then rest else t :: remove_toast id rest
  end.

Definition clearAll (c : container) : container := option_map (fun _ => []) c.

End NotificationManager.

(* ================================================================== *)
(** * Submission orchestrator: FormHandler *)
(* ================================================================== *)

Module FormHandler.
Import DOM.

(** ** Configuration *)

(** What [table[key] || fallback] gives when [table] is an object
    literal whose properties are texts: a text, or, for a key that
    names a property of Object.prototype, that inherited property (a
    function, or the prototype itself for [__proto__]), which is
    truthy and so stands in place of the fallback. *)
Inductive table_value :=
| Text (s : string)
| Inherited (name : string).

(** [config.endpoints[formType]] *)
Definition endpoints (formType : string) : option table_value :=
  if String.eqb formType "clinicForm" then Some (Text "/clinic-samples")
  else if String.eqb formType "pharmacyForm" then Some (Text "/pharmacy-captures")
  else if String.eqb formType "pharmacyCSV" then Some (Text "/pharmacy-records")
  else if String.eqb formType "labForm" then Some (Text "/lab-results")
  else if String.eqb formType "processingForm" then Some (Text "/sample-processing")
  else if String.eqb formType "supportForm" then Some (Text "/support-requests")
  else if JS.arr_includes JS.object_prototype_names formType then Some (Inherited formType)
  else None.

(** [config.validation.required] *)
Definition validation_required : list string := ["patientId"; "sampleId"; "collectionDate"].

(** [config.fileUpload] *)
Definition maxSize : Z := 10 * 1024 * 1024.
Definition allowedTypes : list string :=
  ["image/jpeg"; "image/png"; "image/gif"; "application/pdf"; "text/csv"].
Definition maxFiles : nat := 5.

(** [config.autoSave.storagePrefix] *)
Definition storagePrefix : string := "meditrack_draft_".

(** ** The state the module works on *)

(** The JavaScript object [prepareFormData] builds: its own properties
    in insertion order.  (The engine enumerates keys that are array
    indices before the others; no statement below depends on the order
    of enumeration.) *)
Definition obj := list (string * jsval).

(** What [JSON.parse] returns for a stored draft. *)
Record draft := {
  draft_timestamp : Z;
  draft_data : obj;
  draft_url : string
}.

(** The body of a backend call: the data of a form, or a record of a
    CSV file. *)
Inductive payload :=
| FormPayload (data : obj)
| CsvPayload (medicine : option string) (availability : bool) (datestocked : option string).

(** What [ApiHelper.post] resolves to, as far as [submitForm] reads
    it: [response.success], [response.error?.message], and of
    [response.data], when there is one, the truthy one of its [id] and
    [confirmationNumber]. *)
Record response := {
  success : bool;
  error_message_of : option string;
  data : option (option string)
}.

(** What [uploadFile] comes back with. *)
Inductive upload_result :=
| UploadOk (data : string)
| UploadFailed (error : string)          (* resolves with success false *)
| UploadRejected (e : JS.js_error).

(** The services behind the page.  [api_post n endpoint body] is the
    outcome of the call [ApiHelper.post(endpoint, body)] made after [n]
    earlier ones. *)
Class Backend := {
  api_post : nat -> table_value -> payload -> JS.completion response;
  upload : file -> upload_result
}.

(** A call of [showFieldError] or [clearFieldError] on the field with
    the given index. *)
Inductive mark :=
| ShowError (i : nat) (msg : option string)
| ClearError (i : nat).

Record world := {
  w_form : form;                              (* the form and its fields *)
  w_posts : list (table_value * payload);     (* the calls of ApiHelper.post, oldest first *)
  w_notifications : list (string * table_value);  (* type and message, oldest first *)
  w_storage : gmap string draft;              (* localStorage, the draft entries *)
  w_loaders : list string;                    (* LoadingManager.activeLoaders *)
  w_next_id : nat;                            (* the fresh part of generated ids *)
  w_focus : option nat;                       (* the field that has the focus *)
  w_marks : list mark;                        (* inline error display, oldest first *)
  w_globals : gmap string jsval;              (* properties of window set by other scripts *)
  w_redirect : option string;                 (* a redirect waiting for its timer *)
  w_modals : list string;                     (* titles of the modals shown *)
  w_now : Z;                                  (* Date.now() *)
  w_pathname : string;                        (* window.location.pathname *)
  w_href : string                             (* window.location.href *)
}.

Definition set_form (fm : form) (w : world) : world :=
  {| w_form := fm; w_posts := w_posts w; w_notifications := w_notifications w;
     w_storage := w_storage w; w_loaders := w_loaders w; w_next_id := w_next_id w;
     w_focus := w_focus w; w_marks := w_marks w; w_globals := w_globals w;
     w_redirect := w_redirect w; w_modals := w_modals w; w_now := w_now w;
     w_pathname := w_pathname w; w_href := w_href w |}.

Definition add_post (endpoint : table_value) (body : payload) (w : world) : world :=
  {| w_form := w_form w; w_posts := (w_posts w ++ [(endpoint, body)])%list;
     w_notifications := w_notifications w; w_storage := w_storage w;
     w_loaders := w_loaders w; w_next_id := w_next_id w; w_focus := w_focus w;
     w_marks := w_marks w; w_globals := w_globals w; w_redirect := w_redirect w;
     w_modals := w_modals w; w_now := w_now w; w_pathname := w_pathname w;
     w_href := w_href w |}.

(** [NotificationManager.show(message, type)] *)
Definition notify (type : string) (message : table_value) (w : world) : world :=
  {| w_form := w_form w; w_posts := w_posts w;
     w_notifications := (w_notifications w ++ [(type, message)])%list;
     w_storage := w_storage w; w_loaders := w_loaders w; w_next_id := w_next_id w;
     w_focus := w_focus w; w_marks := w_marks w; w_globals := w_globals w;
     w_redirect := w_redirect w; w_modals := w_modals w; w_now := w_now w;
     w_pathname := w_pathname w; w_href := w_href w |}.

Definition set_storage (st : gmap string draft) (w : world) : world :=
  {| w_form := w_form w; w_posts := w_posts w; w_notifications := w_notifications w;
     w_storage := st; w_loaders := w_loaders w; w_next_id := w_next_id w;
     w_focus := w_focus w; w_marks := w_marks w; w_globals := w_globals w;
     w_redirect := w_redirect w; w_modals := w_modals w; w_now := w_now w;
     w_pathname := w_pathname w; w_href := w_href w |}.

Definition set_loaders (l : list string) (n : nat) (w : world) : world :=
  {| w_form := w_form w; w_posts := w_posts w; w_notifications := w_notifications w;
     w_storage := w_storage w; w_loaders := l; w_next_id := n; w_focus := w_focus w;
     w_marks := w_marks w; w_globals := w_globals w; w_redirect := w_redirect w;
     w_modals := w_modals w; w_now := w_now w; w_pathname := w_pathname w;
     w_href := w_href w |}.

Definition add_marks (ms : list mark) (w : world) : world :=
  {| w_form := w_form w; w_posts := w_posts w; w_notifications := w_notifications w;
     w_storage := w_storage w; w_loaders := w_loaders w; w_next_id := w_next_id w;
     w_focus := w_focus w; w_marks := (w_marks w ++ ms)%list; w_globals := w_globals w;
     w_redirect := w_redirect w; w_modals := w_modals w; w_now := w_now w;
     w_pathname := w_pathname w; w_href := w_href w |}.

Definition set_redirect (url : string) (w : world) : world :=
  {| w_form := w_form w; w_posts := w_posts w; w_notifications := w_notifications w;
     w_storage := w_storage w; w_loaders := w_loaders w; w_next_id := w_next_id w;
     w_focus := w_focus w; w_marks := w_marks w; w_globals := w_globals w;
     w_redirect := Some url; w_modals := w_modals w; w_now := w_now w;
     w_pathname := w_pathname w; w_href := w_href w |}.

(** [ModalManager.show(title, content)] *)
Definition show_modal (title : string) (w : world) : world :=
  {| w_form := w_form w; w_posts := w_posts w; w_notifications := w_notifications w;
     w_storage := w_storage w; w_loaders := w_loaders w; w_next_id := w_next_id w;
     w_focus := w_focus w; w_marks := w_marks w; w_globals := w_globals w;
     w_redirect := w_redirect w; w_modals := (w_modals w ++ [title])%list;
     w_now := w_now w; w_pathname := w_pathname w; w_href := w_href w |}.

Definition set_fields (fs : list field) (fm : form) : form :=
  {| form_id := form_id fm; data_formType := data_formType fm;
     data_clearOnSuccess := data_clearOnSuccess fm;
     data_successRedirect := data_successRedirect fm;
     submitButton := submitButton fm; fields := fs |}.

Definition set_button (b : option button) (fm : form) : form :=
  {| form_id := form_id fm; data_formType := data_formType fm;
     data_clearOnSuccess := data_clearOnSuccess fm;
     data_successRedirect := data_successRedirect fm;
     submitButton := b; fields := fields fm |}.

(** ** The other managers of the page *)

(** The methods the object literal of [window.LoadingManager] defines.
    [updateProgress] is not one of them: it is a method of the
    controller that [showProgress] returns. *)
Definition LoadingManager_methods : list string :=
  ["showSpinner"; "hideSpinner"; "showProgress"; "hideProgress";
   "createLoadingContainer"; "createProgressContainer"; "generateId"; "cleanup"].

(** The methods the object literal of [window.NotificationManager]
    defines. *)
Definition NotificationManager_methods : list string :=
  ["show"; "success"; "error"; "warning"; "info"; "hide"; "clearAll";
   "ensureContainer"; "createNotification"; "limitNotifications"; "generateId"].

(** Calling [object.method(...)]: a TypeError when the object has no
    such method. *)
Definition call_method (object : string) (methods : list string) (method : string)
  : JS.completion unit :=
  if JS.arr_includes methods method then JS.Return tt
  else JS.Throw (JS.TypeError (object ++ "." ++ method ++ " is not a function")).

(** [LoadingManager.showSpinner(form, ...)]: a fresh id, recorded among
    the active loaders. *)
Definition showSpinner (w : world) : string * world :=
  let id := "load_" ++ JS.show_nat (w_next_id w) in
  (id, set_loaders (w_loaders w ++ [id])%list (S (w_next_id w)) w).

(** [LoadingManager.hideSpinner(id)]: nothing when [id] is not the key
    of an active loader. *)
Definition hideSpinner (id : jsval) (w : world) : world :=
  match id with
  | VAtom (AStr s) =>
      set_loaders (List.filter (fun x => negb (String.eqb x s)) (w_loaders w)) (w_next_id w) w
  | _ => w
  end.

(** ** Validation *)

Record validation_result := {
  isValid : bool;
  errors : list string;
  warnings : list string
}.

Definition valid_result : validation_result :=
  {| isValid := true; errors := []; warnings := [] |}.

(** [result.errors.push(msg); result.isValid = false] *)
Definition add_error (msg : string) (r : validation_result) : validation_result :=
  {| isValid := false; errors := (errors r ++ [msg])%list; warnings := warnings r |}.

(** [result.warnings.push(msg)] *)
Definition add_warning (msg : string) (r : validation_result) : validation_result :=
  {| isValid := isValid r; errors := errors r; warnings := (warnings r ++ [msg])%list |}.

Definition isValidEmail (email : string) : bool := Regex.matches Regex.email_re email.
Definition isValidPhone (phone : string) : bool := Regex.matches Regex.handler_phone_re phone.
Definition isValidTime (timeString : string) : bool := Regex.matches Regex.time_re timeString.

(** [formatFileSize(config.fileUpload.maxSize)]: 10485760 bytes are
    1024 to the power 2 times 10, printed with two decimals and parsed
    back. *)
Definition formatFileSize_maxSize : string := "10 MB".

Definition isPotenitallyDangerous (filename : string) : bool :=
  existsb (fun ext => JS.endsWith (JS.toLowerCase filename) ext)
          [".exe"; ".bat"; ".cmd"; ".scr"; ".vbs"; ".js"; ".jar"].

(** [label?.textContent?.trim() || field.name || field.placeholder || 'Field'],
    the label being the one the selector [label[for="id"]] finds; ids
    are taken to be free of quotes and backslashes. *)
Definition getFieldLabel (f : field) : string :=
  str_or (match label f with Some t => JS.trim t | None => EmptyString end)
         (str_or (name f) (str_or (placeholder f) "Field")).

Definition hasFileUploads (fm : form) : bool :=
  existsb (fun f => String.eqb (tagName f) "INPUT" && String.eqb (ftype f) "file") (fields fm).

(** The loop of [validateFileField] over the files. *)
Fixpoint check_files (fs : list file) (r : validation_result) : validation_result :=
  match fs with
  | [] => r
  | f :: rest =>
      (* Check file size *)
      let r1 := if (maxSize <? file_size f)%Z
                then add_error ("File " ++ JS.dquote ++ file_name f ++ JS.dquote ++
                                " is too large. Maximum size is " ++ formatFileSize_maxSize) r
                else r in
      (* Check file type *)
      let r2 := if negb (JS.arr_includes allowedTypes (file_type f))
                then add_error ("File " ++ JS.dquote ++ file_name f ++ JS.dquote ++
                                " has an unsupported format") r1
                else r1 in
      (* Check for potential security issues *)
      let r3 := if isPotenitallyDangerous (file_name f)
                then add_warning ("File " ++ JS.dquote ++ file_name f ++ JS.dquote ++
                                  " has a potentially dangerous extension") r2
                else r2 in
      check_files rest r3
  end.

Definition validateFileField (fileField : field) : validation_result :=
  let fs := files fileField in
  match fs with
  | [] => valid_result
  | _ =>
      (* Check file count *)
      if (maxFiles <? List.length fs)%nat
      then add_error ("Maximum " ++ JS.show_nat maxFiles ++ " files allowed") valid_result
      else check_files fs valid_result
  end.

Section Validation.
Context {host : JSHost}.

Definition isValidDate (dateString : string) : bool :=
  match Date_parse dateString with
  | None => false
  | Some t => String.eqb dateString (hd EmptyString (JS.split "T" (toISOString t)))
  end.

(** [date > today], today being local midnight of the current day *)
Definition isFutureDate (dateString : string) (now : Z) : bool :=
  match Date_parse dateString with
  | None => false
  | Some t => (startOfDay now <? t)%Z
  end.

(** The [switch (fieldType)] of [validateField]. *)
Definition validate_type (f : field) (value : string) (now : Z)
    (r : validation_result) : validation_result :=
  let fieldType := ftype f in
  if String.eqb fieldType "email" then
    if negb (isValidEmail value) then add_error "Please enter a valid email address" r else r
  else if String.eqb fieldType "tel" then
    if negb (isValidPhone value) then add_error "Please enter a valid phone number" r else r
  else if String.eqb fieldType "number" then
    if JS.isNaN_num (ToNumber value) || JS.num_lt (ToNumber value) (JS.of_Z 0)
    then add_error "Please enter a valid positive number" r else r
  else if String.eqb fieldType "date" then
    if negb (isValidDate value) then add_error "Please enter a valid date" r
    else if isFutureDate value now && negb (attr_truthy (data_allowFuture f))
    then add_warning "Date is in the future" r
    else r
  else if String.eqb fieldType "time" then
    if negb (isValidTime value) then add_error "Please enter a valid time" r else r
  else if String.eqb fieldType "file" then
    let fileResult := validateFileField f in
    {| isValid := isValid fileResult;
       errors := (errors r ++ errors fileResult)%list;
       warnings := (warnings r ++ warnings fileResult)%list |}
  else r.

(** [FormHandler.validateField] *)
Definition validateField (f : field) (now : Z) : validation_result :=
  let value := JS.trim (DOM.value f) in
  let fieldName := str_or (name f) (fid f) in
  let isRequired := DOM.required f || JS.arr_includes validation_required fieldName in
  (* Required field validation *)
  if isRequired && negb (JS.truthy value) then
    add_error (getFieldLabel f ++ " is required") valid_result
  (* Skip further validation if field is empty and not required *)
  else if negb (JS.truthy value) then valid_result
  else
    (* Type-specific validation *)
    let r1 := validate_type f value now valid_result in
    (* Field-specific validation *)
    let r2 := if String.eqb fieldName "patientId" &&
                 negb (Regex.matches Regex.patient_re value)
              then add_error "Patient ID must be 6-12 characters, letters and numbers only" r1
              else r1 in
    let r3 := if String.eqb fieldName "sampleId" &&
                 negb (Regex.matches Regex.sample_re value)
              then add_error
                     "Sample ID must be 8-16 characters, letters, numbers, and hyphens only" r2
              else r2 in
    let r4 := if String.eqb fieldName "temperature" &&
                 (JS.num_lt (parseFloat value) (JS.of_Z (-80)) ||
                  JS.num_gt (parseFloat value) (JS.of_Z 100))
              then add_warning "Temperature seems unusual for medical samples" r3
              else r3 in
    r4.

(** [form.querySelector('[name="n"]')] for a name without quotes or
    backslashes: the first field that carries this name. *)
Definition query_name (fs : list field) (n : string) : option field :=
  List.find (fun f => match name_attr f with
                      | Some m => String.eqb m n
                      | None => false
                      end) fs.

(** [form.querySelector('[name="n"]')?.value] being truthy: the value. *)
Definition named_value (fs : list field) (n : string) : option string :=
  match query_name fs n with
  | Some f => if JS.truthy (DOM.value f) then Some (DOM.value f) else None
  | None => None
  end.

(** [FormHandler.validateCrossFields]: its errors. *)
Definition validateCrossFields (fm : form) : list string :=
  let fs := fields fm in
  (* Date range validation *)
  (match named_value fs "startDate", named_value fs "endDate" with
   | Some s, Some e =>
       match Date_parse s, Date_parse e with
       | Some a, Some b => if (b <? a)%Z then ["Start date cannot be after end date"] else []
       | _, _ => []
       end
   | _, _ => []
   end ++
   (* Collection and processing time validation *)
   match named_value fs "collectionTime", named_value fs "processingTime" with
   | Some c, Some p =>
       if JS.str_gt c p then ["Processing time cannot be before collection time"] else []
   | _, _ => []
   end ++
   (* Patient ID and sample ID correlation *)
   match named_value fs "patientId", named_value fs "sampleId" with
   | Some p, Some s =>
       if negb (JS.startsWith s (JS.substring0 3 p))
       then ["Sample ID should start with patient ID prefix"] else []
   | _, _ => []
   end)%list.

(** The loop of [validateForm] over the inputs, from index [i] on: the
    errors and warnings gathered and the marks set. *)
Fixpoint validate_inputs (fs : list field) (i : nat) (now : Z)
    (errs warns : list string) (ms : list mark)
  : list string * list string * list mark :=
  match fs with
  | [] => (errs, warns, ms)
  | f :: rest =>
      let fieldResult := validateField f now in
      let errs' := if isValid fieldResult then errs else (errs ++ errors fieldResult)%list in
      let m := if isValid fieldResult then ClearError i
               else ShowError i (hd_error (errors fieldResult)) in
      validate_inputs rest (S i) now errs' (warns ++ warnings fieldResult)%list (ms ++ [m])%list
  end.

(** [FormHandler.validateForm] *)
Definition validateForm (w : world) : validation_result * world :=
  let fm := w_form w in
  let '(errs, warns, ms) := validate_inputs (fields fm) 0 (w_now w) [] [] [] in
  (* Cross-field validation *)
  let all := (errs ++ validateCrossFields fm)%list in
  ({| isValid := match all with [] => true | _ => false end;
      errors := all; warnings := warns |},
   add_marks ms w).

End Validation.

(** ** Form data *)

(** The entry list of [new FormData(form)] for one field, after the
    HTML standard: disabled fields, fields without a name, unchecked
    checkboxes and radio buttons, and buttons contribute nothing; a
    select contributes its selected options, a file input its files,
    or one empty file when none is chosen; a hidden input named
    [_charset_] contributes the encoding instead of its value.  The
    fields of this model carry no [dirname] attribute. *)
Definition empty_file : file :=
  {| file_name := EmptyString; file_size := 0; file_type := "application/octet-stream";
     file_text := EmptyString |}.

Definition is_type (f : field) (t : string) : bool :=
  String.eqb (tagName f) "INPUT" && String.eqb (ftype f) t.

Definition is_checkable (f : field) : bool := is_type f "checkbox" || is_type f "radio".

Definition is_button (f : field) : bool :=
  is_type f "submit" || is_type f "button" || is_type f "reset" || is_type f "image".

Definition entries_of (f : field) : list (string * atom) :=
  if disabled f then []
  else match name_attr f with
       | None => []
       | Some n =>
           if JS.is_empty n then []
           else if is_select f then List.map (fun v => (n, AStr v)) (selected f)
           else if is_checkable f then (if checked f then [(n, AStr (fvalue f))] else [])
           else if is_button f then []
           else if is_type f "file" then
             match files f with
             | [] => [(n, AFile empty_file)]
             | fs => List.map (fun x => (n, AFile x)) fs
             end
           else if is_type f "hidden" && String.eqb (JS.toLowerCase n) "_charset_"
           then [(n, AStr "UTF-8")]
           else [(n, AStr (fvalue f))]
       end.

(** [formData.entries()] *)
Definition form_entries (fm : form) : list (string * atom) :=
  List.concat (List.map entries_of (fields fm)).

(** The own property [k] of an object. *)
Fixpoint own (o : obj) (k : string) : option jsval :=
  match o with
  | [] => None
  | (k', v) :: rest => if String.eqb k' k then Some v else own rest k
  end.

(** [o[k]]: the own property, or what Object.prototype provides. *)
Definition get (o : obj) (k : string) : jsval :=
  match own o k with
  | Some v => v
  | None =>
      if JS.arr_includes JS.object_prototype_names k then VAtom AFunction
      else VAtom AUndefined
  end.

Fixpoint set_own (o : obj) (k : string) (v : jsval) : obj :=
  match o with
  | [] => [(k, v)]
  | (k', v') :: rest =>
      if String.eqb k' k then (k, v) :: rest else (k', v') :: set_own rest k v
  end.

(** [o[k] = v].  Assigning to [__proto__] creates no own property (it
    replaces the prototype, which this model does not follow). *)
Definition set (o : obj) (k : string) (v : jsval) : obj :=
  if String.eqb k "__proto__" then o else set_own o k v.

(** One round of the loop over [formData.entries()]. *)
Definition add_entry (data : obj) (e : string * atom) : obj :=
  let '(key, value) := e in
  if truthy (get data key) then
    (* Handle multiple values (checkboxes, multiple selects) *)
    match get data key with
    | VArr l => set data key (VArr (l ++ [value])%list)
    | VAtom a => set data key (VArr [a; value])
    | VMeta _ => set data key (VArr [AObject; value])
    end
  else set data key (VAtom value).

(** The loop over the checkboxes of the form when drafts are included.
    [data.hasOwnProperty] is the inherited method unless the data have
    a property of that name. *)
Fixpoint add_unchecked (boxes : list field) (data : obj) : JS.completion obj :=
  match boxes with
  | [] => JS.Return data
  | b :: rest =>
      match own data "hasOwnProperty" with
      | Some _ => JS.Throw (JS.TypeError "data.hasOwnProperty is not a function")
      | None =>
          match own data (name b) with
          | Some _ => add_unchecked rest data
          | None => add_unchecked rest (set data (name b) (VBool false))
          end
      end
  end.

Section Data.
Context {host : JSHost}.

(** [FormHandler.prepareFormData(form, includeDrafts)] *)
Definition prepareFormData (w : world) (includeDrafts : bool) : JS.completion obj :=
  let fm := w_form w in
  (* Convert FormData to object *)
  let data := fold_left add_entry (form_entries fm) [] in
  (* Add unchecked checkboxes if including drafts *)
  let data' := if includeDrafts
               then add_unchecked (List.filter (fun f => is_type f "checkbox") (fields fm)) data
               else JS.Return data in
  match data' with
  | JS.Throw e => JS.Throw e
  | JS.Return d =>
      (* Add metadata *)
      JS.Return (set d "_metadata"
                   (VMeta {| meta_formType := attr_or (data_formType fm) "generic";
                             meta_timestamp := toISOString (w_now w);
                             meta_userAgent := userAgent;
                             meta_url := w_href w |}))
  end.

(** [value !== '' && value !== false && value !== null] *)
Definition significant (v : jsval) : bool :=
  match v with
  | VAtom (AStr s) => negb (JS.is_empty s)
  | VAtom (ABool false) => false
  | VAtom ANull => false
  | _ => true
  end.

Definition isFormEmpty (formData : obj) : bool :=
  match List.filter (fun kv => negb (String.eqb (fst kv) "_metadata") && significant (snd kv))
                    formData with
  | [] => true
  | _ => false
  end.

(** ** Drafts *)

(** [form.id || form.dataset.formType || 'form'] *)
Definition draft_form_id (fm : form) : string :=
  str_or (form_id fm) (attr_or (data_formType fm) "form").

(** What [JSON.parse(JSON.stringify(data))] returns. *)
Fixpoint json_obj (o : obj) : obj :=
  match o with
  | [] => []
  | (k, v) :: rest =>
      match json_roundtrip v with
      | Some v' => (k, v') :: json_obj rest
      | None => json_obj rest
      end
  end.

(** [FormHandler.saveDraft(form)].  An exception inside is caught and
    logged to the console. *)
Definition saveDraft (w : world) : world :=
  let formId := draft_form_id (w_form w) in
  match prepareFormData w true with
  | JS.Throw _ => w
  | JS.Return formData =>
      (* Don't save if form is empty *)
      if isFormEmpty formData then w
      else
        let draftData := {| draft_timestamp := w_now w;
                            draft_data := json_obj formData;
                            draft_url := w_pathname w |} in
        set_storage (<[ storagePrefix ++ formId := draftData ]> (w_storage w)) w
  end.

(** [FormHandler.clearDraft(form)] *)
Definition clearDraft (w : world) : world :=
  set_storage (delete (storagePrefix ++ draft_form_id (w_form w)) (w_storage w)) w.

(** A name that can stand between the quotes of the selector
    [[name="..."]]: no double quote, no line break.  A backslash would
    start an escape; names with one are outside this model. *)
Definition selector_safe (n : string) : bool :=
  negb (JS.includes n JS.dquote) &&
  negb (JS.includes n (String (ascii_of_nat 92) EmptyString)) &&
  negb (JS.includes n (String (ascii_of_nat 10) EmptyString)) &&
  negb (JS.includes n (String (ascii_of_nat 12) EmptyString)) &&
  negb (JS.includes n (String (ascii_of_nat 13) EmptyString)).

(** The index of the first field that carries the name [n]. *)
Fixpoint query_index (fs : list field) (n : string) : option nat :=
  match fs with
  | [] => None
  | f :: rest =>
      match name_attr f with
      | Some m => if String.eqb m n then Some 0%nat
                  else option_map S (query_index rest n)
      | None => option_map S (query_index rest n)
      end
  end.

(** Checking a radio button unchecks the other radio buttons of its
    group: those of the form with the same non-empty name. *)
Definition uncheck_group (n : string) (i : nat) (fs : list field) : list field :=
  imap (fun j f =>
          if negb (Nat.eqb j i) && is_type f "radio" &&
             negb (JS.is_empty n) && String.eqb (name f) n
          then with_checked false f else f) fs.

(** [field.value = v] on an input or textarea: null becomes the empty
    string.  A file input accepts the empty string only. *)
Definition value_text (v : jsval) : string :=
  match v with
  | VAtom ANull => EmptyString
  | _ => toString v
  end.

(** The body of the loop of [restoreDraft] for one property, on the
    field with index [i].  The change event dispatched on a select
    reaches no listener of this repository. *)
Definition restore_field (i : nat) (f : field) (v : jsval) (fs : list field)
  : JS.completion (list field) :=
  if String.eqb (ftype f) "checkbox" || String.eqb (ftype f) "radio" then
    let fs' := <[ i := with_checked (truthy v) f ]> fs in
    JS.Return (if truthy v && is_type f "radio" then uncheck_group (name f) i fs' else fs')
  else if is_select f then
    (* the first option with this value becomes the selected one *)
    JS.Return (<[ i := with_selected
                        (if JS.arr_includes (options f) (toString v) then [toString v] else [])
                        f ]> fs)
  else if is_type f "file" then
    if JS.is_empty (value_text v) then JS.Return (<[ i := with_files [] f ]> fs)
    else JS.Throw {| JS.error_name := "InvalidStateError";
                     JS.error_message := "This input element accepts a filename, which may only be programmatically set to the empty string." |}
  else JS.Return (<[ i := with_value (value_text v) f ]> fs).

(** [Object.entries(draftData.data).forEach(...)] *)
Fixpoint restore_entries (es : obj) (fs : list field) : JS.completion (list field) * list field :=
  match es with
  | [] => (JS.Return fs, fs)
  | (fieldName, v) :: rest =>
      if negb (selector_safe fieldName)
      then (JS.Throw {| JS.error_name := "SyntaxError";
                        JS.error_message := "not a valid selector" |}, fs)
      else
        match query_index fs fieldName with
        | None => restore_entries rest fs
        | Some i =>
            match fs !! i with
            | None => restore_entries rest fs
            | Some f =>
                match restore_field i f v fs with
                | JS.Throw e => (JS.Throw e, fs)
                | JS.Return fs' => restore_entries rest fs'
                end
            end
        end
  end.

(** [FormHandler.restoreDraft(form, draftData)] *)
Definition restoreDraft (draftData : draft) (w : world) : world :=
  match restore_entries (draft_data draftData) (fields (w_form w)) with
  | (JS.Return _, fs) =>
      notify "success" (Text "Draft restored successfully")
             (set_form (set_fields fs (w_form w)) w)
  | (JS.Throw _, fs) =>
      notify "error" (Text "Failed to restore draft")
             (set_form (set_fields fs (w_form w)) w)
  end.

End Data.

(** ** CSV bulk import *)

(** A record of a CSV file: the JavaScript object built from a data
    line, a map from header to value. *)
Record csvData := {
  headers : list string;
  records : list (gmap string string)
}.

(** [headers.forEach((header, index) => record[header] = values[index])].
    Assigning a string to [__proto__] sets no property. *)
Definition make_record (hs vs : list string) : gmap string string :=
  fold_left (fun (record : gmap string string) hv =>
               if String.eqb (fst hv) "__proto__" then record
               else <[ fst hv := snd hv ]> record)
            (List.combine hs vs) ∅.

Definition newline : ascii := ascii_of_nat 10.

(** The body of the [try] of [reader.onload] after the progress
    update: from the text of the file to headers and records. *)
Definition parse_csv (text : string) : JS.completion csvData :=
  let lines := List.filter (fun line => JS.truthy (JS.trim line)) (JS.split newline text) in
  if (List.length lines <? 2)%nat then
    JS.Throw (JS.Error "CSV file must contain at least a header row and one data row")
  else
    let hs := List.map (fun h => JS.toLowerCase (JS.trim h))
                       (JS.split "," (hd EmptyString lines)) in
    let recs :=
      List.concat
        (List.map (fun line =>
                     let values := List.map JS.trim (JS.split "," line) in
                     if (List.length values =? List.length hs)%nat
                     then [make_record hs values] else [])
                  (tl lines)) in
    JS.Return {| headers := hs; records := recs |}.

(** [LoadingManager.updateProgress(progressId, {...})] *)
Definition LoadingManager_updateProgress : JS.completion unit :=
  call_method "LoadingManager" LoadingManager_methods "updateProgress".

(** [FormHandler.readCSVFile(file, progressId)] for a file the reader
    can read.  Whatever the [try] throws is wrapped and rejects the
    promise. *)
Definition readCSVFile (f : file) : JS.completion csvData :=
  let body :=
    match LoadingManager_updateProgress with
    | JS.Throw e => JS.Throw e
    | JS.Return _ => parse_csv (file_text f)
    end in
  match body with
  | JS.Throw e => JS.Throw (JS.Error ("Failed to parse CSV file: " ++ JS.error_message e))
  | JS.Return d => JS.Return d
  end.

(** [FormHandler.parseBoolean] on a property of a record *)
Definition parseBoolean (value : option string) : bool :=
  match value with
  | None => false
  | Some v =>
      if negb (JS.truthy v) then false
      else JS.arr_includes ["true"; "1"; "yes"; "available"] (JS.trim (JS.toLowerCase v))
  end.

Definition opt_truthy (v : option string) : bool :=
  match v with Some s => JS.truthy s | None => false end.

Section CSV.
Context {host : JSHost} {backend : Backend}.

(** The checks of [validateCSVData] on the record with index [index]. *)
Definition validate_record (index : nat) (record : gmap string string) : list string :=
  let row := "Row " ++ JS.show_nat (index + 2) in
  let medicine_errors :=
    if negb (opt_truthy (record !! "medicine")) ||
       JS.is_empty (JS.trim (default EmptyString (record !! "medicine")))
    then [row ++ ": Medicine name is required"] else [] in
  let availability_errors :=
    if opt_truthy (record !! "availability") &&
       negb (JS.arr_includes ["true"; "false"; "1"; "0"; "yes"; "no"]
               (JS.toLowerCase (default EmptyString (record !! "availability"))))
    then [row ++ ": Availability must be true/false, 1/0, or yes/no"] else [] in
  let date_errors :=
    if opt_truthy (record !! "datestocked") &&
       match Date_parse (default EmptyString (record !! "datestocked")) with
       | None => true
       | Some _ => false
       end
    then [row ++ ": Invalid date format for datestocked"] else [] in
  app medicine_errors (app availability_errors date_errors).

(** [FormHandler.validateCSVData]: its errors; the data are valid when
    there is none. *)
Definition validateCSVData_errors (d : csvData) : list string :=
  (* Check for required columns *)
  let column_errors :=
    List.concat (List.map (fun column =>
                             if negb (JS.arr_includes (headers d) column)
                             then ["Missing required column: " ++ column] else [])
                          ["medicine"; "availability"; "datestocked"]) in
  (* Validate record data *)
  app column_errors (List.concat (imap validate_record (records d))).

Definition validateCSVData (d : csvData) : validation_result :=
  let errs := validateCSVData_errors d in
  {| isValid := match errs with [] => true | _ => false end;
     errors := errs; warnings := [] |}.

Record csv_results := {
  successful : nat;
  failed : nat;
  csv_errors : list string
}.

(** One round of the loop of [processCSVRecords], for the record with
    index [i]. *)
Definition process_record (endpoint : table_value) (i : nat) (record : gmap string string)
    (acc : csv_results * world) : csv_results * world :=
  let '(results, w) := acc in
  let row := "Row " ++ JS.show_nat (i + 2) in
  (* Transform record data *)
  let body := CsvPayload (record !! "medicine")
                         (parseBoolean (record !! "availability"))
                         (record !! "datestocked") in
  (* Submit to API *)
  let answer := api_post (List.length (w_posts w)) endpoint body in
  let w1 := add_post endpoint body w in
  let caught (r : csv_results) (e : JS.js_error) : csv_results :=
    {| successful := successful r; failed := S (failed r);
       csv_errors := JS.push (csv_errors r) (row ++ ": " ++ JS.error_message e) |} in
  match answer with
  | JS.Throw e => (caught results e, w1)
  | JS.Return resp =>
      let r1 :=
        if success resp
        then {| successful := S (successful results); failed := failed results;
                csv_errors := csv_errors results |}
        else {| successful := successful results; failed := S (failed results);
                csv_errors := JS.push (csv_errors results)
                                (row ++ ": " ++ default "Unknown error" (error_message_of resp)) |} in
      (* Update progress *)
      match LoadingManager_updateProgress with
      | JS.Throw e => (caught r1 e, w1)
      | JS.Return _ => (r1, w1)
      end
  end.

Fixpoint process_from (endpoint : table_value) (i : nat) (rs : list (gmap string string))
    (acc : csv_results * world) : csv_results * world :=
  match rs with
  | [] => acc
  | r :: rest => process_from endpoint (S i) rest (process_record endpoint i r acc)
  end.

(** [FormHandler.processCSVRecords] *)
Definition processCSVRecords (rs : list (gmap string string)) (endpoint : table_value)
    (w : world) : csv_results * world :=
  process_from endpoint 0 rs ({| successful := 0; failed := 0; csv_errors := [] |}, w).

(** [LoadingManager.showProgress(target, ...)]: a controller with a
    fresh id, recorded among the active loaders. *)
Definition showProgress (w : world) : string * world :=
  let id := "load_" ++ JS.show_nat (w_next_id w) in
  (id, set_loaders (w_loaders w ++ [id])%list (S (w_next_id w)) w).

(** [LoadingManager.hideProgress(id)] *)
Definition hideProgress (id : string) (w : world) : world :=
  set_loaders (List.filter (fun x => negb (String.eqb x id)) (w_loaders w)) (w_next_id w) w.

Definition reset_form (w : world) : world :=
  set_form (set_fields (List.map reset_field (fields (w_form w))) (w_form w)) w.

(** The [try] block of [handleCSVUpload]. *)
Definition csv_upload_body (file : file) (endpoint : table_value) (w : world)
  : JS.completion csv_results * world :=
  (* Read and parse CSV file *)
  match readCSVFile file with
  | JS.Throw e => (JS.Throw e, w)
  | JS.Return d =>
      (* Validate CSV structure *)
      let validationResult := validateCSVData d in
      if negb (isValid validationResult) then
        (JS.Throw (JS.Error ("CSV validation failed: " ++
                             JS.join ", " (errors validationResult))), w)
      else
        (* Process each record *)
        match LoadingManager_updateProgress with
        | JS.Throw e => (JS.Throw e, w)
        | JS.Return _ =>
            let '(results, w1) := processCSVRecords (records d) endpoint w in
            (* Complete processing *)
            match LoadingManager_updateProgress with
            | JS.Throw e => (JS.Throw e, w1)
            | JS.Return _ =>
                (* Show success notification *)
                match call_method "NotificationManager" NotificationManager_methods
                                  "showToast" with
                | JS.Throw e => (JS.Throw e, w1)
                | JS.Return _ =>
                    let w2 := notify "success"
                                (Text ("Successfully processed " ++
                                       JS.show_nat (successful results) ++
                                       " records (" ++ JS.show_nat (failed results) ++
                                       " failed)")) w1 in
                    (* Clear form if successful *)
                    let w3 := if (failed results =? 0)%nat then reset_form w2 else w2 in
                    (JS.Return results, w3)
                end
            end
        end
  end.

(** [FormHandler.handleCSVUpload].  In the [catch], [hideProgress]
    receives the controller, which is not the key of a loader: the
    progress bar stays. *)
Definition handleCSVUpload (endpoint : table_value) (w : world)
  : JS.completion csv_results * world :=
  match List.find (fun f => is_type f "file") (fields (w_form w)) with
  | None => (JS.Throw (JS.Error "Please select a CSV file to upload"), w)
  | Some fileInput =>
      match files fileInput with
      | [] => (JS.Throw (JS.Error "Please select a CSV file to upload"), w)
      | file :: _ =>
          if negb (JS.endsWith (JS.toLowerCase (file_name file)) ".csv") then
            (JS.Throw (JS.Error "Please upload a valid CSV file"), w)
          else
            (* Show progress for file processing *)
            let '(_, w1) := showProgress w in
            csv_upload_body file endpoint w1
      end
  end.

(** ** File uploads *)

(** The loop over the files of one input. *)
Fixpoint upload_all (fs : list file) (uploaded : list atom) : JS.completion (list atom) :=
  match fs with
  | [] => JS.Return uploaded
  | f :: rest =>
      match upload f with
      | UploadOk d => upload_all rest (uploaded ++ [AStr d])%list
      | UploadFailed err =>
          JS.Throw (JS.Error ("Failed to upload " ++ file_name f ++ ": " ++ err))
      | UploadRejected e => JS.Throw e
      end
  end.

(** The body of the loop of [handleFileUploads] for one file input
    with files.  [progress.complete] calls [this.updateProgress] with
    [this] bound to LoadingManager; the [catch] hides the progress bar
    and throws again. *)
Definition upload_input (fileInput : field) (acc : obj * world)
  : JS.completion obj * world :=
  let '(formData, w) := acc in
  let fieldName := str_or (name fileInput) (fid fileInput) in
  (* Show progress for this field *)
  let '(progressId, w1) := showProgress w in
  let body :=
    match upload_all (files fileInput) [] with
    | JS.Throw e => JS.Throw e
    | JS.Return uploadedFiles =>
        (* Complete progress *)
        match call_method "this" LoadingManager_methods "updateProgress" with
        | JS.Throw e => JS.Throw e
        | JS.Return _ =>
            (* Add to form data *)
            JS.Return (set formData fieldName (VArr uploadedFiles))
        end
    end in
  match body with
  | JS.Throw e => (JS.Throw e, hideProgress progressId w1)
  | JS.Return d => (JS.Return d, w1)
  end.

Fixpoint upload_inputs (inputs : list field) (acc : obj * world) : JS.completion obj * world :=
  match inputs with
  | [] => (JS.Return (fst acc), snd acc)
  | i :: rest =>
      match files i with
      | [] => upload_inputs rest acc
      | _ =>
          match upload_input i acc with
          | (JS.Throw e, w) => (JS.Throw e, w)
          | (JS.Return d, w) => upload_inputs rest (d, w)
          end
      end
  end.

(** [FormHandler.handleFileUploads(form, formData)] *)
Definition handleFileUploads (formData : obj) (w : world) : JS.completion obj * world :=
  upload_inputs (List.filter (fun f => is_type f "file") (fields (w_form w))) (formData, w).

(** ** Submission *)

Definition getEndpointForForm (formType : string) : table_value :=
  default (Text "/forms/submit") (endpoints formType).

(** [messages[formType] || 'Form submitted successfully'] *)
Definition getSuccessMessage (formType : string) : table_value :=
  if String.eqb formType "clinicForm"
  then Text "Sample collection form submitted successfully"
  else if String.eqb formType "pharmacyForm" then Text "Pharmacy capture recorded successfully"
  else if String.eqb formType "pharmacyCSV" then Text "Drug inventory uploaded successfully"
  else if String.eqb formType "labForm" then Text "Lab results submitted successfully"
  else if String.eqb formType "processingForm"
  then Text "Sample processing completed successfully"
  else if String.eqb formType "supportForm" then Text "Support request submitted successfully"
  else if JS.arr_includes JS.object_prototype_names formType then Inherited formType
  else Text "Form submitted successfully".

(** What the promise of [submitForm] is fulfilled with. *)
Record submit_result := {
  res_success : bool;
  res_message : option table_value;  (* message, on success *)
  res_error : option string;         (* error, on failure *)
  res_csv : option csv_results       (* data, for a CSV upload *)
}.

(** The constants the [try] block of [submitForm] declares before its
    first [await].  Their scope is that block. *)
Record frame := {
  formType : string;
  endpoint : table_value;
  originalText : option string;      (* submitButton?.textContent *)
  loadingId : string
}.

Definition set_submit_button (b : button) (w : world) : world :=
  set_form (set_button (Some b) (w_form w)) w.

(** The [try] block up to its first [await]: the spinner is shown and
    the submit button disabled. *)
Definition submit_begin (options_endpoint : option string) (w : world) : frame * world :=
  let fm := w_form w in
  let formType := attr_or (data_formType fm) "generic" in
  let endpoint := match options_endpoint with
                  | Some e => if JS.truthy e then Text e else getEndpointForForm formType
                  | None => getEndpointForForm formType
                  end in
  (* Show loading state *)
  let originalText := option_map btn_text (submitButton fm) in
  let '(loadingId, w1) := showSpinner w in
  let w2 := match submitButton fm with
            | Some _ => set_submit_button {| btn_disabled := true; btn_text := "Submitting..." |} w1
            | None => w1
            end in
  ({| formType := formType; endpoint := endpoint;
      originalText := originalText; loadingId := loadingId |}, w2).

(** Where the [try] block stands after validation and preparation: a
    call of [ApiHelper.post] is under way (the [n]-th), or the CSV
    branch has returned. *)
Inductive progress :=
| Sent (n : nat) (endpoint : table_value) (body : payload)
| Finished (r : submit_result).

(** The [try] block from validation to the call of the backend. *)
Definition submit_send (fr : frame) (w : world) : JS.completion progress * world :=
  (* Validate form *)
  let '(validationResult, w1) := validateForm w in
  if negb (isValid validationResult) then
    (JS.Throw (JS.Error ("Please correct the errors in the form: " ++
                         JS.join ", " (errors validationResult))), w1)
  else
    (* Prepare form data *)
    match prepareFormData w1 false with
    | JS.Throw e => (JS.Throw e, w1)
    | JS.Return formData =>
        (* Handle CSV uploads specifically for pharmacy forms *)
        if String.eqb (formType fr) "pharmacyCSV" then
          match handleCSVUpload (endpoint fr) w1 with
          | (JS.Throw e, w2) => (JS.Throw e, w2)
          | (JS.Return results, w2) =>
              (JS.Return (Finished {| res_success := true; res_message := None;
                                      res_error := None; res_csv := Some results |}), w2)
          end
        else
          (* Handle file uploads if present *)
          match (if hasFileUploads (w_form w1) then handleFileUploads formData w1
                 else (JS.Return formData, w1)) with
          | (JS.Throw e, w2) => (JS.Throw e, w2)
          | (JS.Return formData', w2) =>
              (* Submit to API *)
              (JS.Return (Sent (List.length (w_posts w2)) (endpoint fr) (FormPayload formData')),
               add_post (endpoint fr) (FormPayload formData') w2)
          end
    end.

(** [FormHandler.handleSuccessfulSubmission].  Reading [responseData.id]
    throws when the response carries no data. *)
Definition handleSuccessfulSubmission (responseData : option (option string)) (w : world)
  : JS.completion unit * world :=
  let fm := w_form w in
  (* Clear form if specified *)
  let w1 := if match data_clearOnSuccess fm with
               | Some s => negb (String.eqb s "false")
               | None => true
               end
            then reset_form w else w in
  (* Redirect if specified *)
  let w2 := if attr_truthy (data_successRedirect fm)
            then set_redirect (attr_or (data_successRedirect fm) EmptyString) w1 else w1 in
  (* Generate receipt/confirmation if applicable *)
  match responseData with
  | None =>
      (JS.Throw (JS.TypeError "Cannot read properties of undefined (reading 'id')"), w2)
  | Some (Some _) => (JS.Return tt, show_modal "Submission Receipt" w2)
  | Some None => (JS.Return tt, w2)
  end.

(** The [catch] block of [submitForm].  [loadingId] and [originalText]
    are constants of the [try] block and out of scope here: the two
    identifiers resolve to properties of the global object, when other
    scripts have set such properties, and are unresolvable otherwise. *)
Definition submit_catch (error : JS.js_error) (w : world)
  : JS.completion submit_result * world :=
  match w_globals w !! "loadingId" with
  | None => (JS.Throw (JS.ReferenceError "loadingId is not defined"), w)
  | Some id =>
      let w1 := hideSpinner id w in
      (* Reset submit button *)
      let '(thrown, w3) :=
        match submitButton (w_form w1) with
        | None => (None, w1)
        | Some b =>
            let w2 := set_submit_button {| btn_disabled := false; btn_text := btn_text b |} w1 in
            match w_globals w !! "originalText" with
            | None => (Some (JS.ReferenceError "originalText is not defined"), w2)
            | Some t =>
                (None, set_submit_button
                         {| btn_disabled := false; btn_text := value_text t |} w2)
            end
        end in
      match thrown with
      | Some e => (JS.Throw e, w3)
      | None =>
          (* Show error notification *)
          let errorMessage :=
            str_or (JS.error_message error) "Form submission failed. Please try again." in
          (JS.Return {| res_success := false; res_message := None;
                        res_error := Some errorMessage; res_csv := None |},
           notify "error" (Text errorMessage) w3)
      end
  end.

(** The rest of [submitForm] once the backend has answered. *)
Definition submit_settle (fr : frame) (p : JS.completion progress) (w : world)
  : JS.completion submit_result * world :=
  match p with
  | JS.Throw e => submit_catch e w
  | JS.Return (Finished r) => (JS.Return r, w)
  | JS.Return (Sent n endpoint body) =>
      match api_post n endpoint body with
      | JS.Throw e => submit_catch e w
      | JS.Return resp =>
          if negb (success resp) then
            submit_catch (JS.Error (default "Form submission failed" (error_message_of resp))) w
          else
            (* Clear auto-save draft *)
            let w1 := clearDraft w in
            (* Hide loading state *)
            let w2 := hideSpinner (VStr (loadingId fr)) w1 in
            (* Reset submit button *)
            let w3 := match submitButton (w_form w2) with
                      | Some _ =>
                          set_submit_button
                            {| btn_disabled := false;
                               btn_text := default EmptyString (originalText fr) |} w2
                      | None => w2
                      end in
            (* Show success notification *)
            let successMessage := getSuccessMessage (formType fr) in
            let w4 := notify "success" successMessage w3 in
            (* Handle post-submission actions *)
            match handleSuccessfulSubmission (data resp) w4 with
            | (JS.Throw e, w5) => submit_catch e w5
            | (JS.Return _, w5) =>
                (JS.Return {| res_success := true; res_message := Some successMessage;
                              res_error := None; res_csv := None |}, w5)
            end
      end
  end.

(** [FormHandler.submitForm(form, options)] *)
Definition submitForm (options_endpoint : option string) (w : world)
  : JS.completion submit_result * world :=
  let '(fr, w1) := submit_begin options_endpoint w in
  let '(p, w2) := submit_send fr w1 in
  submit_settle fr p w2.

(** ** The submit listener of [bindForms] *)

(** What sets a submission off: a submit event dispatched on the form
    (requestSubmit, dispatchEvent), or the user activating the submit
    button.  The browser ignores the activation of a disabled button
    and fires no submit event for it. *)
Inductive trigger :=
| SubmitEvent
| Click.

Definition fires (t : trigger) (w : world) : bool :=
  match t with
  | SubmitEvent => true
  | Click =>
      match submitButton (w_form w) with
      | Some b => negb (btn_disabled b)
      | None => false
      end
  end.

(** The listener: [e.preventDefault(); await this.submitForm(form)].
    Its synchronous part, when the trigger fires. *)
Definition listener_begin (t : trigger) (w : world) : option frame * world :=
  if fires t w then
    let '(fr, w1) := submit_begin None w in (Some fr, w1)
  else (None, w).

Definition listener_send (fr : option frame) (w : world)
  : option (frame * JS.completion progress) * world :=
  match fr with
  | None => (None, w)
  | Some f => let '(p, w1) := submit_send f w in (Some (f, p), w1)
  end.

Definition listener_settle (s : option (frame * JS.completion progress)) (w : world) : world :=
  match s with
  | None => w
  | Some (f, p) => snd (submit_settle f p w)
  end.

(** Two triggers within one synchronous tick: both listeners run up
    to their first [await] before either resumes; the requests leave
    in the order of the triggers and are answered in that order. *)
Definition two_triggers (t1 t2 : trigger) (w : world) : world :=
  let '(f1, w1) := listener_begin t1 w in
  let '(f2, w2) := listener_begin t2 w1 in
  let '(s1, w3) := listener_send f1 w2 in
  let '(s2, w4) := listener_send f2 w3 in
  listener_settle s2 (listener_settle s1 w4).

End CSV.
End FormHandler.

(* ================================================================== *)
(** * A host and a backend for the worked examples *)
(* ================================================================== *)

(** The theorems below hold for every host and every backend.  The
    examples need one of each to run on: this host reads plain decimal
    numerals and ISO calendar dates (UTC) as ECMAScript does and answers
    NaN for any other text; the backend answers every call without a
    [success] property, as [ApiHelper.post] of this repository does. *)
Module Reference.

Definition digit_value (c : ascii) : Z := Z.of_nat (nat_of_ascii c) - 48.

Fixpoint all_digits (s : string) : bool :=
  match s with
  | EmptyString => true
  | String c s' => JS.is_digit c && all_digits s'
  end.

Fixpoint digits_value (s : string) (acc : Z) : Z :=
  match s with
  | EmptyString => acc
  | String c s' => digits_value s' (10 * acc + digit_value c)
  end.

(** An unsigned numeral: digits, optionally a point and more digits. *)
Definition unsigned_numeral (s : string) : JS.jsnum :=
  match JS.split "." s with
  | [i] =>
      if all_digits i && negb (JS.is_empty i)
      then JS.Num (inject_Z (digits_value i 0)) else JS.NaN
  | [i; f] =>
      if all_digits i && all_digits f && negb (JS.is_empty i && JS.is_empty f)
      then JS.Num (Qmake (digits_value (i ++ f) 0) (Pos.pow 10 (Pos.of_nat (String.length f)))
                   * (if JS.is_empty f then 10 # 1 else 1))
      else JS.NaN
  | _ => JS.NaN
  end.

Definition negate (x : JS.jsnum) : JS.jsnum :=
  match x with
  | JS.Num q => JS.Num (- q)
  | JS.Infty b => JS.Infty (negb b)
  | JS.NaN => JS.NaN
  end.

Definition signed_numeral (s : string) : JS.jsnum :=
  match s with
  | String "-" rest => negate (unsigned_numeral rest)
  | String "+" rest => unsigned_numeral rest
  | _ => unsigned_numeral s
  end.

Definition toNumber (s : string) : JS.jsnum :=
  let t := JS.trim s in
  if JS.is_empty t then JS.of_Z 0 else signed_numeral t.

Definition parse_float (s : string) : JS.jsnum := signed_numeral (JS.trim s).

(** Days from 1970-01-01 to a date of the proleptic Gregorian calendar. *)
Definition days_from_civil (y m d : Z) : Z :=
  let y' := if (m <=? 2)%Z then (y - 1)%Z else y in
  let era := (y' / 400)%Z in
  let yoe := (y' - era * 400)%Z in
  let mp := ((m + 9) mod 12)%Z in
  let doy := ((153 * mp + 2) / 5 + d - 1)%Z in
  let doe := (yoe * 365 + yoe / 4 - yoe / 100 + doy)%Z in
  (era * 146097 + doe - 719468)%Z.

Definition is_leap (y : Z) : bool :=
  ((y mod 4 =? 0) && negb (y mod 100 =? 0) || (y mod 400 =? 0))%Z.

Definition days_in_month (y m : Z) : Z :=
  if (m =? 2)%Z then (if is_leap y then 29 else 28)%Z
  else if ((m =? 4) || (m =? 6) || (m =? 9) || (m =? 11))%Z then 30%Z
  else 31%Z.

Definition ms_per_day : Z := 86400000.

(** [Date.parse] on the form YYYY-MM-DD. *)
Definition date_parse (s : string) : option Z :=
  match JS.split "-" s with
  | [y; m; d] =>
      if all_digits y && all_digits m && all_digits d &&
         (String.length y =? 4)%nat && (String.length m =? 2)%nat && (String.length d =? 2)%nat
      then
        let yv := digits_value y 0 in
        let mv := digits_value m 0 in
        let dv := digits_value d 0 in
        if ((1 <=? mv) && (mv <=? 12) && (1 <=? dv) && (dv <=? days_in_month yv mv))%Z
        then Some (days_from_civil yv mv dv * ms_per_day)%Z
        else None
      else None
  | _ => None
  end.

Definition pad (width : nat) (n : Z) : string :=
  let s := JS.show_nat (Z.to_nat n) in
  String.concat EmptyString (List.repeat "0" (width - String.length s)) ++ s.

(** The calendar date of a day number. *)
Definition civil_from_days (z : Z) : Z * Z * Z :=
  let z' := (z + 719468)%Z in
  let era := (z' / 146097)%Z in
  let doe := (z' - era * 146097)%Z in
  let yoe := ((doe - doe / 1460 + doe / 36524 - doe / 146096) / 365)%Z in
  let doy := (doe - (365 * yoe + yoe / 4 - yoe / 100))%Z in
  let mp := ((5 * doy + 2) / 153)%Z in
  let d := (doy - (153 * mp + 2) / 5 + 1)%Z in
  let m := (if mp <? 10 then mp + 3 else mp - 9)%Z in
  let y := (yoe + era * 400 + (if m <=? 2 then 1 else 0))%Z in
  (y, m, d).

(** [toISOString] for the years 0000 to 9999. *)
Definition to_iso_string (t : Z) : string :=
  let '(y, m, d) := civil_from_days (t / ms_per_day) in
  let r := (t mod ms_per_day)%Z in
  pad 4 y ++ "-" ++ pad 2 m ++ "-" ++ pad 2 d ++ "T" ++
  pad 2 (r / 3600000) ++ ":" ++ pad 2 ((r / 60000) mod 60) ++ ":" ++
  pad 2 ((r / 1000) mod 60) ++ "." ++ pad 3 (r mod 1000) ++ "Z".

#[export] Instance host : JSHost := {|
  ToNumber := toNumber;
  parseFloat := parse_float;
  Date_parse := date_parse;
  toISOString := to_iso_string;
  startOfDay := fun t => (t - t mod ms_per_day)%Z;
  userAgent := "Mozilla/5.0"
|}.

#[export] Instance backend : FormHandler.Backend := {|
  FormHandler.api_post := fun _ _ _ =>
    JS.Return {| FormHandler.success := false;
                 FormHandler.error_message_of := None;
                 FormHandler.data := Some None |};
  FormHandler.upload := fun f => FormHandler.UploadRejected (JS.Error "Upload failed with status 404")
|}.

(** A backend that accepts every request and stores every file. *)
Definition accepting : FormHandler.Backend := {|
  FormHandler.api_post := fun _ _ _ =>
    JS.Return {| FormHandler.success := true;
                 FormHandler.error_message_of := None;
                 FormHandler.data := Some (Some "REC-1") |};
  FormHandler.upload := fun f => FormHandler.UploadOk (DOM.file_name f)
|}.

(** A text input with a name and a value, no other attribute set. *)
Definition text_input (n v : string) : DOM.field :=
  {| DOM.tagName := "INPUT"; DOM.ftype := "text"; DOM.name_attr := Some n;
     DOM.fid := EmptyString; DOM.fvalue := v; DOM.checked := false;
     DOM.disabled := false; DOM.required := false; DOM.placeholder := EmptyString;
     DOM.label := None; DOM.data_required := None; DOM.data_rules := None;
     DOM.data_allowFuture := None; DOM.files := []; DOM.options := [];
     DOM.selected := []; DOM.default_value := EmptyString;
     DOM.default_checked := false; DOM.default_selected := [] |}.

Definition with_type (t : string) (f : DOM.field) : DOM.field :=
  {| DOM.tagName := DOM.tagName f; DOM.ftype := t; DOM.name_attr := DOM.name_attr f;
     DOM.fid := DOM.fid f; DOM.fvalue := DOM.fvalue f; DOM.checked := DOM.checked f;
     DOM.disabled := DOM.disabled f; DOM.required := DOM.required f;
     DOM.placeholder := DOM.placeholder f; DOM.label := DOM.label f;
     DOM.data_required := DOM.data_required f; DOM.data_rules := DOM.data_rules f;
     DOM.data_allowFuture := DOM.data_allowFuture f; DOM.files := DOM.files f;
     DOM.options := DOM.options f; DOM.selected := DOM.selected f;
     DOM.default_value := DOM.default_value f; DOM.default_checked := DOM.default_checked f;
     DOM.default_selected := DOM.default_selected f |}.

Definition with_required (f : DOM.field) : DOM.field :=
  {| DOM.tagName := DOM.tagName f; DOM.ftype := DOM.ftype f; DOM.name_attr := DOM.name_attr f;
     DOM.fid := DOM.fid f; DOM.fvalue := DOM.fvalue f; DOM.checked := DOM.checked f;
     DOM.disabled := DOM.disabled f; DOM.required := true;
     DOM.placeholder := DOM.placeholder f; DOM.label := DOM.label f;
     DOM.data_required := DOM.data_required f; DOM.data_rules := DOM.data_rules f;
     DOM.data_allowFuture := DOM.data_allowFuture f; DOM.files := DOM.files f;
     DOM.options := DOM.options f; DOM.selected := DOM.selected f;
     DOM.default_value := DOM.default_value f; DOM.default_checked := DOM.default_checked f;
     DOM.default_selected := DOM.default_selected f |}.

(** The same field with the attribute [data-rules]. *)
Definition with_rules (rules : string) (f : DOM.field) : DOM.field :=
  {| DOM.tagName := DOM.tagName f; DOM.ftype := DOM.ftype f; DOM.name_attr := DOM.name_attr f;
     DOM.fid := DOM.fid f; DOM.fvalue := DOM.fvalue f; DOM.checked := DOM.checked f;
     DOM.disabled := DOM.disabled f; DOM.required := DOM.required f;
     DOM.placeholder := DOM.placeholder f; DOM.label := DOM.label f;
     DOM.data_required := DOM.data_required f; DOM.data_rules := Some rules;
     DOM.data_allowFuture := DOM.data_allowFuture f; DOM.files := DOM.files f;
     DOM.options := DOM.options f; DOM.selected := DOM.selected f;
     DOM.default_value := DOM.default_value f; DOM.default_checked := DOM.default_checked f;
     DOM.default_selected := DOM.default_selected f |}.

(** A form with an enabled submit button labelled Submit. *)
Definition form_of (id : string) (formType : option string) (fs : list DOM.field) : DOM.form :=
  {| DOM.form_id := id; DOM.data_formType := formType;
     DOM.data_clearOnSuccess := None; DOM.data_successRedirect := None;
     DOM.submitButton := Some {| DOM.btn_disabled := false; DOM.btn_text := "Submit" |};
     DOM.fields := fs |}.

(** A freshly loaded page showing the form: nothing posted, shown or
    stored yet, no global set by other scripts. *)
Definition page (fm : DOM.form) : FormHandler.world :=
  {| FormHandler.w_form := fm; FormHandler.w_posts := [];
     FormHandler.w_notifications := []; FormHandler.w_storage := ∅;
     FormHandler.w_loaders := []; FormHandler.w_next_id := 0;
     FormHandler.w_focus := None; FormHandler.w_marks := [];
     FormHandler.w_globals := ∅; FormHandler.w_redirect := None;
     FormHandler.w_modals := [];
     FormHandler.w_now := 1735689600000; FormHandler.w_pathname := "/clinic.html";
     FormHandler.w_href := "https://meditrack.example/clinic.html" |}.

End Reference.

(* ================================================================== *)
(** * Notions used in the statements *)
(* ================================================================== *)

(** All characters of a string belong to a class. *)
Fixpoint forall_chars (p : ascii -> bool) (s : string) : bool :=
  match s with
  | EmptyString => true
  | String c s' => p c && forall_chars p s'
  end.

(** What one trigger alone brings about. *)
Definition one_trigger {host : JSHost} {backend : FormHandler.Backend}
    (t : FormHandler.trigger) (w : FormHandler.world) : FormHandler.world :=
  let '(f, w1) := FormHandler.listener_begin t w in
  let '(s, w2) := FormHandler.listener_send f w1 in
  FormHandler.listener_settle s w2.


Module DraftFacts.
Import DOM FormHandler.

(** A name that the form data, the data object and the selector of
    [restoreDraft] treat as a plain key: not empty, free of quotes,
    backslashes and line breaks, no property of Object.prototype, not
    the key of the metadata, and not [_charset_]. *)
Definition plain_name (n : string) : bool :=
  negb (JS.is_empty n) && selector_safe n &&
  negb (JS.arr_includes JS.object_prototype_names n) &&
  negb (String.eqb n "_metadata") &&
  negb (String.eqb (JS.toLowerCase n) "_charset_").

(** What the round trip asks of a field: its name, if it has one, is
    plain; only an input is a checkbox or a radio button; a checked
    checkbox or radio button is enabled and has a value; a select has
    at most one option selected, and that one is among its options. *)
Definition restorable_field (f : field) : bool :=
  match name_attr f with Some n => plain_name n | None => true end &&
  (negb (String.eqb (ftype f) "checkbox" || String.eqb (ftype f) "radio") ||
   String.eqb (tagName f) "INPUT") &&
  (negb (is_checkable f && checked f) || (negb (disabled f) && JS.truthy (fvalue f))) &&
  (negb (is_select f) ||
   match selected f with
   | [] => true
   | [v] => JS.arr_includes (options f) v
   | _ => false
   end).

(** The names the fields of a form carry. *)
Definition names (fs : list field) : list string := omap name_attr fs.

(** A form whose fields are restorable and carry pairwise distinct
    names. *)
Definition restorable (fm : form) : Prop :=
  forallb restorable_field (fields fm) = true /\ NoDup (names (fields fm)).

(** The draft [saveDraft] writes for the data [data]. *)
Definition draft_of (data : obj) (w : world) : draft :=
  {| draft_timestamp := w_now w; draft_data := json_obj data; draft_url := w_pathname w |}.

(** The one property a field contributes to the data: its value, or
    the array of its values when it has several. *)
Definition collapse (a : atom) (rest : list atom) : jsval :=
  match rest with
  | [] => VAtom a
  | _ => VArr (a :: rest)
  end.

Definition field_props (f : field) : obj :=
  match entries_of f with
  | [] => []
  | (n, a) :: rest => [(n, collapse a (List.map snd rest))]
  end.

(** What restoring a property does to the fields: nothing, or it
    throws. *)
Definition harmless (fs : list field) (k : string) (v : jsval) : Prop :=
  forall i f, query_index fs k = Some i -> fs !! i = Some f ->
    restore_field i f v fs = JS.Return fs \/ exists e, restore_field i f v fs = JS.Throw e.

(** A key of the data: the empty name of an unnamed checkbox, or a
    plain name. *)
Definition data_key (k : string) : Prop := k = EmptyString \/ plain_name k = true.

End DraftFacts.

(** ** Example pages *)

Module Examples.
Import FormHandler.


(** A clinic form with one filled text field. *)
Definition note_form : DOM.form :=
  Reference.form_of "clinic" (Some "clinicForm") [Reference.text_input "note" "x"].

Definition disabled_submitting : DOM.button :=
  {| DOM.btn_disabled := true; DOM.btn_text := "Submitting..." |}.


(** A blank text input named sampleId, without the attribute
    [required]. *)
Definition blank_sampleId : DOM.field := Reference.text_input "sampleId" EmptyString.

(** An optional text input left blank, with the email and patient-id
    rules attached. *)
Definition blank_optional : DOM.field :=
  {| DOM.tagName := "INPUT"; DOM.ftype := "email"; DOM.name_attr := Some "contactEmail";
     DOM.fid := "contact"; DOM.fvalue := "   "; DOM.checked := false;
     DOM.disabled := false; DOM.required := false; DOM.placeholder := EmptyString;
     DOM.label := None; DOM.data_required := None; DOM.data_rules := Some "patientId,minLength:3";
     DOM.data_allowFuture := None; DOM.files := []; DOM.options := [];
     DOM.selected := []; DOM.default_value := EmptyString;
     DOM.default_checked := false; DOM.default_selected := [] |}.

Definition no_ui : FormValidator.field_ui :=
  {| FormValidator.is_valid := false; FormValidator.is_invalid := false;
     FormValidator.feedback := [] |}.

(** A required text input left blank. *)
Definition blank_required : DOM.field :=
  Reference.with_required (Reference.text_input "ward" EmptyString).

(** Two text inputs that share a name. *)
Definition tags_form : DOM.form :=
  Reference.form_of "tags" None
    [Reference.text_input "tag" "a"; Reference.text_input "tag" "b"].

(** A text input, a checked and an unchecked checkbox. *)
Definition checkbox (n : string) (c : bool) : DOM.field :=
  DOM.with_checked c (Reference.with_type "checkbox" (Reference.text_input n "on")).

Definition intake_form : DOM.form :=
  Reference.form_of "intake" (Some "clinicForm")
    [Reference.text_input "ward" "B2"; checkbox "fasting" true; checkbox "urgent" false].

(** A text input whose rules come from [data-rules]. *)
Definition code_field : DOM.field :=
  Reference.with_rules "pattern:^[0-9]+$" (Reference.text_input "code" "12").



(** The toast with the number [n]; the first one is the persistent
    toast of an error. *)
Definition numbered_toast (n : nat) : NotificationManager.toast :=
  {| NotificationManager.toast_id := "notify_" ++ JS.show_nat n;
     NotificationManager.toast_type := if (n =? 0)%nat then "error" else "info";
     NotificationManager.toast_message := "Saved";
     NotificationManager.toast_persistent := (n =? 0)%nat |}.

Definition six_toasts : list NotificationManager.toast :=
  List.map numbered_toast (seq 0 6).

End Examples.

Module CsvExample.
Import FormHandler.

Definition stock_text : string :=
  "medicine,availability,datestocked" ++ String newline "Aspirin,yes,2024-01-01".

Definition stock_file : DOM.file :=
  {| DOM.file_name := "stock.csv"; DOM.file_size := 56; DOM.file_type := "text/csv";
     DOM.file_text := stock_text |}.

Definition file_input (f : DOM.file) : DOM.field :=
  {| DOM.tagName := "INPUT"; DOM.ftype := "file"; DOM.name_attr := Some "csvFile";
     DOM.fid := "csvFile"; DOM.fvalue := "C:\fakepath\stock.csv"; DOM.checked := false;
     DOM.disabled := false; DOM.required := false; DOM.placeholder := EmptyString;
     DOM.label := None; DOM.data_required := None; DOM.data_rules := None;
     DOM.data_allowFuture := None; DOM.files := [f]; DOM.options := [];
     DOM.selected := []; DOM.default_value := EmptyString;
     DOM.default_checked := false; DOM.default_selected := [] |}.

Definition stock_form : DOM.form :=
  Reference.form_of "pharmacy" (Some "pharmacyCSV") [file_input stock_file].

(** A clinic form with a note and the file as an attachment. *)
Definition report_form : DOM.form :=
  Reference.form_of "clinic" (Some "clinicForm")
    [Reference.text_input "note" "x"; file_input stock_file].

(** A record of a stock file, its availability in mixed case. *)
Definition yes_record : gmap string string :=
  <[ "medicine" := "Aspirin" ]> (<[ "availability" := "Yes" ]> ∅).

(** The same file without the medicine column. *)
Definition headless_text : string :=
  "availability,datestocked" ++ String newline "yes,2024-01-01".

End CsvExample.

(** ** Slugs *)

(** No two hyphens of a string are next to each other; [after_hyphen]
    tells that a hyphen precedes the string. *)
Fixpoint single_hyphens (after_hyphen : bool) (s : string) : bool :=
  match s with
  | EmptyString => true
  | String c s' =>
      if Ascii.eqb c "-" then negb after_hyphen && single_hyphens true s'
      else single_hyphens false s'
  end.

(** The characters of a slug: small letters, digits and the hyphen. *)
Definition slug_char (c : ascii) : bool :=
  JS.is_lower c || JS.is_digit c || Ascii.eqb c "-".

(* ================================================================== *)
(** * Properties *)
(* ================================================================== *)

(** ** Strings and patterns *)

Section RegexFacts.
Import Regex.

Lemma matches_Void s : matches Void s = false.
Proof. induction s as [|c s IH]; simpl; auto. Qed.

Lemma matches_Eps s : matches Eps s = JS.is_empty s.
Proof. destruct s; simpl; auto using matches_Void. Qed.

Lemma matches_Alt a b s : matches (Alt a b) s = matches a s || matches b s.
Proof. revert a b; induction s as [|c s IH]; intros a b; simpl; auto. Qed.

Lemma matches_Seq_Void r s : matches (Seq Void r) s = false.
Proof.
  induction s as [|c s IH]; simpl; auto.
  rewrite matches_Alt, IH, matches_Void. reflexivity.
Qed.

Lemma matches_Seq_Eps r s : matches (Seq Eps r) s = matches r s.
Proof.
  destruct s as [|c s]; simpl; auto.
  rewrite matches_Alt, matches_Seq_Void. reflexivity.
Qed.

(** A class in front consumes one character. *)
Lemma matches_Seq_Class p r c s :
  matches (Seq (Class p) r) (String c s) = p c && matches r s.
Proof.
  simpl. rewrite matches_Alt, matches_Void, orb_false_r.
  destruct (p c); simpl; auto using matches_Seq_Eps, matches_Seq_Void.
Qed.

Lemma matches_Seq_Class_nil p r : matches (Seq (Class p) r) EmptyString = false.
Proof. reflexivity. Qed.

Lemma substring_all t : String.substring 0 (String.length t) t = t.
Proof. induction t; simpl; congruence. Qed.

Lemma length_substring s : forall n m,
  (n + m <= String.length s)%nat -> String.length (String.substring n m s) = m.
Proof.
  induction s as [|c s IH]; intros n m H; simpl in H.
  - assert (n = 0%nat) by lia. assert (m = 0%nat) by lia. subst. reflexivity.
  - destruct n as [|n]; simpl.
    + destruct m as [|m]; simpl; auto. rewrite IH; auto. lia.
    + apply IH. lia.
Qed.

(** [r{0,k}] of a class: at most [k] characters, all of the class. *)
Lemma matches_upto_class p k s :
  matches (upto k (Class p)) s = (String.length s <=? k)%nat && forall_chars p s.
Proof.
  revert s; induction k as [|k IH]; intros s.
  - simpl upto. rewrite matches_Eps. destruct s; reflexivity.
  - simpl upto. rewrite matches_Alt, matches_Eps.
    destruct s as [|c s]; [reflexivity|].
    rewrite matches_Seq_Class, IH. simpl.
    destruct (p c); simpl; auto using andb_false_r.
Qed.

(** [r{n}] of a class followed by [k]: the first [n] characters are of
    the class and the rest matches [k]. *)
Lemma matches_rep_class p n k s :
  matches (rep n (Class p) k) s =
  (n <=? String.length s)%nat &&
  forall_chars p (String.substring 0 n s) &&
  matches k (String.substring n (String.length s - n) s).
Proof.
  revert s; induction n as [|n IH]; intros s.
  - simpl rep. rewrite Nat.sub_0_r, substring_all.
    destruct s; reflexivity.
  - simpl rep. destruct s as [|c s].
    + rewrite matches_Seq_Class_nil. reflexivity.
    + rewrite matches_Seq_Class, IH. simpl.
      destruct (p c); simpl; auto.
      rewrite andb_false_r. reflexivity.
Qed.

Lemma forall_chars_substring p s n m :
  forall_chars p s = true -> forall_chars p (String.substring n m s) = true.
Proof.
  revert n m; induction s as [|c s IH]; intros n m H.
  - destruct n, m; reflexivity.
  - simpl in H. apply andb_prop in H as [Hc Hs].
    destruct n as [|n]; simpl.
    + destruct m as [|m]; simpl; auto. rewrite Hc. simpl. auto.
    + auto.
Qed.

Lemma forall_chars_split p s n :
  forall_chars p (String.substring 0 n s) = true ->
  forall_chars p (String.substring n (String.length s - n) s) = true ->
  forall_chars p s = true.
Proof.
  revert n; induction s as [|c s IH]; intros n H1 H2; auto.
  destruct n as [|n].
  - rewrite Nat.sub_0_r, substring_all in H2. exact H2.
  - simpl in H1, H2. apply andb_prop in H1 as [Hc H1].
    simpl. rewrite Hc. simpl. eauto.
Qed.

(** [[A-Z0-9]{6,12}]: between 6 and 12 characters, all capitals or digits. *)
Lemma patient_re_spec s :
  matches patient_re s =
  (6 <=? String.length s)%nat && (String.length s <=? 12)%nat && forall_chars upper_digit s.
Proof.
  unfold patient_re, range. rewrite matches_rep_class, matches_upto_class.
  change (12 - 6)%nat with 6%nat.
  destruct (6 <=? String.length s)%nat eqn:Hlo; simpl; [|reflexivity].
  apply Nat.leb_le in Hlo.
  assert (Hlen : String.length (String.substring 6 (String.length s - 6) s)
                 = (String.length s - 6)%nat).
  { apply length_substring. lia. }
  rewrite Hlen.
  destruct (String.length s <=? 12)%nat eqn:Hhi.
  - apply Nat.leb_le in Hhi.
    assert (Hle : (String.length s - 6 <=? 6)%nat = true) by (apply Nat.leb_le; lia).
    rewrite Hle. simpl.
    destruct (forall_chars upper_digit s) eqn:Hall.
    + rewrite !forall_chars_substring by assumption. reflexivity.
    + destruct (forall_chars upper_digit (substring 0 6 s)) eqn:H1; simpl; auto.
      destruct (forall_chars upper_digit (substring 6 (String.length s - 6) s)) eqn:H2; auto.
      rewrite (forall_chars_split _ _ _ H1 H2) in Hall. discriminate.
  - apply Nat.leb_gt in Hhi.
    assert (Hle : (String.length s - 6 <=? 6)%nat = false) by (apply Nat.leb_gt; lia).
    rewrite Hle. simpl. apply andb_false_r.
Qed.

(** [[A-Z]{2}\d{6}]: two capitals, then six digits, then nothing. *)
Lemma patientId_re_spec s :
  matches patientId_re s =
  (String.length s =? 8)%nat &&
  forall_chars upper (String.substring 0 2 s) &&
  forall_chars digit (String.substring 2 6 s).
Proof.
  unfold patientId_re, times. rewrite !matches_rep_class, matches_Eps.
  destruct (String.length s =? 8)%nat eqn:Hlen.
  - apply Nat.eqb_eq in Hlen.
    do 9 (destruct s as [|? s]; try discriminate Hlen).
    simpl. rewrite !andb_true_r. reflexivity.
  - apply Nat.eqb_neq in Hlen. rewrite !andb_false_l.
    apply not_true_is_false. intros H.
    apply andb_prop in H as [H Hrest]. apply andb_prop in H as [H2 _].
    apply andb_prop in Hrest as [H6 Hempty]. apply andb_prop in H6 as [H6 _].
    apply Nat.leb_le in H2.
    assert (L2 : String.length (substring 2 (String.length s - 2) s) = (String.length s - 2)%nat)
      by (apply length_substring; lia).
    rewrite L2 in H6, Hempty. apply Nat.leb_le in H6.
    set (t := substring 6 (String.length s - 2 - 6) (substring 2 (String.length s - 2) s)) in *.
    assert (L : String.length t = (String.length s - 2 - 6)%nat).
    { unfold t. apply length_substring. rewrite L2. lia. }
    destruct t; [simpl in L; lia | discriminate Hempty].
Qed.

End RegexFacts.

Section CharacterFacts.
Import Regex.

Lemma forall_chars_impl (p q : ascii -> bool) s :
  (forall c, p c = true -> q c = true) ->
  forall_chars p s = true -> forall_chars q s = true.
Proof.
  intros Hpq. induction s as [|c s IH]; simpl; auto.
  intros H. apply andb_prop in H as [Hc Hs]. rewrite (Hpq _ Hc). simpl. auto.
Qed.

Lemma upper_is_upper_digit c : upper c = true -> upper_digit c = true.
Proof. unfold upper, upper_digit. intros ->. reflexivity. Qed.

Lemma digit_is_upper_digit c : digit c = true -> upper_digit c = true.
Proof. unfold digit, upper_digit. intros ->. apply orb_true_r. Qed.

(** A capital or a digit is no white space and is its own capital. *)
Lemma upper_digit_plain c :
  upper_digit c = true ->
  JS.is_white_space c = false /\ JS.upper_char c = String c EmptyString.
Proof.
  destruct c as [b0 b1 b2 b3 b4 b5 b6 b7].
  destruct b0, b1, b2, b3, b4, b5, b6, b7;
    vm_compute; intros H; try discriminate H; split; reflexivity.
Qed.

Lemma trim_plain s :
  forall_chars (fun c => negb (JS.is_white_space c)) s = true -> JS.trim s = s.
Proof.
  intros H. unfold JS.trim.
  assert (Hs : JS.trimStart s = s).
  { destruct s as [|c s]; simpl in *; auto.
    apply andb_prop in H as [Hc _]. apply negb_true_iff in Hc. rewrite Hc. reflexivity. }
  rewrite Hs. clear Hs.
  induction s as [|c s IH]; simpl in *; auto.
  apply andb_prop in H as [Hc Hs]. apply negb_true_iff in Hc.
  rewrite Hc, (IH Hs). reflexivity.
Qed.

Lemma toUpperCase_plain s :
  forall_chars upper_digit s = true -> JS.toUpperCase s = s.
Proof.
  induction s as [|c s IH]; simpl; auto.
  intros H. apply andb_prop in H as [Hc Hs].
  destruct (upper_digit_plain c Hc) as [_ Hu]. rewrite Hu, (IH Hs). reflexivity.
Qed.

End CharacterFacts.

(** ** Error categorization *)

Section Categorization.
Import ErrorManager.
Context {host : JSHost}.

(** The network test comes first: whatever passes it is NETWORK. *)
Lemma network_first e :
  is_network_error (JS.toLowerCase (err_message e)) (err_code e) (err_type e) = true ->
  categorizeError e = NETWORK.
Proof. unfold categorizeError. intros ->. reflexivity. Qed.

(** Any status from 400 to 599 is settled inside the API branch, so
    the test [code === 400] of the validation branch is never reached
    with a true outcome: no error with code 400 is VALIDATION. *)
Lemma code_400_never_validation e :
  err_code e = CodeNum 400 -> categorizeError e <> VALIDATION.
Proof.
  intros Hc. unfold categorizeError. rewrite Hc.
  destruct (is_network_error _ _ _); [discriminate|].
  unfold is_api_error. cbn [code_number].
  change (JS.num_ge (JS.of_Z 400) (JS.of_Z 400) && JS.num_lt (JS.of_Z 400) (JS.of_Z 600))
    with true.
  cbn [orb].
  destruct (code_is _ 401 || _ || _ || _); [discriminate|].
  destruct (code_is _ 403 || _ || _); discriminate.
Qed.

(** C2 (amended): [categorizeError] classifies every standardized error
    whose message contains "network" in any letter case as NETWORK, also
    when its code is 401; and every error with code 401 that does not
    pass the network test (type NetworkError, a message containing
    network, connection or timeout, code NETWORK_ERROR) as AUTH. *)
Theorem categorize_network_then_auth (e : ErrorObject) :
  (JS.includes (JS.toLowerCase (err_message e)) "network" = true ->
   categorizeError e = NETWORK) /\
  (err_code e = CodeNum 401 ->
   is_network_error (JS.toLowerCase (err_message e)) (err_code e) (err_type e) = false ->
   categorizeError e = AUTH).
Proof.
  split.
  - intros H. apply network_first. unfold is_network_error.
    rewrite H. rewrite orb_true_r. reflexivity.
  - intros Hc Hn. unfold categorizeError. rewrite Hn, Hc.
    unfold is_api_error. cbn [code_number].
    change (JS.num_ge (JS.of_Z 401) (JS.of_Z 400) && JS.num_lt (JS.of_Z 401) (JS.of_Z 600))
      with true.
    reflexivity.
Qed.

End Categorization.

(** An expired session reported over a failing connection, and an
    authentication failure, on the example host. *)
Lemma categorize_network_then_auth_witness :
  ErrorManager.categorizeError (host := Reference.host)
    (ErrorManager.mkError "Network request failed" (ErrorManager.CodeNum 401) "Error")
  = ErrorManager.NETWORK /\
  ErrorManager.categorizeError (host := Reference.host)
    (ErrorManager.mkError "Unauthorized" (ErrorManager.CodeNum 401) "Error")
  = ErrorManager.AUTH.
Proof.
  split.
  - apply (proj1 (categorize_network_then_auth _)). reflexivity.
  - apply (proj2 (categorize_network_then_auth _)); reflexivity.
Defined.

(** C2 as stated fails: an error with code 401 whose message mentions
    the network is NETWORK, not AUTH; and the error with code 400 and
    message "invalid" is API, not VALIDATION. *)
Lemma categorize_401_400_counterexample :
  ErrorManager.categorizeError (host := Reference.host)
    (ErrorManager.mkError "Network request failed" (ErrorManager.CodeNum 401) "Error")
  <> ErrorManager.AUTH /\
  ErrorManager.categorizeError (host := Reference.host)
    (ErrorManager.mkError "invalid" (ErrorManager.CodeNum 400) "Error")
  = ErrorManager.API.
Proof. split; [discriminate | reflexivity]. Qed.

(** ** The patient-id rule *)

(** C3 (amended): every string that fails [^[A-Z0-9]{6,12}$] is
    reported invalid by the patient-id rule of the registry; the rule
    reports valid exactly the strings made of two capital letters and
    six digits; and [Utils.String.validateMedicalId] reports every
    string that matches the pattern valid. *)
Theorem patient_id_rule (v : string) :
  (Regex.matches Regex.patient_re v = false ->
   FormValidator.test FormValidator.patientId v = Some false) /\
  (FormValidator.test FormValidator.patientId v = Some true <->
   String.length v = 8%nat /\
   forall_chars Regex.upper (String.substring 0 2 v) = true /\
   forall_chars Regex.digit (String.substring 2 6 v) = true) /\
  (Regex.matches Regex.patient_re v = true ->
   Utils.id_isValid (Utils.validateMedicalId v "patient") = true).
Proof.
  split; [|split].
  - intros Hno. simpl. f_equal.
    destruct (Regex.matches Regex.patientId_re v) eqn:Hyes; auto.
    rewrite patientId_re_spec in Hyes.
    apply andb_prop in Hyes as [Hyes Hd]. apply andb_prop in Hyes as [Hl Hu].
    apply Nat.eqb_eq in Hl.
    rewrite patient_re_spec, Hl in Hno. simpl in Hno.
    rewrite (forall_chars_split Regex.upper_digit v 2) in Hno; [discriminate| |].
    + eapply forall_chars_impl; [apply upper_is_upper_digit | exact Hu].
    + rewrite Hl. eapply forall_chars_impl; [apply digit_is_upper_digit | exact Hd].
  - simpl. rewrite patientId_re_spec. split.
    + intros H. injection H as H.
      apply andb_prop in H as [H Hd]. apply andb_prop in H as [Hl Hu].
      apply Nat.eqb_eq in Hl. auto.
    + intros (Hl & Hu & Hd). rewrite Hl, Hu, Hd. reflexivity.
  - intros Hyes. rewrite patient_re_spec in Hyes.
    apply andb_prop in Hyes as [Hlen Hall]. apply andb_prop in Hlen as [Hlo Hhi].
    apply Nat.leb_le in Hlo.
    unfold Utils.validateMedicalId.
    assert (Ht : JS.truthy v = true) by (destruct v; [simpl in Hlo; lia | reflexivity]).
    rewrite Ht. cbn [negb].
    assert (Hclean : JS.toUpperCase (JS.trim v) = v).
    { rewrite trim_plain, toUpperCase_plain; auto.
      eapply forall_chars_impl; [|exact Hall].
      intros c Hc. destruct (upper_digit_plain c Hc) as [-> _]. reflexivity. }
    rewrite Hclean. cbn [String.eqb Ascii.eqb Bool.eqb].
    rewrite patient_re_spec.
    apply Nat.leb_le in Hlo. rewrite Hlo, Hhi, Hall. reflexivity.
Qed.

Lemma patient_id_rule_witness :
  Regex.matches Regex.patient_re "AB12" = false /\
  FormValidator.test FormValidator.patientId "AB12" = Some false.
Proof.
  split; [reflexivity|].
  apply (proj1 (patient_id_rule "AB12")). reflexivity.
Defined.

(** C3 as stated fails: six capital letters match the pattern and the
    patient-id rule reports them invalid. *)
Lemma patient_id_rule_counterexample :
  Regex.matches Regex.patient_re "ABCDEF" = true /\
  FormValidator.test FormValidator.patientId "ABCDEF" = Some false.
Proof. split; reflexivity. Qed.

(** ** Field validation *)

Section FieldValidation.
Context {host : JSHost}.

(** C8 (amended): a field whose trimmed value is empty is valid
    without any rule being looked up or tested, whatever its type and
    whatever other rules are attached to it: for the validator of the
    rule registry when its rule list does not contain [required]; for
    the one of the form handler when it has no [required] attribute
    and its name, or its id when it has no name, is none of those in
    [config.validation.required], which the handler takes as required
    without any marking on the field. *)
Theorem optional_empty_is_valid (f : DOM.field) :
  JS.trim (DOM.value f) = EmptyString ->
  (forall u,
     JS.arr_includes (FormValidator.getFieldRules f) "required" = false ->
     FormValidator.validateField f u =
     {| FormValidator.result := JS.Return true;
        FormValidator.consulted := [];
        FormValidator.ui := FormValidator.clearFieldError u |}) /\
  (forall now,
     DOM.required f = false ->
     JS.arr_includes FormHandler.validation_required (DOM.str_or (DOM.name f) (DOM.fid f))
       = false ->
     FormHandler.validateField f now = FormHandler.valid_result).
Proof.
  intros Hv. split.
  - intros u Hr. unfold FormValidator.validateField. rewrite Hv, Hr. reflexivity.
  - intros now Hr Hn. unfold FormHandler.validateField. rewrite Hv, Hr, Hn. reflexivity.
Qed.

(** The result of a run depends on the field alone. *)
Lemma validateField_result_independent (f : DOM.field) (u u' : FormValidator.field_ui) :
  FormValidator.result (FormValidator.validateField f u) =
  FormValidator.result (FormValidator.validateField f u') /\
  FormValidator.consulted (FormValidator.validateField f u) =
  FormValidator.consulted (FormValidator.validateField f u').
Proof.
  unfold FormValidator.validateField.
  destruct (negb _ && negb _); [split; reflexivity|].
  destruct (FormValidator.apply_rules _ _ _ _) as [[[|e es]|e] seen]; split; reflexivity.
Qed.

(** C9 (amended): two successive runs of the field validator on an
    unchanged field return the same result; and when the parent of the
    field holds at most one [.invalid-feedback] node before the first
    run, the error state after the second run (the valid and invalid
    classes and the message nodes, at most one) equals the state after
    the first. *)
Theorem validateField_idempotent (f : DOM.field) (u : FormValidator.field_ui) :
  let first := FormValidator.validateField f u in
  let second := FormValidator.validateField f (FormValidator.ui first) in
  FormValidator.result second = FormValidator.result first /\
  ((List.length (FormValidator.feedback u) <= 1)%nat ->
   FormValidator.ui second = FormValidator.ui first /\
   (List.length (FormValidator.feedback (FormValidator.ui first)) <= 1)%nat).
Proof.
  intros first second.
  split; [apply validateField_result_independent|].
  intros Hu. subst first second. unfold FormValidator.validateField.
  destruct u as [v i fb]. simpl in Hu.
  assert (Hfb : fb = [] \/ exists m, fb = [m]).
  { destruct fb as [|m [|m' fb]]; simpl in Hu; eauto; lia. }
  destruct (negb _ && negb _).
  - cbn. destruct Hfb as [->|[m ->]]; cbn; auto.
  - destruct (FormValidator.apply_rules _ _ _ _) as [[[|e es]|e] seen];
      cbn; destruct Hfb as [->|[m ->]]; cbn; auto.
Qed.

(** C10: for a field of type number whose trimmed value is not empty,
    converts to a number and is below zero, [FormHandler.validateField]
    reports the field invalid, and the first error is the
    positive-number message, whatever rules the field carries. *)
Theorem negative_number_rejected (f : DOM.field) (now : Z) :
  DOM.ftype f = "number" ->
  JS.trim (DOM.value f) <> EmptyString ->
  JS.isNaN_num (ToNumber (JS.trim (DOM.value f))) = false ->
  JS.num_lt (ToNumber (JS.trim (DOM.value f))) (JS.of_Z 0) = true ->
  FormHandler.isValid (FormHandler.validateField f now) = false /\
  hd_error (FormHandler.errors (FormHandler.validateField f now))
  = Some "Please enter a valid positive number".
Proof.
  intros Ht Hv Hnan Hneg.
  unfold FormHandler.validateField.
  assert (Htr : JS.truthy (JS.trim (DOM.value f)) = true).
  { destruct (JS.trim (DOM.value f)); [contradiction|reflexivity]. }
  rewrite Htr. cbn [negb]. rewrite andb_false_r.
  unfold FormHandler.validate_type. rewrite Ht.
  cbn [String.eqb Ascii.eqb Bool.eqb].
  rewrite Hnan, Hneg. cbn [orb].
  destruct (String.eqb _ "patientId" && _), (String.eqb _ "sampleId" && _),
           (String.eqb _ "temperature" && _); split; reflexivity.
Qed.

End FieldValidation.

Lemma optional_empty_is_valid_witness :
  FormValidator.validateField (host := Reference.host) Examples.blank_optional Examples.no_ui =
  {| FormValidator.result := JS.Return true;
     FormValidator.consulted := [];
     FormValidator.ui := FormValidator.clearFieldError Examples.no_ui |} /\
  FormHandler.validateField (host := Reference.host) Examples.blank_optional 0 = FormHandler.valid_result.
Proof.
  split.
  - apply (proj1 (optional_empty_is_valid (host := Reference.host) Examples.blank_optional eq_refl));
      reflexivity.
  - apply (proj2 (optional_empty_is_valid (host := Reference.host) Examples.blank_optional eq_refl));
      reflexivity.
Defined.

(** C8 as stated fails: an input named sampleId that is empty and
    carries neither the [required] attribute nor [data-required] nor a
    rule is valid for the validator of the rule registry, and the form
    handler reports it invalid, its name being in the configured
    list. *)
Lemma optional_empty_is_valid_counterexample :
  let f := Examples.blank_sampleId in
  DOM.required f = false /\ DOM.data_required f = None /\ DOM.data_rules f = None /\
  JS.trim (DOM.value f) = EmptyString /\
  FormValidator.result (FormValidator.validateField (host := Reference.host) f Examples.no_ui)
  = JS.Return true /\
  FormHandler.validateField (host := Reference.host) f 0
  = {| FormHandler.isValid := false;
       FormHandler.errors := ["sampleId is required"];
       FormHandler.warnings := [] |}.
Proof. repeat split; reflexivity. Qed.

Lemma validateField_idempotent_witness :
  let first := FormValidator.validateField (host := Reference.host) Examples.blank_required Examples.no_ui in
  let second := FormValidator.validateField (host := Reference.host) Examples.blank_required
                  (FormValidator.ui first) in
  FormValidator.result first = JS.Return false /\
  FormValidator.result second = FormValidator.result first /\
  FormValidator.ui second = FormValidator.ui first.
Proof.
  split; [reflexivity|].
  pose proof (validateField_idempotent (host := Reference.host)
                Examples.blank_required Examples.no_ui) as H.
  simpl in H. destruct H as (H1 & H2). destruct (H2 ltac:(lia)) as (H3 & _).
  split; assumption.
Defined.

(** C9 as stated fails: with two message nodes below the parent, as
    static markup may provide, the first run removes one node and adds
    its own, the second removes the other and adds its own again: the
    states differ, and two message nodes remain. *)
Lemma validateField_idempotent_counterexample :
  let u := {| FormValidator.is_valid := false; FormValidator.is_invalid := false;
              FormValidator.feedback := ["Please choose a ward."; "Looks good!"] |} in
  let first := FormValidator.validateField (host := Reference.host) Examples.blank_required u in
  let second := FormValidator.validateField (host := Reference.host) Examples.blank_required
                  (FormValidator.ui first) in
  FormValidator.feedback (FormValidator.ui first)
    = ["Looks good!"; "This field is required"] /\
  FormValidator.feedback (FormValidator.ui second)
    = ["This field is required"; "This field is required"] /\
  FormValidator.ui second <> FormValidator.ui first.
Proof. repeat split; try reflexivity. discriminate. Qed.

(** A quantity of minus five. *)
Lemma negative_number_rejected_witness :
  let f := Reference.with_type "number" (Reference.text_input "quantity" "-5") in
  FormHandler.isValid (FormHandler.validateField (host := Reference.host) f 0) = false /\
  hd_error (FormHandler.errors (FormHandler.validateField (host := Reference.host) f 0))
  = Some "Please enter a valid positive number".
Proof.
  apply (negative_number_rejected (host := Reference.host)); try reflexivity.
  discriminate.
Defined.

(** ** Submission *)

Section Submission.
Import FormHandler.
Context {host : JSHost} {backend : Backend}.

(** What [submit_begin] leaves alone: everything but the submit button,
    the loaders and the id counter. *)
Lemma submit_begin_frame (o : option string) (w : world) :
  let w' := snd (submit_begin o w) in
  w_posts w' = w_posts w /\ w_focus w' = w_focus w /\
  w_notifications w' = w_notifications w /\ w_storage w' = w_storage w /\
  w_globals w' = w_globals w /\ w_now w' = w_now w /\
  DOM.fields (w_form w') = DOM.fields (w_form w) /\
  DOM.data_formType (w_form w') = DOM.data_formType (w_form w) /\
  DOM.submitButton (w_form w') =
    option_map (fun _ => {| DOM.btn_disabled := true; DOM.btn_text := "Submitting..." |})
               (DOM.submitButton (w_form w)).
Proof.
  unfold submit_begin, showSpinner.
  destruct (DOM.submitButton (w_form w)) eqn:Hb; cbn; rewrite ?Hb; repeat split; reflexivity.
Qed.

(** Validation reads the fields and the clock, and only adds marks. *)
Lemma validateForm_result (w w' : world) :
  DOM.fields (w_form w') = DOM.fields (w_form w) ->
  w_now w' = w_now w ->
  fst (validateForm w') = fst (validateForm w).
Proof.
  intros Hf Hn. unfold validateForm, validateCrossFields. rewrite Hf, Hn.
  destruct (validate_inputs _ _ _ _ _ _) as [[errs warns] ms]. reflexivity.
Qed.

Lemma validateForm_frame (w : world) :
  let w' := snd (validateForm w) in
  w_posts w' = w_posts w /\ w_focus w' = w_focus w /\
  w_notifications w' = w_notifications w /\ w_storage w' = w_storage w /\
  w_globals w' = w_globals w /\ w_now w' = w_now w /\ w_form w' = w_form w.
Proof.
  unfold validateForm.
  destruct (validate_inputs _ _ _ _ _ _) as [[errs warns] ms]. cbn.
  repeat split; reflexivity.
Qed.

(** The [catch] block calls neither the backend nor [focus], and does
    not touch the storage. *)
Lemma submit_catch_frame (e : JS.js_error) (w : world) :
  let w' := snd (submit_catch e w) in
  w_posts w' = w_posts w /\ w_focus w' = w_focus w /\ w_storage w' = w_storage w.
Proof.
  unfold submit_catch.
  destruct (w_globals w !! "loadingId") as [id|]; [|cbn; auto].
  assert (H1 : w_posts (hideSpinner id w) = w_posts w /\
               w_focus (hideSpinner id w) = w_focus w /\
               w_storage (hideSpinner id w) = w_storage w).
  { unfold hideSpinner. destruct id as [[]| |]; cbn; auto. }
  destruct H1 as (Hp & Hf & Hs).
  destruct (DOM.submitButton (w_form (hideSpinner id w))) as [b|].
  - destruct (w_globals w !! "originalText") as [t|]; cbn; auto.
  - cbn. auto.
Qed.

(** On a page where no script has set a global [loadingId], whatever
    reaches the [catch] block leaves it as a ReferenceError, and the
    block changes nothing. *)
Lemma submit_catch_rejects (e : JS.js_error) (w : world) :
  w_globals w !! "loadingId" = None ->
  submit_catch e w = (JS.Throw (JS.ReferenceError "loadingId is not defined"), w).
Proof. intros H. unfold submit_catch. rewrite H. reflexivity. Qed.






(** [prepareFormData] without drafts never throws. *)
Lemma prepareFormData_returns (w : world) :
  exists d, prepareFormData w false = JS.Return d.
Proof. unfold prepareFormData. eauto. Qed.

(** A valid form that is no CSV form and has no file input: the
    request is sent. *)
Lemma submit_send_valid (fr : frame) (w : world) :
  isValid (fst (validateForm w)) = true ->
  String.eqb (formType fr) "pharmacyCSV" = false ->
  hasFileUploads (w_form w) = false ->
  exists body,
    submit_send fr w =
    (JS.Return (Sent (List.length (w_posts w)) (endpoint fr) body),
     add_post (endpoint fr) body (snd (validateForm w))).
Proof.
  intros Hv Hc Hf. unfold submit_send.
  pose proof (validateForm_frame w) as Fv.
  destruct (validateForm w) as [vr w1]. cbn [fst snd] in Hv, Fv |- *.
  destruct Fv as (Vp & _ & _ & _ & _ & _ & Vform).
  rewrite Hv. cbn [negb].
  destruct (prepareFormData_returns w1) as [d ->].
  rewrite Hc, Vform, Hf, Vp. eauto.
Qed.

Lemma submit_settle_posts (fr : frame) (p : JS.completion progress) (w : world) :
  (forall r, p <> JS.Return (Finished r)) ->
  w_posts (snd (submit_settle fr p w)) = w_posts w.
Proof.
  intros Hp. unfold submit_settle.
  destruct p as [[n ep body|r]|e].
  - destruct (api_post n ep body) as [resp|e].
    + destruct (success resp); cbn [negb].
      * set (w4 := notify "success" _ _).
        assert (H4 : w_posts w4 = w_posts w).
        { subst w4. unfold hideSpinner, clearDraft.
          destruct (DOM.submitButton _); reflexivity. }
        assert (H5 : w_posts (snd (handleSuccessfulSubmission (data resp) w4)) = w_posts w4).
        { unfold handleSuccessfulSubmission, reset_form.
          destruct (match DOM.data_clearOnSuccess _ with Some _ => _ | None => _ end),
                   (DOM.attr_truthy _), (data resp) as [[c|]|]; reflexivity. }
        destruct (handleSuccessfulSubmission (data resp) w4) as [[u|e] w5]; cbn [snd] in *.
        -- congruence.
        -- rewrite (proj1 (submit_catch_frame e w5)). congruence.
      * apply submit_catch_frame.
    + apply submit_catch_frame.
  - exfalso. eapply Hp. reflexivity.
  - apply submit_catch_frame.
Qed.

(** Settling a submission changes neither the fields nor the clock
    unless the backend reported success. *)
Lemma submit_catch_fields (e : JS.js_error) (w : world) :
  let w' := snd (submit_catch e w) in
  DOM.fields (w_form w') = DOM.fields (w_form w) /\ w_now w' = w_now w /\
  DOM.data_formType (w_form w') = DOM.data_formType (w_form w).
Proof.
  unfold submit_catch.
  destruct (w_globals w !! "loadingId") as [id|]; [|cbn; auto].
  assert (H1 : w_form (hideSpinner id w) = w_form w /\ w_now (hideSpinner id w) = w_now w).
  { unfold hideSpinner. destruct id as [[]| |]; cbn; auto. }
  destruct H1 as (Hf & Hn).
  destruct (DOM.submitButton (w_form (hideSpinner id w))) as [b|].
  - destruct (w_globals w !! "originalText") as [t|]; cbn; rewrite ?Hf, ?Hn; auto.
  - cbn. rewrite Hf, Hn. auto.
Qed.

(** C5 (amended): a second activation of the submit control within the
    tick of the first finds the control disabled and fires no submit
    event, so that it changes nothing; a second submit event that does
    reach the listener is no no-op, for [submitForm] has no guard of its
    own: on a valid form without file inputs that is no CSV form, two
    submit events within one tick make two backend calls. *)
Theorem second_trigger (w : world) :
  (forall t b,
     DOM.submitButton (w_form w) = Some b -> fires t w = true ->
     two_triggers t Click w = one_trigger t w) /\
  (isValid (fst (validateForm w)) = true ->
   String.eqb (DOM.attr_or (DOM.data_formType (w_form w)) "generic") "pharmacyCSV" = false ->
   hasFileUploads (w_form w) = false ->
   List.length (w_posts (two_triggers SubmitEvent SubmitEvent w))
   = (List.length (w_posts w) + 2)%nat).
Proof.
  split.
  - intros t b Hb Hf. unfold two_triggers, one_trigger, listener_begin. rewrite Hf.
    destruct (submit_begin None w) as [fr w1] eqn:Hbegin.
    pose proof (submit_begin_frame None w) as Fb. rewrite Hbegin in Fb. cbn in Fb.
    destruct Fb as (_ & _ & _ & _ & _ & _ & _ & _ & Bb). rewrite Hb in Bb. cbn in Bb.
    unfold fires. rewrite Bb. cbn.
    destruct (submit_send fr w1) as [p w2]. reflexivity.
  - intros Hv Hc Hf. unfold two_triggers, listener_begin. cbn [fires].
    destruct (submit_begin None w) as [fr1 w1] eqn:Hb1.
    pose proof (submit_begin_frame None w) as F1. rewrite Hb1 in F1. cbn in F1.
    destruct F1 as (P1 & _ & _ & _ & _ & N1 & Fs1 & T1 & _).
    destruct (submit_begin None w1) as [fr2 w2] eqn:Hb2.
    pose proof (submit_begin_frame None w1) as F2. rewrite Hb2 in F2. cbn in F2.
    destruct F2 as (P2 & _ & _ & _ & _ & N2 & Fs2 & T2 & _).
    assert (Hfr1 : formType fr1 = DOM.attr_or (DOM.data_formType (w_form w)) "generic").
    { unfold submit_begin, showSpinner in Hb1. injection Hb1 as <- _. reflexivity. }
    assert (Hfr2 : formType fr2 = DOM.attr_or (DOM.data_formType (w_form w)) "generic").
    { unfold submit_begin, showSpinner in Hb2. injection Hb2 as <- _. cbn. rewrite T1.
      reflexivity. }
    assert (Hup : forall w', DOM.fields (w_form w') = DOM.fields (w_form w) ->
                             hasFileUploads (w_form w') = false).
    { intros w' Hw'. unfold hasFileUploads in *. rewrite Hw'. exact Hf. }
    (* the first request leaves *)
    cbn [listener_send].
    destruct (submit_send_valid fr1 w2) as [body1 S1].
    { rewrite (validateForm_result w w2); [exact Hv | congruence | congruence]. }
    { rewrite Hfr1. exact Hc. }
    { apply Hup. congruence. }
    rewrite S1.
    pose proof (validateForm_frame w2) as V2. cbn in V2.
    destruct V2 as (Vp2 & _ & _ & _ & _ & Vn2 & Vf2).
    set (w3 := add_post (endpoint fr1) body1 (snd (validateForm w2))) in *.
    assert (Hw3 : w_form w3 = w_form w2 /\ w_now w3 = w_now w2 /\
                  w_posts w3 = (w_posts w2 ++ [(endpoint fr1, body1)])%list).
    { subst w3. cbn. rewrite Vf2, Vn2, Vp2. auto. }
    destruct Hw3 as (Hf3 & Hn3 & Hp3).
    (* the second request leaves *)
    destruct (submit_send_valid fr2 w3) as [body2 S2].
    { rewrite (validateForm_result w w3); [exact Hv | congruence | congruence]. }
    { rewrite Hfr2. exact Hc. }
    { apply Hup. congruence. }
    rewrite S2.
    pose proof (validateForm_frame w3) as V3. cbn in V3.
    destruct V3 as (Vp3 & _).
    set (w4 := add_post (endpoint fr2) body2 (snd (validateForm w3))) in *.
    assert (Hp4 : w_posts w4 = (w_posts w3 ++ [(endpoint fr2, body2)])%list).
    { subst w4. cbn. rewrite Vp3. reflexivity. }
    (* neither answer adds a call *)
    cbn [listener_settle].
    rewrite !submit_settle_posts by (intros r; discriminate).
    rewrite Hp4, Hp3, P2, P1. rewrite !length_app. cbn. lia.
Qed.

(** The failure path after validation, in general: on a page without a
    global [loadingId], when a valid form without file inputs that is
    no CSV form is submitted and the backend throws or answers without
    success, the promise is rejected with the ReferenceError of the
    [catch] block, the submit control, if there is one, stays disabled
    under its busy label, no notification is added, and the storage is
    as before. *)
Lemma backend_failure_rejects (o : option string) (w : world) :
  w_globals w !! "loadingId" = None ->
  isValid (fst (validateForm w)) = true ->
  String.eqb (DOM.attr_or (DOM.data_formType (w_form w)) "generic") "pharmacyCSV" = false ->
  hasFileUploads (w_form w) = false ->
  (forall n ep body resp, api_post n ep body = JS.Return resp -> success resp = false) ->
  let r := submitForm o w in
  fst r = JS.Throw (JS.ReferenceError "loadingId is not defined") /\
  DOM.submitButton (w_form (snd r)) =
    option_map (fun _ => {| DOM.btn_disabled := true; DOM.btn_text := "Submitting..." |})
               (DOM.submitButton (w_form w)) /\
  w_notifications (snd r) = w_notifications w /\
  w_storage (snd r) = w_storage w.
Proof.
  intros Hg Hv Hc Hf Hfail. unfold submitForm.
  destruct (submit_begin o w) as [fr w1] eqn:Hb.
  pose proof (submit_begin_frame o w) as Fb. rewrite Hb in Fb. cbn in Fb.
  destruct Fb as (_ & _ & Bn & Bs & Bg & Bnow & Bfs & Bt & Bb).
  assert (Hfr : formType fr = DOM.attr_or (DOM.data_formType (w_form w)) "generic").
  { unfold submit_begin, showSpinner in Hb. injection Hb as <- _. reflexivity. }
  destruct (submit_send_valid fr w1) as [body S].
  { rewrite (validateForm_result w w1); assumption. }
  { rewrite Hfr. exact Hc. }
  { unfold hasFileUploads in *. rewrite Bfs. exact Hf. }
  rewrite S.
  pose proof (validateForm_frame w1) as Fv. cbn in Fv.
  destruct Fv as (_ & _ & Vn & Vs & Vg & _ & Vf).
  set (w2 := add_post (endpoint fr) body (snd (validateForm w1))) in *.
  assert (Hw2 : w_globals w2 !! "loadingId" = None /\ w_form w2 = w_form w1 /\
                w_notifications w2 = w_notifications w /\ w_storage w2 = w_storage w).
  { subst w2. cbn. rewrite Vg, Bg, Vf, Vn, Vs. auto. }
  destruct Hw2 as (G2 & F2 & N2 & S2).
  assert (Hsettle : submit_settle fr (JS.Return (Sent (List.length (w_posts w1)) (endpoint fr) body)) w2
                    = (JS.Throw (JS.ReferenceError "loadingId is not defined"), w2)).
  { unfold submit_settle.
    destruct (api_post _ _ _) as [resp|e] eqn:Ha.
    - rewrite (Hfail _ _ _ _ Ha). cbn [negb]. apply submit_catch_rejects. exact G2.
    - apply submit_catch_rejects. exact G2. }
  rewrite Hsettle. cbn [fst snd]. rewrite F2, Bb. auto.
Qed.

(** [readCSVFile] rejects whatever the file holds, and the CSV branch
    never reaches the backend. *)
Lemma readCSVFile_rejects (f : DOM.file) :
  readCSVFile f =
  JS.Throw (JS.Error "Failed to parse CSV file: LoadingManager.updateProgress is not a function").
Proof. reflexivity. Qed.

Lemma handleCSVUpload_never_posts (ep : table_value) (w : world) :
  w_posts (snd (handleCSVUpload ep w)) = w_posts w /\
  exists e, fst (handleCSVUpload ep w) = JS.Throw e.
Proof.
  unfold handleCSVUpload.
  destruct (List.find _ _) as [fi|]; [|cbn; eauto].
  destruct (DOM.files fi) as [|file rest]; [cbn; eauto|].
  destruct (negb _); [cbn; eauto|].
  unfold showProgress, csv_upload_body. rewrite readCSVFile_rejects. cbn. eauto.
Qed.

End Submission.

(** ** The theorems on the example page *)



Lemma second_trigger_witness :
  let w := Reference.page Examples.note_form in
  FormHandler.two_triggers (host := Reference.host) (backend := Reference.backend)
    FormHandler.Click FormHandler.Click w
  = one_trigger (host := Reference.host) (backend := Reference.backend) FormHandler.Click w /\
  List.length
    (FormHandler.w_posts
       (FormHandler.two_triggers (host := Reference.host) (backend := Reference.backend)
          FormHandler.SubmitEvent FormHandler.SubmitEvent w))
  = 2%nat.
Proof.
  split.
  - eapply (proj1 (second_trigger (host := Reference.host) (backend := Reference.backend)
                     (Reference.page Examples.note_form))); reflexivity.
  - apply (proj2 (second_trigger (host := Reference.host) (backend := Reference.backend)
                    (Reference.page Examples.note_form))); reflexivity.
Defined.

(** C5 as stated fails: after the first submit event the control is
    disabled and the submission in progress; a second submit event in
    the same tick starts a second submission, and two backend calls are
    made. *)
Lemma second_trigger_counterexample :
  let w := Reference.page Examples.note_form in
  DOM.submitButton
    (FormHandler.w_form
       (snd (FormHandler.listener_begin FormHandler.SubmitEvent w)))
  = Some Examples.disabled_submitting /\
  List.map fst
    (FormHandler.w_posts
       (FormHandler.two_triggers (host := Reference.host) (backend := Reference.backend)
          FormHandler.SubmitEvent FormHandler.SubmitEvent w))
  = [FormHandler.Text "/clinic-samples"; FormHandler.Text "/clinic-samples"].
Proof. split; reflexivity. Qed.

(** C7, the code at a failing input: the note form, its draft saved,
    is valid and is posted; the backend answers without success.  The
    [catch] block then evaluates [loadingId], a constant of the [try]
    block, and throws: the promise is rejected, the submit control
    stays disabled under its busy label, no notification is shown.  The
    draft stays in storage. *)
Theorem failed_submission_keeps_control_disabled :
  let w := FormHandler.saveDraft (host := Reference.host)
             (Reference.page Examples.note_form) in
  let r := FormHandler.submitForm (host := Reference.host) (backend := Reference.backend)
             None w in
  FormHandler.isValid (fst (FormHandler.validateForm (host := Reference.host) w)) = true /\
  List.map fst (FormHandler.w_posts (snd r)) = [FormHandler.Text "/clinic-samples"] /\
  fst r = JS.Throw (JS.ReferenceError "loadingId is not defined") /\
  DOM.submitButton (FormHandler.w_form (snd r)) = Some Examples.disabled_submitting /\
  FormHandler.w_notifications (snd r) = [] /\
  FormHandler.w_storage w !! "meditrack_draft_clinic" <> None /\
  FormHandler.w_storage (snd r) = FormHandler.w_storage w.
Proof. repeat split; try reflexivity. discriminate. Qed.

(** A header without the medicine column: validation fails and names
    the column. *)
Lemma missing_medicine_column {host : JSHost} (d : FormHandler.csvData) :
  JS.arr_includes (FormHandler.headers d) "medicine" = false ->
  FormHandler.isValid (FormHandler.validateCSVData d) = false /\
  hd_error (FormHandler.errors (FormHandler.validateCSVData d))
  = Some "Missing required column: medicine".
Proof.
  intros H. unfold FormHandler.validateCSVData, FormHandler.validateCSVData_errors.
  cbn [List.map List.concat]. rewrite H. cbn. split; reflexivity.
Qed.

(** C4, the code at the input of the claim.  The steps the importer is
    written to take do what the claim says: the text parses into one
    record, the record passes [validateCSVData], and it is posted with
    availability [true]; without the medicine column validation names
    the column.  But [readCSVFile] begins with a call of
    [LoadingManager.updateProgress], a method LoadingManager does not
    have: the call throws, the promise is rejected, and the import ends
    before validation, without a record and without a backend call. *)
Theorem csv_import_stops_in_readCSVFile :
  let w := Reference.page CsvExample.stock_form in
  (* the steps as written *)
  (exists d,
     FormHandler.parse_csv CsvExample.stock_text = JS.Return d /\
     List.length (FormHandler.records d) = 1%nat /\
     FormHandler.validateCSVData (host := Reference.host) d = FormHandler.valid_result /\
     List.map snd
       (FormHandler.w_posts
          (snd (FormHandler.processCSVRecords (backend := Reference.backend)
                  (FormHandler.records d) (FormHandler.Text "/pharmacy-records") w)))
     = [FormHandler.CsvPayload (Some "Aspirin") true (Some "2024-01-01")]) /\
  (exists d,
     FormHandler.parse_csv CsvExample.headless_text = JS.Return d /\
     hd_error (FormHandler.errors (FormHandler.validateCSVData (host := Reference.host) d))
     = Some "Missing required column: medicine") /\
  (* the importer as it runs *)
  FormHandler.readCSVFile CsvExample.stock_file
  = JS.Throw (JS.Error
      "Failed to parse CSV file: LoadingManager.updateProgress is not a function") /\
  FormHandler.w_posts
    (snd (FormHandler.submitForm (host := Reference.host) (backend := Reference.backend)
            None w))
  = [].
Proof.
  split; [|split; [|split]].
  - eexists. split; [vm_compute; reflexivity|]. repeat split; vm_compute; reflexivity.
  - eexists. split; [vm_compute; reflexivity|]. vm_compute. reflexivity.
  - reflexivity.
  - vm_compute. reflexivity.
Qed.

(** ** Drafts *)

Section DraftLemmas.
Import DOM FormHandler DraftFacts.

Section ObjectFacts.

Lemma own_none_notin (o : obj) k : own o k = None <-> ~ In k (List.map fst o).
Proof.
  induction o as [|[k' v'] o IH]; simpl; [tauto|].
  destruct (String.eqb k' k) eqn:E.
  - apply String.eqb_eq in E. subst. split; [discriminate | tauto].
  - apply String.eqb_neq in E. rewrite IH. tauto.
Qed.

Lemma set_own_fresh (o : obj) k v : own o k = None -> set_own o k v = (o ++ [(k, v)])%list.
Proof.
  induction o as [|[k' v'] o IH]; simpl; auto.
  destruct (String.eqb k' k); [discriminate|]. intros H. rewrite IH; auto.
Qed.

Lemma set_own_last (o : obj) k v v' :
  own o k = None -> set_own (o ++ [(k, v)])%list k v' = (o ++ [(k, v')])%list.
Proof.
  induction o as [|[k' w'] o IH]; simpl.
  - rewrite String.eqb_refl. reflexivity.
  - destruct (String.eqb k' k); [discriminate|]. intros H. rewrite IH; auto.
Qed.

Lemma own_last (o : obj) k v : own o k = None -> own (o ++ [(k, v)])%list k = Some v.
Proof.
  induction o as [|[k' w'] o IH]; simpl.
  - rewrite String.eqb_refl. reflexivity.
  - destruct (String.eqb k' k); [discriminate|]. auto.
Qed.

Lemma own_app_other (o : obj) k k' v : k' <> k -> own (o ++ [(k', v)])%list k = own o k.
Proof.
  intros Hne. induction o as [|[k1 v1] o IH]; simpl.
  - apply String.eqb_neq in Hne. rewrite Hne. reflexivity.
  - destruct (String.eqb k1 k); auto.
Qed.

End ObjectFacts.

Section FoldFacts.

Lemma plain_name_facts n :
  plain_name n = true ->
  JS.is_empty n = false /\ selector_safe n = true /\
  JS.arr_includes JS.object_prototype_names n = false /\
  String.eqb n "_metadata" = false /\ String.eqb n "__proto__" = false /\
  String.eqb n "hasOwnProperty" = false /\
  String.eqb (JS.toLowerCase n) "_charset_" = false.
Proof.
  unfold plain_name. intros H.
  apply andb_prop in H as [H H5].
  apply andb_prop in H as [H H4]. apply andb_prop in H as [H H3].
  apply andb_prop in H as [H1 H2].
  apply negb_true_iff in H1, H3, H4, H5.
  repeat split; auto.
  - destruct (String.eqb n "__proto__") eqn:E; auto.
    apply String.eqb_eq in E. subst. discriminate H3.
  - destruct (String.eqb n "hasOwnProperty") eqn:E; auto.
    apply String.eqb_eq in E. subst. discriminate H3.
Qed.

(** Setting a fresh plain key appends it. *)
Lemma add_fresh_entry (o : obj) n a :
  plain_name n = true -> own o n = None ->
  add_entry o (n, a) = (o ++ [(n, VAtom a)])%list.
Proof.
  intros Hp Ho. destruct (plain_name_facts n Hp) as (_ & _ & Hproto & _ & Hpr & _).
  unfold add_entry, get. rewrite Ho, Hproto. cbn [truthy atom_truthy].
  unfold set. rewrite Hpr. apply set_own_fresh. exact Ho.
Qed.

Lemma add_to_array (o : obj) n l a :
  plain_name n = true -> own o n = None ->
  add_entry (o ++ [(n, VArr l)])%list (n, a) = (o ++ [(n, VArr (l ++ [a]))])%list.
Proof.
  intros Hp Ho. destruct (plain_name_facts n Hp) as (_ & _ & _ & _ & Hpr & _ & _).
  unfold add_entry, get. rewrite (own_last o n _ Ho). cbn [truthy].
  unfold set. rewrite Hpr. apply set_own_last. exact Ho.
Qed.

Lemma add_files (o : obj) n :
  plain_name n = true -> own o n = None ->
  forall xs l,
    fold_left add_entry (List.map (fun x => (n, AFile x)) xs) (o ++ [(n, VArr l)])%list
    = (o ++ [(n, VArr (l ++ List.map AFile xs))])%list.
Proof.
  intros Hp Ho. induction xs as [|x xs IH]; intros l; cbn [List.map fold_left].
  - rewrite app_nil_r. reflexivity.
  - rewrite add_to_array by assumption. rewrite IH. rewrite <- app_assoc. reflexivity.
Qed.

Lemma add_second_file (o : obj) n x y :
  plain_name n = true -> own o n = None ->
  add_entry (o ++ [(n, VAtom (AFile x))])%list (n, AFile y)
  = (o ++ [(n, VArr [AFile x; AFile y])])%list.
Proof.
  intros Hp Ho. destruct (plain_name_facts n Hp) as (_ & _ & _ & _ & Hpr & _ & _).
  unfold add_entry, get. rewrite (own_last o n _ Ho). cbn [truthy atom_truthy].
  unfold set. rewrite Hpr. apply set_own_last. exact Ho.
Qed.

Lemma restorable_field_facts f :
  restorable_field f = true ->
  (forall n, name_attr f = Some n -> plain_name n = true) /\
  ((String.eqb (ftype f) "checkbox" || String.eqb (ftype f) "radio") = true ->
   String.eqb (tagName f) "INPUT" = true) /\
  (is_checkable f = true -> checked f = true ->
   disabled f = false /\ JS.truthy (fvalue f) = true) /\
  (is_select f = true ->
   selected f = [] \/ exists v, selected f = [v] /\ JS.arr_includes (options f) v = true).
Proof.
  unfold restorable_field. intros H.
  apply andb_prop in H as [H H4]. apply andb_prop in H as [H H3].
  apply andb_prop in H as [H1 H2].
  split; [|split; [|split]].
  - intros n Hn. rewrite Hn in H1. exact H1.
  - intros Ht. rewrite Ht in H2. exact H2.
  - intros Hc Hk. rewrite Hc, Hk in H3. cbn in H3. apply andb_prop in H3 as [Hd Hv].
    apply negb_true_iff in Hd. auto.
  - intros Hs. rewrite Hs in H4. cbn in H4.
    destruct (selected f) as [|v [|v' l]]; eauto. discriminate.
Qed.

(** The entries of one field, added to data that do not know its name. *)
Lemma fold_field (f : field) (o : obj) :
  restorable_field f = true ->
  (forall n, name_attr f = Some n -> own o n = None) ->
  fold_left add_entry (entries_of f) o = (o ++ field_props f)%list.
Proof.
  intros Hr Ho. destruct (restorable_field_facts f Hr) as (Hn & _ & _ & Hsel).
  unfold field_props, entries_of.
  destruct (disabled f); [simpl; rewrite app_nil_r; reflexivity|].
  destruct (name_attr f) as [n|] eqn:En; [|simpl; rewrite app_nil_r; reflexivity].
  specialize (Hn n eq_refl). specialize (Ho n eq_refl).
  destruct (plain_name_facts n Hn) as (Hne & _ & _ & _ & _ & _ & Hcs). rewrite Hne, Hcs.
  rewrite andb_false_r.
  destruct (is_select f) eqn:Es.
  { destruct (Hsel eq_refl) as [->|(v & -> & _)]; simpl.
    - rewrite app_nil_r. reflexivity.
    - apply add_fresh_entry; assumption. }
  destruct (is_checkable f).
  { destruct (checked f); simpl.
    - apply add_fresh_entry; assumption.
    - rewrite app_nil_r. reflexivity. }
  destruct (is_button f); [simpl; rewrite app_nil_r; reflexivity|].
  destruct (is_type f "file").
  { destruct (files f) as [|x [|y xs]]; cbn [List.map fold_left].
    - apply add_fresh_entry; assumption.
    - apply add_fresh_entry; assumption.
    - rewrite (add_fresh_entry o n (AFile x)), add_second_file by assumption.
      rewrite add_files by assumption. cbn [collapse snd List.map app].
      rewrite List.map_map. cbn [snd]. reflexivity. }
  simpl. apply add_fresh_entry; assumption.
Qed.

Lemma field_props_keys f k v :
  In (k, v) (field_props f) -> name_attr f = Some k.
Proof.
  unfold field_props, entries_of.
  destruct (disabled f); [contradiction|].
  destruct (name_attr f) as [n|]; [|contradiction].
  destruct (JS.is_empty n); [contradiction|].
  assert (H : forall (es : list (string * atom)),
             (forall e, In e es -> fst e = n) ->
             In (k, v) match es with
                       | [] => []
                       | (n0, a) :: rest => [(n0, collapse a (List.map snd rest))]
                       end -> Some n = Some k).
  { intros [|[n0 a] rest] Hes; [contradiction|].
    intros [Heq|[]]. injection Heq as <- _. f_equal. symmetry. apply (Hes (n0, a)). left. reflexivity. }
  apply H.
  destruct (is_select f).
  { intros e He. apply in_map_iff in He as (x & <- & _). reflexivity. }
  destruct (is_checkable f).
  { destruct (checked f); intros e He; [destruct He as [<-|[]]; reflexivity | contradiction]. }
  destruct (is_button f); [intros e []|].
  destruct (is_type f "file").
  { destruct (files f) as [|x xs].
    - intros e [<-|[]]. reflexivity.
    - intros e He. apply in_map_iff in He as (y & <- & _). reflexivity. }
  destruct (is_type f "hidden" && _); intros e [<-|[]]; reflexivity.
Qed.

Lemma names_cons f fs :
  names (f :: fs) = match name_attr f with Some n => n :: names fs | None => names fs end.
Proof. unfold names. simpl. destruct (name_attr f); reflexivity. Qed.

(** The data after the loop over the entries of the form. *)
Lemma fold_form (fs : list field) :
  forallb restorable_field fs = true -> NoDup (names fs) ->
  forall o, (forall n, In n (names fs) -> own o n = None) ->
  fold_left add_entry (List.concat (List.map entries_of fs)) o
  = (o ++ List.concat (List.map field_props fs))%list.
Proof.
  induction fs as [|f fs IH]; intros Hr Hnd o Ho; simpl.
  - rewrite app_nil_r. reflexivity.
  - simpl in Hr. apply andb_prop in Hr as [Hf Hr].
    rewrite fold_left_app.
    rewrite names_cons in Hnd, Ho.
    rewrite fold_field; auto.
    2:{ intros n Hn. apply Ho. rewrite Hn. left. reflexivity. }
    rewrite IH; auto.
    + rewrite app_assoc. reflexivity.
    + destruct (name_attr f); [inversion Hnd; assumption | assumption].
    + intros n Hn.
      apply own_none_notin. rewrite List.map_app, in_app_iff. intros [Hin|Hin].
      * revert Hin. apply own_none_notin. apply Ho.
        destruct (name_attr f); [right|]; assumption.
      * apply in_map_iff in Hin as ([k v] & Hk & Hin). simpl in Hk. subst k.
        apply field_props_keys in Hin. rewrite Hin in Hnd.
        inversion Hnd as [|? ? Hnotin _]. apply Hnotin. exact Hn.
Qed.

End FoldFacts.

Section RestoreFacts.

Lemma query_index_spec (fs : list field) n i :
  query_index fs n = Some i -> exists f, fs !! i = Some f /\ name_attr f = Some n.
Proof.
  revert i. induction fs as [|f fs IH]; intros i; simpl; [discriminate|].
  destruct (name_attr f) as [m|] eqn:En.
  - destruct (String.eqb m n) eqn:E.
    + apply String.eqb_eq in E. subst m. intros [= <-]. exists f. auto.
    + destruct (query_index fs n) as [j|]; simpl; [|discriminate].
      intros [= <-]. destruct (IH j eq_refl) as (g & Hg & Hn). exists g. auto.
  - destruct (query_index fs n) as [j|]; simpl; [|discriminate].
    intros [= <-]. destruct (IH j eq_refl) as (g & Hg & Hn). exists g. auto.
Qed.

Lemma lookup_name_in (fs : list field) i f n :
  fs !! i = Some f -> name_attr f = Some n -> In n (names fs).
Proof.
  revert i. induction fs as [|g fs IH]; intros i; [discriminate|].
  rewrite names_cons. destruct i as [|i]; simpl.
  - intros [= ->] ->. left. reflexivity.
  - intros Hi Hn. destruct (name_attr g); [right|]; eauto.
Qed.

(** With distinct names, a name belongs to one position. *)
Lemma unique_position (fs : list field) :
  NoDup (names fs) ->
  forall i j f g n,
    fs !! i = Some f -> fs !! j = Some g ->
    name_attr f = Some n -> name_attr g = Some n -> i = j.
Proof.
  induction fs as [|h fs IH]; intros Hnd i j f g n Hi Hj Hf Hg; [discriminate|].
  rewrite names_cons in Hnd.
  destruct i as [|i], j as [|j]; simpl in Hi, Hj; auto.
  - injection Hi as ->. rewrite Hf in Hnd. inversion Hnd as [|? ? Hnotin _].
    exfalso. apply Hnotin. eapply lookup_name_in; eauto.
  - injection Hj as ->. rewrite Hg in Hnd. inversion Hnd as [|? ? Hnotin _].
    exfalso. apply Hnotin. eapply lookup_name_in; eauto.
  - f_equal. eapply IH; eauto.
    destruct (name_attr h); [inversion Hnd|]; assumption.
Qed.

Lemma with_checked_same f : with_checked (checked f) f = f.
Proof. destruct f; reflexivity. Qed.

Lemma with_value_same f : with_value (fvalue f) f = f.
Proof. destruct f; reflexivity. Qed.

Lemma with_selected_same f : with_selected (selected f) f = f.
Proof. destruct f; reflexivity. Qed.

Lemma set_fields_same fm : set_fields (fields fm) fm = fm.
Proof. destruct fm; reflexivity. Qed.

(** Checking the only radio button of its name unchecks no other. *)
Lemma uncheck_group_alone (fs : list field) n i :
  JS.is_empty n = false ->
  (forall j g, fs !! j = Some g -> name_attr g = Some n -> j = i) ->
  uncheck_group n i fs = fs.
Proof.
  intros Hn Hu. unfold uncheck_group. apply list_eq. intros j.
  rewrite list_lookup_imap. destruct (fs !! j) as [g|] eqn:Hg; simpl; auto.
  f_equal.
  destruct (Nat.eqb j i) eqn:Eji; [reflexivity|].
  apply Nat.eqb_neq in Eji. cbn [negb andb].
  destruct (is_type g "radio"); cbn [andb]; auto.
  rewrite Hn. cbn [negb andb].
  destruct (String.eqb (DOM.name g) n) eqn:E; auto.
  apply String.eqb_eq in E. exfalso. apply Eji. apply (Hu j g Hg).
  unfold DOM.name in E. destruct (name_attr g); [congruence|].
  subst n. discriminate Hn.
Qed.

Lemma restore_entries_harmless (es : obj) (fs : list field) :
  (forall k v, In (k, v) es -> harmless fs k v) ->
  snd (restore_entries es fs) = fs.
Proof.
  induction es as [|[k v] es IH]; intros H; simpl; auto.
  destruct (selector_safe k); cbn [negb]; auto.
  destruct (query_index fs k) as [i|] eqn:Hq; [|apply IH; intros; apply H; right; assumption].
  destruct (fs !! i) as [f|] eqn:Hf; [|apply IH; intros; apply H; right; assumption].
  destruct (H k v (or_introl eq_refl) i f Hq Hf) as [->|[e ->]]; auto.
  apply IH. intros; apply H; right; assumption.
Qed.

(** The property a restorable field contributed puts the field back as
    it is. *)
Lemma restore_own (fs : list field) i f n :
  restorable_field f = true ->
  fs !! i = Some f -> name_attr f = Some n ->
  (forall j g, fs !! j = Some g -> name_attr g = Some n -> j = i) ->
  forall v v', In (n, v) (field_props f) -> json_roundtrip v = Some v' ->
    restore_field i f v' fs = JS.Return fs \/ exists e, restore_field i f v' fs = JS.Throw e.
Proof.
  intros Hr Hi Hn Hu v v' Hin Hj.
  destruct (restorable_field_facts f Hr) as (Hpl & Htag & Hchk & Hsel).
  specialize (Hpl n Hn).
  destruct (plain_name_facts n Hpl) as (Hne & _ & _ & _ & _ & _ & Hcs).
  assert (Hname : DOM.name f = n) by (unfold DOM.name; rewrite Hn; reflexivity).
  unfold field_props, entries_of in Hin. rewrite Hn, Hne, Hcs, andb_false_r in Hin.
  destruct (disabled f) eqn:Hd; [contradiction|].
  unfold restore_field.
  destruct (String.eqb (ftype f) "checkbox" || String.eqb (ftype f) "radio") eqn:Ht.
  - (* a checkbox or a radio button *)
    pose proof (Htag eq_refl) as Hinput.
    assert (Hs : is_select f = false).
    { unfold is_select. apply String.eqb_eq in Hinput. rewrite Hinput. reflexivity. }
    assert (Hc : is_checkable f = true).
    { unfold is_checkable, is_type. rewrite Hinput. exact Ht. }
    rewrite Hs, Hc in Hin.
    destruct (checked f) eqn:Hk; [|contradiction].
    destruct Hin as [Heq|[]]. injection Heq as <-. cbn in Hj. injection Hj as <-.
    destruct (Hchk Hc eq_refl) as (_ & Hv).
    cbn [truthy atom_truthy]. rewrite Hv.
    assert (Hw : with_checked true f = f) by (rewrite <- Hk; apply with_checked_same).
    rewrite Hw, list_insert_id by exact Hi.
    left. rewrite Hname, uncheck_group_alone by assumption.
    destruct (true && is_type f "radio"); reflexivity.
  - apply orb_false_elim in Ht as [Ht1 Ht2].
    assert (Hc : is_checkable f = false).
    { unfold is_checkable, is_type. rewrite Ht1, Ht2, !andb_false_r. reflexivity. }
    rewrite Hc in Hin.
    destruct (is_select f) eqn:Hs.
    + (* a select *)
      destruct (Hsel eq_refl) as [Hnone|(v0 & Hone & Hopt)]; rewrite ?Hnone, ?Hone in Hin;
        [contradiction|].
      destruct Hin as [Heq|[]]. injection Heq as <-. cbn in Hj. injection Hj as <-.
      cbn [toString atom_toString]. rewrite Hopt, <- Hone, with_selected_same.
      rewrite list_insert_id by exact Hi. left. reflexivity.
    + destruct (is_button f); [contradiction|].
      destruct (is_type f "file") eqn:Hfile.
      * (* a file input: the stored value is an object or an array of objects *)
        right.
        assert (Hv : JS.is_empty (value_text v') = false).
        { destruct (files f) as [|x [|y xs]]; cbn in Hin;
            destruct Hin as [Heq|[]]; injection Heq as <-; cbn in Hj; injection Hj as <-;
            reflexivity. }
        rewrite Hv. eauto.
      * (* any other field *)
        destruct Hin as [Heq|[]]. injection Heq as <-. cbn in Hj. injection Hj as <-.
        cbn [value_text toString atom_toString]. rewrite with_value_same.
        rewrite list_insert_id by exact Hi. left. reflexivity.
Qed.

End RestoreFacts.

Section RoundTrip.
Context {host : JSHost}.

Lemma In_set_own (o : obj) k v e : In e (set_own o k v) -> e = (k, v) \/ In e o.
Proof.
  induction o as [|[k' v'] o IH]; simpl.
  - intros [<-|[]]. auto.
  - destruct (String.eqb k' k); simpl.
    + intros [<-|H]; auto.
    + intros [<-|H]; auto. destruct (IH H); auto.
Qed.

Lemma In_set (o : obj) k v e : In e (set o k v) -> e = (k, v) \/ In e o.
Proof. unfold set. destruct (String.eqb k "__proto__"); auto using In_set_own. Qed.

Lemma In_json_obj (o : obj) k v' :
  In (k, v') (json_obj o) -> exists v, In (k, v) o /\ json_roundtrip v = Some v'.
Proof.
  induction o as [|[k0 v0] o IH]; simpl; [contradiction|].
  destruct (json_roundtrip v0) as [v1|] eqn:E.
  - intros [[= <- <-]|H]; eauto. destruct (IH H) as (v & ? & ?). eauto.
  - intros H. destruct (IH H) as (v & ? & ?). eauto.
Qed.

Lemma own_In (o : obj) k v : own o k = Some v -> In (k, v) o.
Proof.
  induction o as [|[k' v'] o IH]; simpl; [discriminate|].
  destruct (String.eqb k' k) eqn:E; auto.
  apply String.eqb_eq in E. subst. intros [= ->]. auto.
Qed.

Lemma data_key_not_hasOwnProperty (o : obj) :
  (forall k, In k (List.map fst o) -> data_key k) -> own o "hasOwnProperty" = None.
Proof.
  intros H. apply own_none_notin. intros Hin.
  destruct (H _ Hin) as [Heq|Hp]; [discriminate|].
  destruct (plain_name_facts _ Hp) as (_ & _ & _ & _ & _ & Hh & _). discriminate Hh.
Qed.

(** The loop over the checkboxes only appends [false] under names the
    data did not have. *)
Lemma add_unchecked_spec (boxes : list field) :
  (forall b, In b boxes -> data_key (DOM.name b)) ->
  forall d, (forall k, In k (List.map fst d) -> data_key k) ->
  exists d',
    add_unchecked boxes d = JS.Return d' /\
    (forall k, In k (List.map fst d') -> data_key k) /\
    (forall k v, In (k, v) d' ->
       In (k, v) d \/
       (v = VBool false /\ own d k = None /\ exists b, In b boxes /\ DOM.name b = k)).
Proof.
  induction boxes as [|b boxes IH]; intros Hb d Hd; simpl.
  - exists d. auto.
  - rewrite (data_key_not_hasOwnProperty d Hd).
    destruct (own d (DOM.name b)) as [v0|] eqn:Ho.
    + destruct (IH (fun x Hx => Hb x (or_intror Hx)) d Hd) as (d' & -> & Hk & Hin).
      exists d'. split; [reflexivity|]. split; [exact Hk|].
      intros k v H. destruct (Hin k v H) as [?|(? & ? & x & ? & ?)]; eauto 8.
    + assert (Hset : set d (DOM.name b) (VBool false)
                     = (d ++ [(DOM.name b, VBool false)])%list).
      { unfold set.
        assert (Hp : String.eqb (DOM.name b) "__proto__" = false).
        { destruct (Hb b (or_introl eq_refl)) as [->|Hp]; [reflexivity|].
          apply (plain_name_facts _ Hp). }
        rewrite Hp. apply set_own_fresh. exact Ho. }
      rewrite Hset.
      destruct (IH (fun x Hx => Hb x (or_intror Hx)) (d ++ [(DOM.name b, VBool false)])%list)
        as (d' & -> & Hk & Hin).
      { intros k. rewrite List.map_app, in_app_iff. intros [H|[<-|[]]]; auto.
        apply Hb. left. reflexivity. }
      exists d'. split; [reflexivity|]. split; [exact Hk|].
      intros k v H. destruct (Hin k v H) as [H'|(Hv & Hown & x & Hx & Hnx)].
      * apply in_app_iff in H' as [H'|[[= <- <-]|[]]]; auto.
        right. split; [reflexivity|]. split; [exact Ho|]. exists b. auto.
      * right. split; [exact Hv|]. split; [|exists x; auto].
        apply own_none_notin. intros Hin'. revert Hown. apply not_eq_sym.
        destruct (own _ k) eqn:E; [discriminate|].
        apply own_none_notin in E. exfalso. apply E.
        rewrite List.map_app, in_app_iff. auto.
Qed.

Lemma forallb_In {A} (p : A -> bool) l x : forallb p l = true -> In x l -> p x = true.
Proof. intros H Hx. rewrite forallb_forall in H. auto. Qed.

Lemma In_lookup (fs : list field) f : In f fs -> exists i, fs !! i = Some f.
Proof.
  intros H. apply list_elem_of_In in H. apply list_elem_of_lookup in H. exact H.
Qed.

Lemma lookup_In (fs : list field) i f : fs !! i = Some f -> In f fs.
Proof. intros H. apply list_elem_of_In. eapply list_elem_of_lookup_2. exact H. Qed.

Lemma names_plain (fs : list field) n :
  forallb restorable_field fs = true -> In n (names fs) -> plain_name n = true.
Proof.
  intros Hr. induction fs as [|f fs IH]; [contradiction|].
  simpl in Hr. apply andb_prop in Hr as [Hf Hr].
  rewrite names_cons. destruct (name_attr f) as [m|] eqn:Em; [|auto].
  intros [<-|H]; auto. apply (restorable_field_facts f Hf). exact Em.
Qed.

Lemma query_none (fs : list field) k :
  ~ In k (names fs) -> query_index fs k = None.
Proof.
  intros H. destruct (query_index fs k) as [i|] eqn:E; auto.
  destruct (query_index_spec fs k i E) as (f & Hf & Hn).
  exfalso. apply H. eapply lookup_name_in; eauto.
Qed.

(** The data of a restorable form: each property, once through JSON,
    is harmless for the fields it came from. *)
Lemma prepared_data_harmless (w : world) :
  restorable (w_form w) ->
  exists data,
    prepareFormData w true = JS.Return data /\
    forall k v', In (k, v') (json_obj data) -> harmless (fields (w_form w)) k v'.
Proof.
  intros [Hr Hnd]. set (fs := fields (w_form w)) in *.
  unfold prepareFormData, form_entries. fold fs.
  rewrite (fold_form fs Hr Hnd []) by reflexivity. cbn [app].
  set (d0 := List.concat (List.map field_props fs)).
  assert (Hd0 : forall k v, In (k, v) d0 ->
                  exists f, In f fs /\ In (k, v) (field_props f) /\ name_attr f = Some k).
  { intros k v H. apply in_concat in H as (l & Hl & H).
    apply in_map_iff in Hl as (f & <- & Hf). exists f. eauto using field_props_keys. }
  assert (Hk0 : forall k, In k (List.map fst d0) -> data_key k).
  { intros k H. apply in_map_iff in H as ([k' v] & <- & H).
    destruct (Hd0 _ _ H) as (f & Hf & _ & Hn). right.
    apply (restorable_field_facts f (forallb_In _ _ _ Hr Hf)). exact Hn. }
  destruct (add_unchecked_spec (List.filter (fun f => is_type f "checkbox") fs)) with (d := d0)
    as (d1 & -> & Hk1 & Hin1); [|exact Hk0|].
  { intros b Hb. apply filter_In in Hb as [Hb _].
    unfold data_key, DOM.name. destruct (name_attr b) as [n|] eqn:En; auto.
    right. apply (restorable_field_facts b (forallb_In _ _ _ Hr Hb)). exact En. }
  eexists. split; [reflexivity|].
  intros k v' Hin. apply In_json_obj in Hin as (v & Hin & Hj).
  apply In_set in Hin as [[= -> ->]|Hin].
  - (* the metadata *)
    intros i f Hq. rewrite query_none in Hq; [discriminate|].
    intros H. apply (names_plain fs _ Hr) in H. discriminate H.
  - destruct (Hin1 k v Hin) as [H0|(-> & Hown & b & Hb & Hname)].
    + (* the property of a field *)
      destruct (Hd0 _ _ H0) as (f & Hf & Hp & Hn).
      intros i g Hq Hg.
      destruct (query_index_spec fs k i Hq) as (g' & Hg' & Hgn).
      rewrite Hg in Hg'. injection Hg' as <-.
      destruct (In_lookup fs f Hf) as (j & Hj').
      assert (i = j) by (eapply (unique_position fs Hnd); eauto). subst j.
      rewrite Hg in Hj'. injection Hj' as ->.
      eapply restore_own; eauto using forallb_In.
      intros j h Hh Hhn. eapply (unique_position fs Hnd); eauto.
    + (* an unchecked checkbox *)
      cbn in Hj. injection Hj as <-.
      apply filter_In in Hb as [Hb Hbox].
      intros i g Hq Hg.
      destruct (query_index_spec fs k i Hq) as (g' & Hg' & Hgn).
      rewrite Hg in Hg'. injection Hg' as <-.
      pose proof (names_plain fs k Hr (lookup_name_in fs i g k Hg Hgn)) as Hpl.
      destruct (plain_name_facts k Hpl) as (Hne & _).
      assert (Hbn : name_attr b = Some k).
      { unfold DOM.name in Hname. destruct (name_attr b); [congruence|].
        subst k. discriminate Hne. }
      destruct (In_lookup fs b Hb) as (j & Hj').
      assert (i = j) by (eapply (unique_position fs Hnd); eauto). subst j.
      rewrite Hg in Hj'. injection Hj' as ->.
      pose proof (forallb_In _ _ _ Hr Hb) as Hrb.
      destruct (restorable_field_facts b Hrb) as (_ & _ & Hchk & _).
      assert (Hc : is_checkable b = true) by (unfold is_checkable; rewrite Hbox; reflexivity).
      assert (Hunchecked : checked b = false).
      { destruct (checked b) eqn:Hk; auto.
        destruct (Hchk Hc eq_refl) as (Hd & _).
        exfalso. apply own_none_notin in Hown. apply Hown.
        apply in_map_iff. exists (k, VAtom (AStr (fvalue b))). split; [reflexivity|].
        apply in_concat. exists (field_props b). split; [apply in_map; exact Hb|].
        unfold field_props, entries_of. rewrite Hd, Hbn, Hne, Hc, Hk.
        assert (Hs : is_select b = false).
        { unfold is_type in Hbox. apply andb_prop in Hbox as [Ht _].
          unfold is_select. apply String.eqb_eq in Ht. rewrite Ht. reflexivity. }
        rewrite Hs. left. reflexivity. }
      left. unfold restore_field.
      unfold is_type in Hbox. apply andb_prop in Hbox as [_ Ht]. rewrite Ht. cbn [orb].
      cbn [truthy VBool atom_truthy andb].
      rewrite <- Hunchecked, with_checked_same, list_insert_id by exact Hg. reflexivity.
Qed.

End RoundTrip.

Section RoundTripTheorem.
Context {host : JSHost}.

Lemma restoreDraft_form (d : draft) (w : world) :
  w_form (restoreDraft d w)
  = set_fields (snd (restore_entries (draft_data d) (fields (w_form w)))) (w_form w).
Proof.
  unfold restoreDraft.
  destruct (restore_entries _ _) as [[fs'|e] fs]; reflexivity.
Qed.

(** C6 (amended): for every form that is restorable and not empty,
    [saveDraft] stores the draft of its data, and [restoreDraft] of
    that draft, with no edit in between, leaves every field of the
    form as it was at save time.  Restorable means: the names of the
    fields are pairwise distinct and plain (not empty, free of double
    quotes, backslashes, line feeds, form feeds and carriage returns,
    no property of Object.prototype, not [_metadata], and not
    [_charset_] in any letter case); only input
    elements are of type checkbox or radio; a checked checkbox or
    radio button is enabled and has a value that is not empty; a
    select has at most one option selected, one of its options. *)
Theorem draft_round_trip (w : world) :
  restorable (w_form w) ->
  exists data,
    prepareFormData w true = JS.Return data /\
    (isFormEmpty data = false ->
     w_storage (saveDraft w) !! (storagePrefix ++ draft_form_id (w_form w))
     = Some (draft_of data w) /\
     w_form (restoreDraft (draft_of data w) (saveDraft w)) = w_form w).
Proof.
  intros Hr. destruct (prepared_data_harmless w Hr) as (data & Hp & Hh).
  exists data. split; [exact Hp|]. intros Hne.
  assert (Hs : saveDraft w
               = set_storage (<[ storagePrefix ++ draft_form_id (w_form w) := draft_of data w ]>
                                (w_storage w)) w).
  { unfold saveDraft. rewrite Hp, Hne. reflexivity. }
  rewrite Hs. split.
  - cbn. apply lookup_insert_eq.
  - rewrite restoreDraft_form. cbn [w_form set_storage draft_of draft_data].
    rewrite restore_entries_harmless by exact Hh.
    apply set_fields_same.
Qed.

End RoundTripTheorem.

End DraftLemmas.

(** The intake form: a ward, a checked and an unchecked checkbox. *)
Lemma draft_round_trip_witness :
  let w := Reference.page Examples.intake_form in
  DraftFacts.restorable (FormHandler.w_form w) /\
  exists data,
    FormHandler.prepareFormData (host := Reference.host) w true = JS.Return data /\
    FormHandler.isFormEmpty data = false /\
    FormHandler.w_form
      (FormHandler.restoreDraft (DraftFacts.draft_of data w)
         (FormHandler.saveDraft (host := Reference.host) w))
    = FormHandler.w_form w.
Proof.
  assert (Hr : DraftFacts.restorable
                 (FormHandler.w_form (Reference.page Examples.intake_form))).
  { split; [reflexivity|].
    repeat constructor; cbn; intuition discriminate. }
  split; [exact Hr|].
  destruct (draft_round_trip (host := Reference.host)
              (Reference.page Examples.intake_form) Hr) as (data & Hp & H).
  exists data. split; [exact Hp|].
  assert (Hne : FormHandler.isFormEmpty data = false).
  { vm_compute in Hp. injection Hp as <-. reflexivity. }
  split; [exact Hne|]. apply (H Hne).
Defined.

(** C6 as stated fails: of two text inputs named tag, holding a and b,
    the draft keeps the array of both values under the one name;
    restoring it writes the array, as text, into the first input. *)
Lemma draft_round_trip_counterexample :
  let w := Reference.page Examples.tags_form in
  let saved := FormHandler.saveDraft (host := Reference.host) w in
  exists d,
    FormHandler.w_storage saved !! "meditrack_draft_tags" = Some d /\
    List.map DOM.value (DOM.fields (FormHandler.w_form w)) = ["a"; "b"] /\
    List.map DOM.value (DOM.fields (FormHandler.w_form (FormHandler.restoreDraft d saved)))
    = ["a,b"; "b"].
Proof. eexists. split; [vm_compute; reflexivity|]. split; reflexivity. Qed.
(** ** Utils.String *)

Section StringFacts.

Lemma length_append (a b : string) :
  String.length (a ++ b) = (String.length a + String.length b)%nat.
Proof. induction a; simpl; auto. Qed.

Lemma length_repeat_char (c : ascii) (n : nat) :
  String.length (JS.repeat (String c EmptyString) n) = n.
Proof. induction n; simpl; auto. Qed.

Lemma get_repeat_char (c : ascii) (n i : nat) :
  (i < n)%nat -> String.get i (JS.repeat (String c EmptyString) n) = Some c.
Proof.
  revert i; induction n as [|n IH]; intros i Hi; [lia|].
  destruct i as [|i]; simpl; auto. apply IH. lia.
Qed.

Lemma get_app_left (a b : string) (i : nat) :
  (i < String.length a)%nat -> String.get i (a ++ b) = String.get i a.
Proof.
  revert i; induction a as [|c a IH]; intros i Hi; simpl in Hi; [lia|].
  destruct i as [|i]; simpl; auto. apply IH. lia.
Qed.

Lemma get_app_right (a b : string) (i : nat) :
  (String.length a <= i)%nat ->
  String.get i (a ++ b) = String.get (i - String.length a) b.
Proof.
  revert i; induction a as [|c a IH]; intros i Hi; simpl in *.
  - rewrite Nat.sub_0_r. reflexivity.
  - destruct i as [|i]; [lia|]. simpl. apply IH. lia.
Qed.

Lemma get_substring (s : string) (n m i : nat) :
  (i < m)%nat -> String.get i (String.substring n m s) = String.get (i + n) s.
Proof. intros H. apply String.substring_correct1. exact H. Qed.

Lemma clamp_le (n : Z) (s : string) : (JS.clamp n s <= String.length s)%nat.
Proof. unfold JS.clamp. lia. Qed.

Lemma substring_0_length (k : Z) (s : string) :
  String.length (JS.substring 0 k s) = JS.clamp k s.
Proof.
  unfold JS.substring. pose proof (clamp_le k s).
  assert (H0 : JS.clamp 0 s = 0%nat) by (unfold JS.clamp; simpl; lia).
  rewrite H0. rewrite Nat.min_0_l, Nat.max_0_l, Nat.sub_0_r.
  apply length_substring. lia.
Qed.

Lemma substring_0_eq (k : Z) (s : string) :
  JS.substring 0 k s = String.substring 0 (JS.clamp k s) s.
Proof.
  unfold JS.substring.
  assert (H0 : JS.clamp 0 s = 0%nat) by (unfold JS.clamp; simpl; lia).
  rewrite H0, Nat.min_0_l, Nat.max_0_l, Nat.sub_0_r. reflexivity.
Qed.

Lemma substring_from_length (k : Z) (s : string) :
  String.length (JS.substring_from k s) = (String.length s - JS.clamp k s)%nat.
Proof.
  unfold JS.substring_from. pose proof (clamp_le k s).
  apply length_substring. lia.
Qed.

End StringFacts.

(** X1.  [Utils.String.truncate] keeps a text within the limit: when
    the suffix is no longer than the limit, the result has at most
    [length] characters; a text within the limit is returned as it is,
    and a longer one becomes its first [length - suffix.length]
    characters followed by the suffix, [length] characters in all. *)
Theorem truncate_within_limit (str : string) (n : Z) (suffix : string) :
  (Z.of_nat (String.length suffix) <= n)%Z ->
  (Z.of_nat (String.length (Utils.truncate str n suffix)) <= n)%Z /\
  ((Z.of_nat (String.length str) <= n)%Z -> Utils.truncate str n suffix = str) /\
  ((n < Z.of_nat (String.length str))%Z ->
   Utils.truncate str n suffix =
     String.substring 0 (Z.to_nat n - String.length suffix) str ++ suffix /\
   Z.of_nat (String.length (Utils.truncate str n suffix)) = n).
Proof.
  intros Hs. unfold Utils.truncate.
  destruct str as [|c str]; [cbn; split; [lia|split; [auto|intros H; cbn in H; lia]]|].
  cbn [JS.truthy JS.is_empty negb].
  set (s := String c str) in *.
  destruct (Z.of_nat (String.length s) <=? n)%Z eqn:Hle.
  - apply Z.leb_le in Hle. split; [lia|]. split; [auto|lia].
  - apply Z.leb_gt in Hle.
    assert (Hc : JS.clamp (n - Z.of_nat (String.length suffix)) s
                 = (Z.to_nat n - String.length suffix)%nat).
    { unfold JS.clamp. lia. }
    assert (Hlen : String.length (JS.substring 0 (n - Z.of_nat (String.length suffix)) s ++ suffix)
                   = Z.to_nat n).
    { rewrite length_append, substring_0_length, Hc. lia. }
    split; [rewrite Hlen; lia|]. split; [lia|].
    intros _. split; [|rewrite Hlen; lia].
    rewrite substring_0_eq, Hc. reflexivity.
Qed.

Lemma truncate_within_limit_witness :
  (Z.of_nat (String.length "...") <= 8)%Z /\
  Utils.truncate "Amoxicillin" 8 "..." = "Amoxi...".
Proof.
  split; [simpl; lia|].
  destruct (truncate_within_limit "Amoxicillin" 8 "..." ltac:(simpl; lia)) as (_ & _ & H).
  destruct (H ltac:(simpl; lia)) as [-> _]. reflexivity.
Defined.

(** X2.  [Utils.String.mask] with a one-character mask and
    non-negative visible counts keeps the length of the text; when the
    text is longer than the two visible parts together, a position of
    the result shows the character of the text inside the visible
    start and the visible end and the mask character everywhere else;
    a text that is not longer is masked entirely. *)
Theorem mask_positions (str : string) (c : ascii) (vs ve : Z) (i : nat) :
  (0 <= vs)%Z -> (0 <= ve)%Z -> (i < String.length str)%nat ->
  let masked := Utils.mask str (String c EmptyString) vs ve in
  String.length masked = String.length str /\
  String.get i masked =
    if (vs + ve <? Z.of_nat (String.length str))%Z &&
       ((Z.of_nat i <? vs)%Z || (Z.of_nat (String.length str) - ve <=? Z.of_nat i)%Z)
    then String.get i str
    else Some c.
Proof.
  intros Hvs Hve Hi masked. subst masked. unfold Utils.mask.
  destruct str as [|c0 str]; [simpl in Hi; lia|].
  cbn [JS.truthy JS.is_empty negb].
  set (s := String c0 str) in *. set (len := String.length s) in *.
  destruct (Z.of_nat len <=? vs + ve)%Z eqn:Hle.
  - apply Z.leb_le in Hle.
    assert (Hlt : (vs + ve <? Z.of_nat len)%Z = false) by (apply Z.ltb_ge; lia).
    rewrite Hlt. cbn [andb].
    split; [apply length_repeat_char | apply get_repeat_char; exact Hi].
  - apply Z.leb_gt in Hle.
    assert (Hlt : (vs + ve <? Z.of_nat len)%Z = true) by (apply Z.ltb_lt; lia).
    rewrite Hlt. cbn [andb].
    assert (Ca : JS.clamp vs s = Z.to_nat vs) by (unfold JS.clamp; fold len; lia).
    assert (Cb : JS.clamp (Z.of_nat len - ve) s = (len - Z.to_nat ve)%nat)
      by (unfold JS.clamp; fold len; lia).
    assert (La : String.length (JS.substring 0 vs s) = Z.to_nat vs)
      by (rewrite substring_0_length; exact Ca).
    assert (Lm : String.length (JS.repeat (String c EmptyString)
                                  (Z.to_nat (Z.of_nat len - vs - ve)))
                 = (len - Z.to_nat vs - Z.to_nat ve)%nat)
      by (rewrite length_repeat_char; lia).
    assert (Lb : String.length (JS.substring_from (Z.of_nat len - ve) s) = Z.to_nat ve)
      by (rewrite substring_from_length, Cb; fold len; lia).
    split.
    + rewrite !length_append, La, Lm, Lb. lia.
    + destruct (Z.of_nat i <? vs)%Z eqn:H1.
      * apply Z.ltb_lt in H1. cbn [orb].
        rewrite get_app_left by (rewrite La; lia).
        rewrite substring_0_eq, Ca, get_substring by lia.
        rewrite Nat.add_0_r. reflexivity.
      * apply Z.ltb_ge in H1. cbn [orb].
        rewrite get_app_right by (rewrite La; lia). rewrite La.
        destruct (Z.of_nat len - ve <=? Z.of_nat i)%Z eqn:H2.
        -- apply Z.leb_le in H2.
           rewrite get_app_right by (rewrite Lm; lia). rewrite Lm.
           unfold JS.substring_from. rewrite Cb. fold len.
           rewrite get_substring by lia. f_equal. lia.
        -- apply Z.leb_gt in H2.
           rewrite get_app_left by (rewrite Lm; lia).
           apply get_repeat_char. lia.
Qed.

Lemma mask_positions_witness :
  Utils.mask "AB123456" "*" 2 2 = "AB****56" /\
  String.get 3 (Utils.mask "AB123456" "*" 2 2) = Some "*"%char.
Proof.
  split; [reflexivity|].
  destruct (mask_positions "AB123456" "*" 2 2 3
              ltac:(lia) ltac:(lia) ltac:(simpl; lia)) as [_ H].
  rewrite H. reflexivity.
Defined.

(** ** Slugs *)

Section SlugFacts.
Import Utils.

Lemma forall_chars_filter (p q : ascii -> bool) (s : string) :
  forall_chars p s = true -> forall_chars p (JS.filter_chars q s) = true.
Proof.
  induction s as [|c s IH]; simpl; auto.
  intros H. apply andb_prop in H as [Hc Hs].
  destruct (q c); simpl; auto. rewrite Hc. auto.
Qed.

Lemma forall_chars_filter_self (q : ascii -> bool) (s : string) :
  forall_chars q (JS.filter_chars q s) = true.
Proof.
  induction s as [|c s IH]; simpl; auto.
  destruct (q c) eqn:Hq; simpl; auto. rewrite Hq. auto.
Qed.

Lemma filter_chars_id (q : ascii -> bool) (s : string) :
  forall_chars q s = true -> JS.filter_chars q s = s.
Proof.
  induction s as [|c s IH]; simpl; auto.
  intros H. apply andb_prop in H as [Hc Hs]. rewrite Hc, IH; auto.
Qed.

Lemma forall_chars_and (p q : ascii -> bool) (s : string) :
  forall_chars p s = true -> forall_chars q s = true ->
  forall_chars (fun c => p c && q c) s = true.
Proof.
  induction s as [|c s IH]; simpl; auto.
  intros H1 H2. apply andb_prop in H1 as [-> H1]. apply andb_prop in H2 as [-> H2].
  simpl. auto.
Qed.

Lemma forall_chars_trimStart p s :
  forall_chars p s = true -> forall_chars p (JS.trimStart s) = true.
Proof.
  induction s as [|c s IH]; simpl; auto.
  intros H. destruct (JS.is_white_space c); [|exact H].
  apply andb_prop in H as [_ H]. auto.
Qed.

Lemma forall_chars_trimEnd p s :
  forall_chars p s = true -> forall_chars p (JS.trimEnd s) = true.
Proof.
  induction s as [|c s IH]; simpl; auto.
  intros H. apply andb_prop in H as [Hc H].
  destruct (JS.is_white_space c && JS.is_empty (JS.trimEnd s)); simpl; auto.
  rewrite Hc. auto.
Qed.

Lemma forall_chars_trim p s :
  forall_chars p s = true -> forall_chars p (JS.trim s) = true.
Proof. intros H. unfold JS.trim. auto using forall_chars_trimEnd, forall_chars_trimStart. Qed.

Lemma lower_char_not_upper c : JS.is_upper (JS.lower_char c) = false.
Proof. destruct c as [[] [] [] [] [] [] [] []]; reflexivity. Qed.

Lemma toLowerCase_not_upper s :
  forall_chars (fun c => negb (JS.is_upper c)) (JS.toLowerCase s) = true.
Proof.
  induction s as [|c s IH]; simpl; auto.
  rewrite lower_char_not_upper. simpl. exact IH.
Qed.

(** What is left of a lower-cased character after the first
    replacement is a small letter, a digit or a separator. *)
Lemma kept_char c :
  negb (JS.is_upper c) && word_space_hyphen c = true ->
  (JS.is_lower c || JS.is_digit c) || space_underscore_hyphen c = true.
Proof. destruct c as [[] [] [] [] [] [] [] []]; cbv; auto. Qed.

Lemma separator_no_letter c :
  space_underscore_hyphen c = false ->
  (JS.is_lower c || JS.is_digit c) || false = true ->
  slug_char c = true /\ Ascii.eqb c "-" = false.
Proof. destruct c as [[] [] [] [] [] [] [] []]; cbv; auto. Qed.

Lemma hyphenate_shape s : forall b,
  forall_chars (fun c => (JS.is_lower c || JS.is_digit c) || space_underscore_hyphen c) s = true ->
  forall_chars slug_char (hyphenate b s) = true /\
  single_hyphens b (hyphenate b s) = true.
Proof.
  induction s as [|c s IH]; intros b H; simpl; [destruct b; auto|].
  simpl in H. apply andb_prop in H as [Hc Hs].
  destruct (space_underscore_hyphen c) eqn:Hsep.
  - destruct (IH true Hs) as [I1 I2].
    destruct b; [auto|]. simpl. auto.
  - destruct (IH false Hs) as [I1 I2].
    destruct (separator_no_letter c Hsep Hc) as [K1 K2].
    simpl. rewrite K1, K2. simpl. auto.
Qed.

Lemma single_hyphens_weaken s : single_hyphens true s = true -> single_hyphens false s = true.
Proof. destruct s as [|c s]; simpl; auto. destruct (Ascii.eqb c "-"); simpl; auto. discriminate. Qed.

Lemma startsWith_hyphen c s : JS.startsWith (String c s) "-" = Ascii.eqb c "-".
Proof.
  unfold JS.startsWith. cbn [String.prefix].
  destruct (Ascii.ascii_dec "-" c) as [<-|Hne].
  - destruct s; reflexivity.
  - symmetry. apply Ascii.eqb_neq. congruence.
Qed.

Lemma strip_leading_shape s b :
  forall_chars slug_char s = true -> single_hyphens b s = true ->
  forall_chars slug_char (strip_leading_hyphens s) = true /\
  single_hyphens false (strip_leading_hyphens s) = true /\
  JS.startsWith (strip_leading_hyphens s) "-" = false.
Proof.
  revert b; induction s as [|c s IH]; intros b H1 H2; simpl; [auto|].
  simpl in H1. apply andb_prop in H1 as [Hc Hs]. simpl in H2.
  destruct (Ascii.eqb c "-") eqn:Hh.
  - apply andb_prop in H2 as [_ H2]. eauto.
  - rewrite startsWith_hyphen. simpl. rewrite Hc, Hs, Hh. simpl. repeat split; auto.
Qed.

Lemma strip_trailing_shape s : forall b,
  forall_chars slug_char s = true -> single_hyphens b s = true ->
  forall_chars slug_char (strip_trailing_hyphens s) = true /\
  single_hyphens b (strip_trailing_hyphens s) = true /\
  JS.endsWith (strip_trailing_hyphens s) "-" = false /\
  (JS.startsWith s "-" = false -> JS.startsWith (strip_trailing_hyphens s) "-" = false).
Proof.
  induction s as [|c s IH]; intros b H1 H2; [destruct b; simpl; auto|].
  simpl in H1. apply andb_prop in H1 as [Hc Hs]. simpl in H2.
  rewrite startsWith_hyphen. cbn [strip_trailing_hyphens].
  destruct (Ascii.eqb c "-") eqn:Hh.
  - apply andb_prop in H2 as [Hb H2].
    destruct (IH true Hs H2) as (I1 & I2 & I3 & I4).
    destruct (JS.is_empty (strip_trailing_hyphens s)) eqn:He; cbn [andb].
    + repeat split; auto; try discriminate.
    + split; [|split; [|split]]; try discriminate.
      * simpl. rewrite Hc, I1. reflexivity.
      * simpl. rewrite Hh, Hb, I2. reflexivity.
      * destruct (strip_trailing_hyphens s) as [|d r]; [discriminate He|].
        simpl in I3 |- *. rewrite I3. destruct (Ascii.eqb c "-"); reflexivity.
  - destruct (IH false Hs H2) as (I1 & I2 & I3 & I4). cbn [andb].
    split; [|split; [|split]].
    + simpl. rewrite Hc, I1. reflexivity.
    + simpl. rewrite Hh, I2. reflexivity.
    + destruct (strip_trailing_hyphens s) as [|d r] eqn:Hr.
      * simpl. rewrite Hh. reflexivity.
      * simpl in I3 |- *. rewrite I3. destruct (Ascii.eqb c "-"); reflexivity.
    + intros _. rewrite startsWith_hyphen. exact Hh.
Qed.

End SlugFacts.

Section SlugFixpoint.
Import Utils.

Lemma single_hyphens_no_double s : forall b,
  single_hyphens b s = true -> JS.includes s "--" = false.
Proof.
  induction s as [|c s IH]; intros b H; [reflexivity|].
  cbn [JS.includes]. simpl in H.
  assert (Hp : String.prefix "--" (String c s) = false).
  { cbn [String.prefix].
    destruct (Ascii.ascii_dec "-" c) as [<-|Hne]; [|reflexivity].
    simpl in H. apply andb_prop in H as [_ H].
    change (JS.startsWith s "-" = false).
    destruct s as [|d s]; [reflexivity|].
    rewrite startsWith_hyphen. simpl in H.
    destruct (Ascii.eqb d "-"); [discriminate H|reflexivity]. }
  rewrite Hp. cbn [orb].
  destruct (Ascii.eqb c "-"); [apply andb_prop in H as [_ H]|]; eauto.
Qed.

Lemma slug_char_plain c :
  slug_char c = true ->
  JS.lower_char c = c /\ JS.is_white_space c = false /\ word_space_hyphen c = true /\
  space_underscore_hyphen c = Ascii.eqb c "-".
Proof. destruct c as [[] [] [] [] [] [] [] []]; cbv; intros H; try discriminate H; auto. Qed.

Lemma toLowerCase_slug s : forall_chars slug_char s = true -> JS.toLowerCase s = s.
Proof.
  induction s as [|c s IH]; simpl; auto.
  intros H. apply andb_prop in H as [Hc Hs].
  destruct (slug_char_plain c Hc) as [-> _]. rewrite IH; auto.
Qed.

Lemma hyphenate_slug s : forall b,
  forall_chars slug_char s = true -> single_hyphens b s = true -> hyphenate b s = s.
Proof.
  induction s as [|c s IH]; intros b H1 H2; simpl; auto.
  simpl in H1, H2. apply andb_prop in H1 as [Hc Hs].
  destruct (slug_char_plain c Hc) as (_ & _ & _ & ->).
  destruct (Ascii.eqb c "-") eqn:Hh.
  - apply andb_prop in H2 as [Hb H2]. apply negb_true_iff in Hb. subst b.
    apply Ascii.eqb_eq in Hh. subst c. rewrite IH; auto.
  - rewrite IH; auto.
Qed.

Lemma strip_leading_id s : JS.startsWith s "-" = false -> strip_leading_hyphens s = s.
Proof.
  destruct s as [|c s]; [reflexivity|].
  rewrite startsWith_hyphen. intros H. simpl. rewrite H. reflexivity.
Qed.

Lemma strip_trailing_id s : JS.endsWith s "-" = false -> strip_trailing_hyphens s = s.
Proof.
  induction s as [|c s IH]; [reflexivity|].
  cbn [JS.endsWith strip_trailing_hyphens]. intros H.
  apply orb_false_elim in H as [H1 H2]. rewrite (IH H2).
  destruct (Ascii.eqb c "-") eqn:Hh; [|reflexivity].
  apply Ascii.eqb_eq in Hh. subst c.
  destruct s as [|d s]; [discriminate H1|reflexivity].
Qed.

End SlugFixpoint.

(** X3.  [Utils.String.toSlug] returns a slug: small letters, digits
    and hyphens only, no hyphen at either end and no two hyphens in
    a row; and a slug is left as it is, so that the function is
    idempotent. *)
Theorem toSlug_shape (str : string) :
  let slug := Utils.toSlug str in
  forall_chars slug_char slug = true /\
  JS.startsWith slug "-" = false /\
  JS.endsWith slug "-" = false /\
  JS.includes slug "--" = false /\
  Utils.toSlug slug = slug.
Proof.
  assert (Shape : forall s,
    let slug := Utils.toSlug s in
    forall_chars slug_char slug = true /\ single_hyphens false slug = true /\
    JS.startsWith slug "-" = false /\ JS.endsWith slug "-" = false).
  { intros s slug. subst slug. unfold Utils.toSlug.
    destruct s as [|c s]; [cbn; auto|].
    cbn [JS.truthy JS.is_empty negb].
    set (t0 := JS.filter_chars Utils.word_space_hyphen (JS.trim (JS.toLowerCase (String c s)))).
    assert (H0 : forall_chars
                   (fun c => (JS.is_lower c || JS.is_digit c) || Utils.space_underscore_hyphen c)
                   t0 = true).
    { apply (forall_chars_impl (fun c => negb (JS.is_upper c) && Utils.word_space_hyphen c));
        [apply kept_char|].
      apply forall_chars_and.
      - apply forall_chars_filter, forall_chars_trim, toLowerCase_not_upper.
      - apply forall_chars_filter_self. }
    destruct (hyphenate_shape t0 false H0) as [A1 A2].
    destruct (strip_leading_shape _ false A1 A2) as (B1 & B2 & B3).
    destruct (strip_trailing_shape _ false B1 B2) as (C1 & C2 & C3 & C4).
    auto. }
  intros slug. destruct (Shape str) as (S1 & S2 & S3 & S4). fold slug in S1, S2, S3, S4.
  repeat split; auto.
  - exact (single_hyphens_no_double _ _ S2).
  - unfold Utils.toSlug at 1.
    destruct (negb (JS.truthy slug)); [reflexivity|].
    rewrite (toLowerCase_slug _ S1).
    rewrite trim_plain.
    2:{ eapply forall_chars_impl; [|exact S1].
        intros c Hc. destruct (slug_char_plain c Hc) as (_ & -> & _). reflexivity. }
    rewrite filter_chars_id.
    2:{ eapply forall_chars_impl; [|exact S1].
        intros c Hc. destruct (slug_char_plain c Hc) as (_ & _ & -> & _). reflexivity. }
    rewrite (hyphenate_slug _ _ S1 S2), (strip_leading_id _ S3), (strip_trailing_id _ S4).
    reflexivity.
Qed.

(** ** Patterns: sequences and repetitions *)

Section RegexSequences.
Import Regex.

Lemma append_nil_r (s : string) : s ++ EmptyString = s.
Proof.
  induction s as [|c s IH]; [reflexivity|].
  change (String c (s ++ EmptyString) = String c s). rewrite IH. reflexivity.
Qed.

Lemma append_assoc (a b c : string) : (a ++ b) ++ c = a ++ (b ++ c).
Proof.
  induction a as [|d a IH]; [reflexivity|].
  change (String d ((a ++ b) ++ c) = String d (a ++ (b ++ c))). rewrite IH. reflexivity.
Qed.

(** A sequence matches exactly the strings that split into a part for
    each side. *)
Lemma matches_Seq a b s :
  matches (Seq a b) s = true <->
  exists s1 s2, s = s1 ++ s2 /\ matches a s1 = true /\ matches b s2 = true.
Proof.
  revert a b; induction s as [|c s IH]; intros a b.
  - simpl. split.
    + intros H. apply andb_prop in H as [Ha Hb]. exists EmptyString, EmptyString. auto.
    + intros (s1 & s2 & Hs & H1 & H2).
      destruct s1; [|discriminate Hs]. destruct s2; [|discriminate Hs].
      simpl in H1, H2. rewrite H1, H2. reflexivity.
  - cbn [matches deriv]. rewrite matches_Alt. split.
    + intros H. apply orb_prop in H as [H|H].
      * apply IH in H as (s1 & s2 & -> & H1 & H2).
        exists (String c s1), s2. auto.
      * destruct (nullable a) eqn:Hn; [|rewrite matches_Void in H; discriminate H].
        exists EmptyString, (String c s). auto.
    + intros (s1 & s2 & Hs & H1 & H2). destruct s1 as [|d s1].
      * change (String c s = s2) in Hs. subst s2. simpl in H1, H2.
        rewrite H1, H2. apply orb_true_r.
      * change (String c s = String d (s1 ++ s2)) in Hs. injection Hs as <- ->. simpl in H1.
        apply orb_true_intro. left. apply IH. eauto.
Qed.

Lemma matches_Seq_Eps_r r s : matches (Seq r Eps) s = matches r s.
Proof.
  destruct (matches r s) eqn:H.
  - apply matches_Seq. exists s, EmptyString. rewrite append_nil_r. auto.
  - apply not_true_is_false. intros H'. apply matches_Seq in H' as (s1 & s2 & -> & H1 & H2).
    rewrite matches_Eps in H2. destruct s2; [|discriminate H2].
    rewrite append_nil_r in H. congruence.
Qed.

Lemma matches_Class p s :
  matches (Class p) s = true <-> exists c, s = String c EmptyString /\ p c = true.
Proof.
  destruct s as [|c s]; simpl.
  - split; [discriminate|]. intros (c & H & _). discriminate H.
  - destruct (p c) eqn:Hp.
    + rewrite matches_Eps. split.
      * intros H. destruct s; [|discriminate H]. eauto.
      * intros (d & H & _). injection H as -> ->. reflexivity.
    + rewrite matches_Void. split; [discriminate|].
      intros (d & H & Hd). injection H as -> ->. congruence.
Qed.

Lemma matches_chr c s : matches (chr c) s = true <-> s = String c EmptyString.
Proof.
  unfold chr. rewrite matches_Class. split.
  - intros (d & -> & H). apply Ascii.eqb_eq in H. subst. reflexivity.
  - intros ->. exists c. split; auto. apply Ascii.eqb_refl.
Qed.

Lemma matches_Star_class p s : matches (Star (Class p)) s = forall_chars p s.
Proof.
  induction s as [|c s IH]; [reflexivity|].
  cbn [matches deriv forall_chars].
  destruct (p c); cbn [andb]; [rewrite matches_Seq_Eps; exact IH | apply matches_Seq_Void].
Qed.

Lemma matches_plus_class p s :
  matches (plus (Class p)) s = negb (JS.is_empty s) && forall_chars p s.
Proof.
  unfold plus. destruct s as [|c s]; [reflexivity|].
  rewrite matches_Seq_Class, matches_Star_class. reflexivity.
Qed.

(** [r{n}] of a class: exactly [n] characters of the class. *)
Lemma matches_times_class p n s :
  matches (times n (Class p)) s = (String.length s =? n)%nat && forall_chars p s.
Proof.
  unfold times. revert s; induction n as [|n IH]; intros s.
  - simpl. rewrite matches_Eps. destruct s; reflexivity.
  - simpl rep. destruct s as [|c s]; [reflexivity|].
    rewrite matches_Seq_Class, IH. simpl.
    destruct (p c); simpl; auto using andb_false_r.
Qed.

(** [r{lo,hi}] of a class: between [lo] and [hi] characters of the
    class. *)
Lemma matches_range_class p lo hi s :
  (lo <= hi)%nat ->
  matches (range lo hi (Class p)) s =
  (lo <=? String.length s)%nat && (String.length s <=? hi)%nat && forall_chars p s.
Proof.
  unfold range. revert hi s; induction lo as [|lo IH]; intros hi s Hle.
  - simpl rep. rewrite Nat.sub_0_r, matches_upto_class. reflexivity.
  - simpl rep. destruct s as [|c s].
    + rewrite matches_Seq_Class_nil. reflexivity.
    + destruct hi as [|hi]; [lia|].
      rewrite matches_Seq_Class. change (S hi - S lo)%nat with (hi - lo)%nat.
      rewrite IH by lia. simpl.
      destruct (p c); simpl; auto.
      rewrite andb_false_r. reflexivity.
Qed.

Lemma forall_chars_app p a b :
  forall_chars p (a ++ b) = forall_chars p a && forall_chars p b.
Proof. induction a as [|c a IH]; simpl; auto. rewrite IH. apply andb_assoc. Qed.

End RegexSequences.

(** ** Medical identifiers and references *)

Section Identifiers.
Import Regex.

Lemma matches_Seq_chr c r s :
  matches (Seq (chr c) r) s = true <-> exists s', s = String c s' /\ matches r s' = true.
Proof.
  unfold chr. destruct s as [|d s].
  - rewrite matches_Seq_Class_nil. split; [discriminate|]. intros (s' & H & _). discriminate H.
  - rewrite matches_Seq_Class. split.
    + intros H. apply andb_prop in H as [Hc Hr]. apply Ascii.eqb_eq in Hc. subst d. eauto.
    + intros (s' & H & Hr). injection H as -> ->. rewrite Ascii.eqb_refl. exact Hr.
Qed.

Lemma upper_digit_hyphen_plain c :
  upper_digit_hyphen c = true ->
  JS.is_white_space c = false /\ JS.upper_char c = String c EmptyString.
Proof.
  destruct c as [b0 b1 b2 b3 b4 b5 b6 b7].
  destruct b0, b1, b2, b3, b4, b5, b6, b7;
    vm_compute; intros H; try discriminate H; split; reflexivity.
Qed.

(** A string of capitals, digits and hyphens is its own trimmed
    upper-case form. *)
Lemma clean_plain s :
  forall_chars upper_digit_hyphen s = true -> JS.toUpperCase (JS.trim s) = s.
Proof.
  intros H. rewrite trim_plain.
  - induction s as [|c s IH]; [reflexivity|].
    simpl in H. apply andb_prop in H as [Hc Hs].
    simpl. destruct (upper_digit_hyphen_plain c Hc) as [_ ->]. rewrite (IH Hs). reflexivity.
  - eapply forall_chars_impl; [|exact H].
    intros c Hc. destruct (upper_digit_hyphen_plain c Hc) as [-> _]. reflexivity.
Qed.

Lemma upper_digit_is_hyphen c : upper_digit c = true -> upper_digit_hyphen c = true.
Proof. unfold upper_digit, upper_digit_hyphen. intros ->. reflexivity. Qed.

Lemma range_class_plain p lo hi s :
  (0 < lo <= hi)%nat -> (forall c, p c = true -> upper_digit_hyphen c = true) ->
  matches (range lo hi (Class p)) s = true ->
  forall_chars upper_digit_hyphen s = true /\ JS.truthy s = true.
Proof.
  intros Hlo Hp H. rewrite matches_range_class in H by lia.
  apply andb_prop in H as [H Hall]. apply andb_prop in H as [Hl _].
  apply Nat.leb_le in Hl. split.
  - eapply forall_chars_impl; eauto.
  - destruct s; [simpl in Hl; lia|reflexivity].
Qed.

Lemma lab_re_plain s :
  matches lab_re s = true -> forall_chars upper_digit_hyphen s = true /\ JS.truthy s = true.
Proof.
  unfold lab_re, seqs. intros H.
  apply matches_Seq_chr in H as (s1 & -> & H).
  apply matches_Seq_chr in H as (s2 & -> & H).
  apply matches_Seq_chr in H as (s3 & -> & H).
  rewrite matches_Seq_Eps_r in H.
  destruct (range_class_plain upper_digit 5 10 s3 ltac:(lia) upper_digit_is_hyphen H) as [Hall _].
  split; [|reflexivity]. simpl. exact Hall.
Qed.


End Identifiers.

(** One type of identifier: the pattern [re], whose matches are plain. *)
Ltac identifier_case re plain :=
  match goal with
  | |- context [Regex.matches re ?c] =>
      let Hm := fresh "Hm" in
      let Hall := fresh "Hall" in
      let Ht := fresh "Ht" in
      destruct (Regex.matches re c) eqn:Hm; [|discriminate];
      intros _; cbv zeta; cbn [negb Utils.id_formatted];
      split; [reflexivity|];
      destruct (plain c Hm) as [Hall Ht];
      rewrite Ht, (clean_plain _ Hall), Hm; reflexivity
  end.

(** X4.  [Utils.String.validateMedicalId] normalises: an identifier
    it accepts is formatted as its trimmed upper-case form, and that
    form is accepted again and formatted as itself, for every type of
    identifier. *)
Theorem validateMedicalId_normal_form (id type : string) :
  Utils.id_isValid (Utils.validateMedicalId id type) = true ->
  let formatted := Utils.id_formatted (Utils.validateMedicalId id type) in
  formatted = JS.toUpperCase (JS.trim id) /\
  Utils.validateMedicalId formatted type =
    {| Utils.id_isValid := true; Utils.id_formatted := formatted; Utils.id_errors := [] |}.
Proof.
  unfold Utils.validateMedicalId.
  destruct (negb (JS.truthy id)); [discriminate|].
  destruct (String.eqb type "patient");
    [|destruct (String.eqb type "sample"); [|destruct (String.eqb type "lab")]].
  - identifier_case Regex.patient_re
      (fun s => range_class_plain Regex.upper_digit 6 12 s ltac:(lia) upper_digit_is_hyphen).
  - identifier_case Regex.sample_re
      (fun s => range_class_plain Regex.upper_digit_hyphen 8 16 s ltac:(lia) (fun c H => H)).
  - identifier_case Regex.lab_re lab_re_plain.
  - identifier_case Regex.generic_id_re
      (fun s => range_class_plain Regex.upper_digit_hyphen 3 20 s ltac:(lia) (fun c H => H)).
Qed.

Lemma validateMedicalId_normal_form_witness :
  Utils.id_isValid (Utils.validateMedicalId " lab12345 " "lab") = true /\
  Utils.validateMedicalId "LAB12345" "lab" =
    {| Utils.id_isValid := true; Utils.id_formatted := "LAB12345"; Utils.id_errors := [] |}.
Proof.
  split; [reflexivity|].
  exact (proj2 (validateMedicalId_normal_form " lab12345 " "lab" eq_refl)).
Defined.

(** X5.  [Utils.Medical.validateReference] accepts exactly the formats
    its messages describe, read on the trimmed upper-case form of the
    reference: LO and eight digits for a lab order, RX and ten digits
    for a prescription, PV, six digits, a hyphen and four digits for a
    patient visit, and two capitals followed by six to twelve digits
    for a general reference. *)
Theorem validateReference_formats (reference : string) :
  let clean := JS.toUpperCase (JS.trim reference) in
  let valid (type : string) :=
    Utils.id_isValid (Utils.validateReference reference type) = true in
  (valid "lab_order" <->
   exists d, clean = "LO" ++ d /\ String.length d = 8%nat /\ forall_chars Regex.digit d = true) /\
  (valid "prescription" <->
   exists d, clean = "RX" ++ d /\ String.length d = 10%nat /\ forall_chars Regex.digit d = true) /\
  (valid "patient_visit" <->
   exists d1 d2, clean = "PV" ++ d1 ++ "-" ++ d2 /\
                 String.length d1 = 6%nat /\ forall_chars Regex.digit d1 = true /\
                 String.length d2 = 4%nat /\ forall_chars Regex.digit d2 = true) /\
  (valid "general" <->
   exists a d, clean = a ++ d /\
               String.length a = 2%nat /\ forall_chars Regex.upper a = true /\
               (6 <= String.length d <= 12)%nat /\ forall_chars Regex.digit d = true).
Proof.
  intros clean valid.
  assert (Hvalid : forall type re msg,
            (if negb (JS.truthy reference)
             then {| Utils.id_isValid := false; Utils.id_formatted := reference;
                     Utils.id_errors := ["Reference number is required"] |}
             else if negb (Regex.matches re clean)
                  then {| Utils.id_isValid := false; Utils.id_formatted := reference;
                          Utils.id_errors := [msg] |}
                  else {| Utils.id_isValid := true; Utils.id_formatted := clean;
                          Utils.id_errors := [] |})
            = Utils.validateReference reference type ->
            Regex.matches re EmptyString = false ->
            (valid type <-> Regex.matches re clean = true)).
  { intros type re msg Heq Hne. subst valid. cbv beta. rewrite <- Heq.
    destruct (JS.truthy reference) eqn:Ht; cbn [negb].
    - destruct (Regex.matches re clean); simpl; tauto.
    - assert (Hc : clean = EmptyString).
      { subst clean. destruct reference; [reflexivity|discriminate Ht]. }
      rewrite Hc, Hne. simpl. split; discriminate. }
  split; [|split; [|split]].
  - rewrite (Hvalid "lab_order" Regex.lab_order_re _ eq_refl eq_refl).
    unfold Regex.lab_order_re, Regex.seqs.
    rewrite matches_Seq_chr. split.
    + intros (s1 & -> & H). apply matches_Seq_chr in H as (s2 & -> & H).
      rewrite matches_Seq_Eps_r, matches_times_class in H.
      apply andb_prop in H as [Hl Hd]. apply Nat.eqb_eq in Hl. eauto.
    + intros (d & -> & Hl & Hd). eexists; split; [reflexivity|].
      apply matches_Seq_chr. eexists; split; [reflexivity|].
      rewrite matches_Seq_Eps_r, matches_times_class, Hl, Hd. reflexivity.
  - rewrite (Hvalid "prescription" Regex.prescription_re _ eq_refl eq_refl).
    unfold Regex.prescription_re, Regex.seqs.
    rewrite matches_Seq_chr. split.
    + intros (s1 & -> & H). apply matches_Seq_chr in H as (s2 & -> & H).
      rewrite matches_Seq_Eps_r, matches_times_class in H.
      apply andb_prop in H as [Hl Hd]. apply Nat.eqb_eq in Hl. eauto.
    + intros (d & -> & Hl & Hd). eexists; split; [reflexivity|].
      apply matches_Seq_chr. eexists; split; [reflexivity|].
      rewrite matches_Seq_Eps_r, matches_times_class, Hl, Hd. reflexivity.
  - rewrite (Hvalid "patient_visit" Regex.patient_visit_re _ eq_refl eq_refl).
    unfold Regex.patient_visit_re, Regex.seqs.
    rewrite matches_Seq_chr. split.
    + intros (s1 & -> & H). apply matches_Seq_chr in H as (s2 & -> & H).
      apply matches_Seq in H as (d1 & rest & -> & H1 & H).
      apply matches_Seq_chr in H as (d2 & -> & H).
      rewrite matches_Seq_Eps_r, matches_times_class in H.
      rewrite matches_times_class in H1.
      apply andb_prop in H as [Hl2 Hd2]. apply Nat.eqb_eq in Hl2.
      apply andb_prop in H1 as [Hl1 Hd1]. apply Nat.eqb_eq in Hl1.
      exists d1, d2. auto.
    + intros (d1 & d2 & -> & Hl1 & Hd1 & Hl2 & Hd2). eexists; split; [reflexivity|].
      apply matches_Seq_chr. eexists; split; [reflexivity|].
      apply matches_Seq. exists d1, ("-" ++ d2). split; [reflexivity|].
      rewrite matches_times_class, Hl1, Hd1. split; [reflexivity|].
      apply matches_Seq_chr. eexists; split; [reflexivity|].
      rewrite matches_Seq_Eps_r, matches_times_class, Hl2, Hd2. reflexivity.
  - rewrite (Hvalid "general" Regex.reference_re _ eq_refl eq_refl).
    unfold Regex.reference_re. rewrite matches_rep_class. split.
    + intros H. apply andb_prop in H as [H Hr]. apply andb_prop in H as [Hl Ha].
      apply Nat.leb_le in Hl.
      rewrite matches_range_class in Hr by lia.
      apply andb_prop in Hr as [Hr Hd]. apply andb_prop in Hr as [Hlo Hhi].
      apply Nat.leb_le in Hlo, Hhi.
      exists (String.substring 0 2 clean),
             (String.substring 2 (String.length clean - 2) clean).
      split; [|split; [apply length_substring; lia|split; [exact Ha|split; [lia|exact Hd]]]].
      clear -Hl. destruct clean as [|a [|b r]]; simpl in Hl; try lia.
      simpl. rewrite Nat.sub_0_r, substring_all.
      destruct r; reflexivity.
    + intros (a & d & -> & Hla & Ha & Hld & Hd).
      destruct a as [|x [|y [|z a]]]; try discriminate Hla.
      simpl in Ha. cbn [String.length String.append].
      change (String x (String y EmptyString) ++ d) with (String x (String y d)).
      cbn [String.length String.substring].
      assert (H0 : String.substring 0 0 d = EmptyString) by (destruct d; reflexivity).
      rewrite H0. replace (S (S (String.length d)) - 2)%nat with (String.length d) by lia.
      rewrite substring_all. cbn [forall_chars Nat.leb].
      rewrite Ha, matches_range_class by lia.
      destruct Hld as [Hlo Hhi]. apply Nat.leb_le in Hlo, Hhi.
      rewrite Hlo, Hhi, Hd. reflexivity.
Qed.

(** ** Vital signs *)

Section Vitals.
Context {host : JSHost} {format : JSFormat}.
Import Utils.

(** The status after the four checks, read from the last one back. *)
Lemma range_status (value : number_input) (r : range) :
  value <> InNull -> value <> InUndefined -> input_isNaN value = false ->
  let x := input_parseFloat value in
  let beyond (bound : option JS.jsnum) (test : JS.jsnum -> bool) :=
    match bound with Some b => test b | None => false end in
  status (validateMedicalRange value r) =
    if beyond (critical_high r) (fun b => JS.num_gt x b) then "critical_high"
    else if beyond (critical_low r) (fun b => JS.num_lt x b) then "critical_low"
    else if beyond (range_max r) (fun b => JS.num_gt x b) then "high"
    else if beyond (range_min r) (fun b => JS.num_lt x b) then "low"
    else "normal".
Proof.
  intros Hn Hu Hnan x beyond. unfold validateMedicalRange.
  destruct value as [| |v|s]; try congruence; rewrite Hnan; fold x; unfold range_check;
    destruct (critical_high r) as [b4|]; cbn [beyond];
    try (destruct (JS.num_gt x b4); [reflexivity|]);
    destruct (critical_low r) as [b3|]; cbn [beyond];
    try (destruct (JS.num_lt x b3); [reflexivity|]);
    destruct (range_max r) as [b2|]; cbn [beyond];
    try (destruct (JS.num_gt x b2); [reflexivity|]);
    destruct (range_min r) as [b1|]; cbn [beyond];
    try (destruct (JS.num_lt x b1)); reflexivity.
Qed.

(** The status mentions "critical" exactly when the value lies beyond
    a critical bound. *)
Lemma critical_status (value : number_input) (r : range) :
  value <> InNull -> value <> InUndefined ->
  JS.includes (status (validateMedicalRange value r)) "critical" = true <->
  input_isNaN value = false /\
  ((exists b, critical_low r = Some b /\ JS.num_lt (input_parseFloat value) b = true) \/
   (exists b, critical_high r = Some b /\ JS.num_gt (input_parseFloat value) b = true)).
Proof.
  intros Hn Hu. destruct (input_isNaN value) eqn:Hnan.
  - assert (Hs : status (validateMedicalRange value r) = "invalid").
    { unfold validateMedicalRange. destruct value; try congruence; rewrite Hnan; reflexivity. }
    rewrite Hs. split; [discriminate|]. intros [H _]. discriminate H.
  - rewrite (range_status value r Hn Hu Hnan). cbv zeta.
    destruct (critical_high r) as [b4|]; [destruct (JS.num_gt _ b4) eqn:H4|].
    1: split; [intros _; split; [reflexivity|right; eauto]|reflexivity].
    all: destruct (critical_low r) as [b3|]; [destruct (JS.num_lt _ b3) eqn:H3|].
    all: try (split; [intros _; split; [reflexivity|left; eauto]|reflexivity]).
    all: assert (Hno : forall s, s = "high" \/ s = "low" \/ s = "normal" ->
                                 JS.includes s "critical" = false)
           by (intros s [->|[->| ->]]; reflexivity).
    all: match goal with
         | |- JS.includes ?s _ = true <-> _ =>
             assert (Hs : JS.includes s "critical" = false)
               by (apply Hno;
                   destruct (range_max r) as [b2|];
                   [destruct (JS.num_gt _ b2); [auto|]|];
                   (destruct (range_min r) as [b1|];
                    [destruct (JS.num_lt _ b1); auto|auto]));
             rewrite Hs
         end.
    all: split; [discriminate|].
    all: intros [_ [(b & Hb & Ht)|(b & Hb & Ht)]]; congruence.
Qed.

Lemma validateVitals_fold (vitals : list (string * number_input)) (acc : vitals_result) :
  vitals_isValid (fold_left check_vital vitals acc) = false <->
  vitals_isValid acc = false \/
  exists vital value r,
    In (vital, value) vitals /\ ranges vital = Some r /\
    value <> InNull /\ value <> InUndefined /\
    JS.includes (status (validateMedicalRange value r)) "critical" = true.
Proof.
  revert acc; induction vitals as [|[vital value] rest IH]; intros acc.
  - simpl. split; [auto|]. intros [H|(v & x & r & [] & _)]. exact H.
  - cbn [fold_left]. rewrite IH. clear IH. split.
    + intros [H|(v & x & r & Hin & Hr)].
      * unfold check_vital in H.
        destruct (ranges vital) as [r|] eqn:Hr; [|auto].
        destruct value as [| |x|s]; auto.
        all: destruct (JS.includes _ "critical") eqn:Hc;
          [right; eexists _, _, r; repeat split; [left; reflexivity|exact Hr|discriminate..|exact Hc]|].
        all: destruct (negb _); auto.
      * right. exists v, x, r. split; [right; exact Hin|exact Hr].
    + intros [H|(v & x & r & [Heq|Hin] & Hr & Hn & Hu & Hc)].
      * left. unfold check_vital.
        destruct (ranges vital) as [r|]; [|exact H].
        destruct value; auto.
        all: destruct (JS.includes _ "critical"); [reflexivity|].
        all: destruct (negb _); exact H.
      * injection Heq as <- <-. left. unfold check_vital. rewrite Hr.
        destruct value; try congruence; rewrite Hc; reflexivity.
      * right. exists v, x, r. auto.
Qed.

(** X6.  [Utils.Medical.validateVitals] finds the vital signs invalid
    exactly when an entry with a reference range holds a number (or a
    numeric text) beyond a critical bound of that range.  A value that
    is no number, and a value outside the normal range only, never
    make the result invalid. *)
Theorem validateVitals_invalid_iff_critical (vitals : list (string * number_input)) :
  vitals_isValid (validateVitals vitals) = false <->
  exists vital value r,
    In (vital, value) vitals /\ ranges vital = Some r /\
    value <> InNull /\ value <> InUndefined /\ input_isNaN value = false /\
    ((exists b, critical_low r = Some b /\ JS.num_lt (input_parseFloat value) b = true) \/
     (exists b, critical_high r = Some b /\ JS.num_gt (input_parseFloat value) b = true)).
Proof.
  unfold validateVitals. rewrite validateVitals_fold. cbn [vitals_isValid]. split.
  - intros [H|(v & x & r & Hin & Hr & Hn & Hu & Hc)]; [discriminate H|].
    apply critical_status in Hc as [Hnan Hb]; auto.
    exists v, x, r. repeat split; auto.
  - intros (v & x & r & Hin & Hr & Hn & Hu & Hnan & Hb). right.
    exists v, x, r. repeat split; auto. apply critical_status; auto.
Qed.

End Vitals.

(** ** Utils.Array *)

Section Pages.
Context {A : Type}.
Implicit Types (array : list A) (size : positive).

Lemma Qceiling_frac (a : Z) (b : positive) : Qceiling (a # b) = (- ((- a) / Zpos b))%Z.
Proof. reflexivity. Qed.

(** The number of pages covers the array, without a page to spare. *)
Lemma pages_bounds (total : Z) (size : positive) :
  (0 <= total)%Z ->
  let pages := Qceiling (total # size) in
  (total <= pages * Zpos size)%Z /\
  ((pages - 1) * Zpos size < total \/ (total = 0 /\ pages = 0))%Z /\
  (0 <= pages)%Z.
Proof.
  intros Ht pages. subst pages. rewrite Qceiling_frac.
  pose proof (Z.div_mod (- total) (Zpos size) ltac:(lia)) as Hdm.
  pose proof (Z.mod_pos_bound (- total) (Zpos size) ltac:(lia)) as Hm.
  destruct (Z.eq_dec total 0) as [->|Hne].
  - rewrite Z.div_0_l by lia. lia.
  - nia.
Qed.

Lemma slice_window array (start : nat) (count : nat) :
  (start <= List.length array)%nat ->
  Utils.slice (Z.of_nat start) (Z.of_nat start + Z.of_nat count) array
  = firstn count (skipn start array).
Proof.
  intros Hs. unfold Utils.slice, Utils.slice_index.
  assert (H1 : (Z.of_nat start <? 0)%Z = false) by (apply Z.ltb_ge; lia).
  assert (H2 : (Z.of_nat start + Z.of_nat count <? 0)%Z = false) by (apply Z.ltb_ge; lia).
  rewrite H1, H2.
  replace (Nat.min (Z.to_nat (Z.of_nat start)) (List.length array)) with start by lia.
  set (to := Nat.min _ _).
  destruct (Nat.le_gt_cases (start + count) (List.length array)) as [Hle|Hgt].
  - replace (to - start)%nat with count by (subst to; lia). reflexivity.
  - replace (to - start)%nat with (List.length array - start)%nat by (subst to; lia).
    rewrite <- (length_skipn start array).
    rewrite firstn_all. symmetry. apply firstn_all2. rewrite length_skipn. lia.
Qed.

(** The data of the page that [paginate] shows. *)
Lemma paginate_data array (page : Z) size :
  let info := snd (Utils.paginate array page size) in
  fst (Utils.paginate array page size) =
    firstn (Pos.to_nat size)
           (skipn (Z.to_nat (Utils.pg_page info - 1) * Pos.to_nat size) array) /\
  (Z.to_nat (Utils.pg_page info - 1) * Pos.to_nat size <= List.length array)%nat.
Proof.
  unfold Utils.paginate. cbn [fst snd Utils.pg_page].
  set (total := Z.of_nat (List.length array)).
  destruct (pages_bounds total size ltac:(subst total; lia)) as (Hc & Hl & Hp).
  set (pages := Qceiling (total # size)) in *.
  set (cur := Z.max 1 (Z.min page pages)).
  assert (Hcur : (1 <= cur)%Z) by (subst cur; lia).
  assert (Hrange : cur = 1%Z \/ (1 < cur <= pages)%Z) by (subst cur; lia).
  assert (Hstart : ((cur - 1) * Zpos size <= total)%Z).
  { destruct Hrange as [->|Hr]; [subst total; lia|].
    destruct Hl as [Hl|[_ Hl]]; [nia|lia]. }
  assert (Hn : (Z.to_nat (cur - 1) * Pos.to_nat size)%nat = Z.to_nat ((cur - 1) * Zpos size)).
  { rewrite Z2Nat.inj_mul by lia. rewrite Z2Nat.inj_pos. reflexivity. }
  split; [|rewrite Hn; subst total; lia].
  rewrite Hn.
  rewrite <- (slice_window array (Z.to_nat ((cur - 1) * Zpos size)) (Pos.to_nat size))
    by (subst total; lia).
  f_equal; rewrite ?Z2Nat.id by nia; rewrite ?positive_nat_Z; reflexivity.
Qed.

Lemma concat_pages array (k n : nat) :
  concat (List.map (fun p => firstn k (skipn ((p - 1) * k) array)) (seq 1 n))
  = firstn (n * k) array.
Proof.
  induction n as [|n IH]; [reflexivity|].
  rewrite seq_S, List.map_app, concat_app, IH. cbn [List.map concat].
  rewrite app_nil_r. replace (1 + n - 1)%nat with n by lia.
  rewrite take_take_drop. f_equal. lia.
Qed.

End Pages.

(** X7.  The pages of [Utils.Array.paginate] partition the array: the
    data of the pages 1 to [pages], one after the other, are the array
    itself, for every positive page size. *)
Theorem paginate_partition {A : Type} (array : list A) (size : positive) :
  let pages := Utils.pg_pages (snd (Utils.paginate array 1 size)) in
  concat (List.map (fun p => fst (Utils.paginate array (Z.of_nat p) size))
                   (seq 1 (Z.to_nat pages)))
  = array.
Proof.
  cbn [Utils.paginate snd Utils.pg_pages].
  set (total := Z.of_nat (List.length array)).
  destruct (pages_bounds total size ltac:(subst total; lia)) as (Hc & Hl & Hp).
  set (pages := Qceiling (total # size)) in *.
  rewrite (map_ext_in _ (fun p => firstn (Pos.to_nat size)
                                    (skipn ((p - 1) * Pos.to_nat size) array))).
  - rewrite concat_pages. apply firstn_all2.
    subst total. nia.
  - intros p Hp'. apply in_seq in Hp'.
    destruct (paginate_data array (Z.of_nat p) size) as [-> _].
    unfold Utils.paginate. cbn [snd Utils.pg_page]. fold total. fold pages.
    replace (Z.max 1 (Z.min (Z.of_nat p) pages)) with (Z.of_nat p) by lia.
    replace (Z.to_nat (Z.of_nat p - 1)) with (p - 1)%nat by lia. reflexivity.
Qed.

(** X8.  Whatever page number is asked for, [Utils.Array.paginate]
    shows a page that exists: its data are the items of the array at
    the positions [(page - 1) * size] and after, [size] of them at
    most, with [page] the page it reports; for an array that is not
    empty the data are not empty; and [hasNext] tells exactly that
    items follow those shown. *)
Theorem paginate_window {A : Type} (array : list A) (page : Z) (size : positive) :
  let data := fst (Utils.paginate array page size) in
  let info := snd (Utils.paginate array page size) in
  let start := (Z.to_nat (Utils.pg_page info - 1) * Pos.to_nat size)%nat in
  data = firstn (Pos.to_nat size) (skipn start array) /\
  (List.length data <= Pos.to_nat size)%nat /\
  (array <> [] -> data <> []) /\
  (Utils.hasNext info = true <-> (start + List.length data < List.length array)%nat) /\
  (Utils.hasPrev info = true <-> (0 < start)%nat).
Proof.
  intros data info start.
  destruct (paginate_data array page size) as [Hd Hs]. fold data info start in Hd, Hs.
  assert (Hlen : List.length data = Nat.min (Pos.to_nat size) (List.length array - start)).
  { rewrite Hd, length_firstn, length_skipn. reflexivity. }
  subst info. unfold Utils.paginate in *. cbn [snd Utils.pg_page Utils.hasNext Utils.hasPrev] in *.
  set (total := Z.of_nat (List.length array)) in *.
  destruct (pages_bounds total size ltac:(subst total; lia)) as (Hc & Hl & Hp).
  set (pages := Qceiling (total # size)) in *.
  set (cur := Z.max 1 (Z.min page pages)) in *.
  assert (Hcur : (1 <= cur)%Z) by (subst cur; lia).
  assert (Hst : Z.of_nat start = ((cur - 1) * Zpos size)%Z).
  { subst start. rewrite Nat2Z.inj_mul, Z2Nat.id, positive_nat_Z by lia. reflexivity. }
  split; [exact Hd|]. split; [lia|]. split; [|split].
  - intros Hne Hempty.
    assert (Hl0 : List.length data = 0%nat) by (rewrite Hempty; reflexivity).
    assert (Hpos : (0 < List.length array)%nat) by (destruct array; [congruence|simpl; lia]).
    assert (Hcp : (cur <= pages)%Z) by (subst cur; nia).
    destruct Hl as [Hl|Hl]; [|subst total; lia].
    assert (Z.of_nat start < total)%Z by nia.
    subst total. lia.
  - rewrite Z.ltb_lt. split.
    + intros Hlt. assert (cur * Zpos size < total)%Z by (destruct Hl; nia).
      subst total. nia.
    + intros Hlt. destruct (Z.lt_ge_cases cur pages) as [|Hge]; [assumption|].
      assert (total <= cur * Zpos size)%Z by nia.
      subst total. nia.
  - rewrite Z.ltb_lt. split; [intros; nia|].
    intros Hpos. destruct (Z.eq_dec cur 1) as [->|]; [lia|lia].
Qed.

Section Unique.
Context {A K : Type} `{EqDecision K} (key : A -> K).

Lemma unique_from_spec (array : list A) : forall seen,
  List.NoDup (List.map key (Utils.unique_from key seen array)) /\
  (forall x, List.In x (Utils.unique_from key seen array) -> ~ List.In (key x) seen) /\
  sublist (Utils.unique_from key seen array) array /\
  (forall x, List.In x array ->
     List.In (key x) seen \/
     exists y, List.In y (Utils.unique_from key seen array) /\ key y = key x).
Proof.
  induction array as [|item rest IH]; intros seen; cbn [Utils.unique_from].
  - repeat split; [constructor|intros x []|constructor|intros x []].
  - destruct (bool_decide (key item ∈ seen)) eqn:Hd.
    + apply bool_decide_eq_true in Hd. apply list_elem_of_In in Hd.
      destruct (IH seen) as (I1 & I2 & I3 & I4).
      repeat split; auto.
      * apply sublist_cons. exact I3.
      * intros x [<-|Hx]; auto.
    + apply bool_decide_eq_false in Hd. rewrite list_elem_of_In in Hd.
      destruct (IH (key item :: seen)) as (I1 & I2 & I3 & I4).
      repeat split.
      * cbn [List.map]. constructor; [|exact I1].
        intros Hin. apply in_map_iff in Hin as (y & Hy & Hin).
        apply (I2 y Hin). left. congruence.
      * intros x [<-|Hx]; [exact Hd|].
        intros Hin. apply (I2 x Hx). right. exact Hin.
      * apply sublist_skip. exact I3.
      * intros x [<-|Hx].
        -- right. exists item. split; [left|]; reflexivity.
        -- destruct (I4 x Hx) as [[Heq|Hin]|(y & Hy & Hk)].
           ++ right. exists item. split; [left; reflexivity|exact Heq].
           ++ left. exact Hin.
           ++ right. exists y. split; [right; exact Hy|exact Hk].
Qed.

(** Items with keys not seen and pairwise distinct are all kept. *)
Lemma unique_from_id (array : list A) : forall seen,
  List.NoDup (List.map key array) ->
  (forall x, List.In x array -> ~ List.In (key x) seen) ->
  Utils.unique_from key seen array = array.
Proof.
  induction array as [|item rest IH]; intros seen Hnd Hs; [reflexivity|].
  cbn [Utils.unique_from]. cbn [List.map] in Hnd. apply NoDup_cons_iff in Hnd as [Hni Hnd].
  rewrite bool_decide_eq_false_2.
  - f_equal. apply IH; [exact Hnd|].
    intros x Hx [Heq|Hin].
    + apply Hni. rewrite Heq. apply in_map. exact Hx.
    + apply (Hs x); [right; exact Hx|exact Hin].
  - rewrite list_elem_of_In. apply Hs. left. reflexivity.
Qed.

End Unique.

(** X9.  [Utils.Array.uniqueBy] returns items of the array in their
    order, with pairwise distinct keys; every key of the array is the
    key of an item returned; the first item of the array is always
    kept; and the function is idempotent. *)
Theorem uniqueBy_spec {A K : Type} `{EqDecision K} (key : A -> K) (array : list A) :
  let unique := Utils.uniqueBy key array in
  List.NoDup (List.map key unique) /\
  sublist unique array /\
  (forall x, List.In x array -> exists y, List.In y unique /\ key y = key x) /\
  hd_error unique = hd_error array /\
  Utils.uniqueBy key unique = unique.
Proof.
  intros unique. subst unique. unfold Utils.uniqueBy.
  destruct (unique_from_spec key array []) as (H1 & H2 & H3 & H4).
  repeat split; auto.
  - intros x Hx. destruct (H4 x Hx) as [[]|Hy]. exact Hy.
  - destruct array; reflexivity.
  - apply unique_from_id; [exact H1|]. intros x _ [].
Qed.

Section Groups.
Context {A : Type} (key : A -> string).

Lemma group_from_spec (array : list A) : forall groups0,
  (forall k, JS.arr_includes JS.object_prototype_names k = true -> groups0 !! k = None) ->
  match Utils.group_from key groups0 array with
  | JS.Return groups =>
      Forall (fun x => JS.arr_includes JS.object_prototype_names (key x) = false) array /\
      forall k, groups !! k =
        match groups0 !! k, List.filter (fun x => String.eqb (key x) k) array with
        | None, [] => None
        | None, l => Some l
        | Some l0, l => Some (l0 ++ l)%list
        end
  | JS.Throw e =>
      e = JS.TypeError "groups[groupKey].push is not a function" /\
      Exists (fun x => JS.arr_includes JS.object_prototype_names (key x) = true) array
  end.
Proof.
  induction array as [|item rest IH]; intros groups0 Hinv; cbn [Utils.group_from].
  - split; [constructor|]. intros k. cbn [List.filter].
    destruct (groups0 !! k); [rewrite app_nil_r|]; reflexivity.
  - set (gk := key item).
    assert (Hstep : forall l1,
              JS.arr_includes JS.object_prototype_names gk = false ->
              forall k, JS.arr_includes JS.object_prototype_names k = true ->
                        <[gk := l1]> groups0 !! k = None).
    { intros l1 Hgk k Hk. rewrite lookup_insert_ne; [auto|]. intros ->. congruence. }
    destruct (groups0 !! gk) as [l|] eqn:Hg.
    + assert (Hgk : JS.arr_includes JS.object_prototype_names gk = false).
      { destruct (JS.arr_includes JS.object_prototype_names gk) eqn:Hp; [|reflexivity].
        rewrite (Hinv gk Hp) in Hg. discriminate Hg. }
      specialize (IH _ (Hstep (JS.push l item) Hgk)).
      destruct (Utils.group_from key _ rest) as [groups|e].
      * destruct IH as [Hall Hk]. split; [constructor; assumption|].
        intros k. rewrite Hk. cbn [List.filter]. fold gk.
        destruct (String.eqb gk k) eqn:Heq.
        -- apply String.eqb_eq in Heq. subst k.
           rewrite lookup_insert_eq, Hg. unfold JS.push.
           rewrite <- app_assoc. reflexivity.
        -- apply String.eqb_neq in Heq. rewrite lookup_insert_ne by exact Heq. reflexivity.
      * destruct IH as [He Hex]. split; [exact He|]. apply Exists_cons_tl. exact Hex.
    + destruct (JS.arr_includes JS.object_prototype_names gk) eqn:Hgk.
      * split; [reflexivity|]. apply Exists_cons_hd. exact Hgk.
      * specialize (IH _ (Hstep [item] eq_refl)).
        destruct (Utils.group_from key _ rest) as [groups|e].
        -- destruct IH as [Hall Hk]. split; [constructor; assumption|].
           intros k. rewrite Hk. cbn [List.filter]. fold gk.
           destruct (String.eqb gk k) eqn:Heq.
           ++ apply String.eqb_eq in Heq. subst k.
              rewrite lookup_insert_eq, Hg. reflexivity.
           ++ apply String.eqb_neq in Heq. rewrite lookup_insert_ne by exact Heq. reflexivity.
        -- destruct IH as [He Hex]. split; [exact He|]. apply Exists_cons_tl. exact Hex.
Qed.

End Groups.

(** X10.  [Utils.Array.groupBy] either returns the groups or throws.
    When it returns, no key of an item is the name of a property of
    Object.prototype, and the group of each key holds the items with
    that key in their order, a key without items having no group.
    It throws a TypeError exactly when the key of some item is such a
    name (constructor, toString, ...). *)
Theorem groupBy_spec {A : Type} (key : A -> string) (array : list A) :
  match Utils.groupBy key array with
  | JS.Return groups =>
      Forall (fun x => JS.arr_includes JS.object_prototype_names (key x) = false) array /\
      forall k, groups !! k =
        match List.filter (fun x => String.eqb (key x) k) array with
        | [] => None
        | l => Some l
        end
  | JS.Throw e =>
      e = JS.TypeError "groups[groupKey].push is not a function" /\
      Exists (fun x => JS.arr_includes JS.object_prototype_names (key x) = true) array
  end.
Proof.
  unfold Utils.groupBy.
  pose proof (group_from_spec key array ∅ (fun k _ => lookup_empty k)) as H.
  destruct (Utils.group_from key ∅ array) as [groups|e]; [|exact H].
  destruct H as [Hall Hk]. split; [exact Hall|].
  intros k. rewrite Hk, lookup_empty. reflexivity.
Qed.

(** ** Utils.Storage and Utils.DateTime *)

Section Storage.

Lemma lookup_fold_delete (keys : list string) : forall (st : gmap string string) (k : string),
  fold_left (fun (m : gmap string string) key => delete key m) keys st !! k
  = if bool_decide (k ∈ keys) then None else st !! k.
Proof.
  induction keys as [|key keys IH]; intros st k; cbn [fold_left]; [reflexivity|].
  rewrite IH. destruct (decide (k = key)) as [->|Hne].
  - rewrite lookup_delete_eq.
    rewrite (bool_decide_eq_true_2 (key ∈ key :: keys)) by left.
    destruct (bool_decide _); reflexivity.
  - rewrite lookup_delete_ne by congruence.
    destruct (bool_decide (k ∈ keys)) eqn:Hk.
    + apply bool_decide_eq_true in Hk.
      rewrite bool_decide_eq_true_2 by (right; exact Hk). reflexivity.
    + apply bool_decide_eq_false in Hk.
      rewrite bool_decide_eq_false_2; [reflexivity|].
      intros Hin. apply elem_of_cons in Hin as [|]; auto.
Qed.

Lemma size_fold_delete (keys : list string) : forall (st : gmap string string),
  List.NoDup keys -> (forall k, k ∈ keys -> is_Some (st !! k)) ->
  (size (fold_left (fun (m : gmap string string) key => delete key m) keys st)
   + List.length keys)%nat = size st.
Proof.
  induction keys as [|key keys IH]; intros st Hnd Hin; cbn [fold_left List.length]; [lia|].
  apply List.NoDup_cons_iff in Hnd as [Hni Hnd]. rewrite <- list_elem_of_In in Hni.
  rewrite <- Nat.add_succ_comm.
  assert (Hk : is_Some (st !! key)) by (apply Hin; left).
  assert (Hpos : (0 < size st)%nat).
  { destruct Hk as [v Hv]. destruct (decide (size st = 0%nat)) as [H0|]; [|lia].
    apply map_size_empty_inv in H0. subst st. rewrite lookup_empty in Hv. discriminate Hv. }
  pose proof (map_size_delete_Some key st Hk) as Hs.
  assert (Hrest : (size (fold_left (fun (m : gmap string string) key0 => delete key0 m)
                                   keys (delete key st))
                   + List.length keys)%nat = size (delete key st)).
  { apply IH; [exact Hnd|].
    intros k Hk'. rewrite lookup_delete_ne.
    - apply Hin. right. exact Hk'.
    - intros ->. exact (Hni Hk'). }
  lia.
Qed.

End Storage.

(** X11.  [Utils.Storage.clearByPrefix] removes the items whose key is
    not empty and starts with the prefix, and no other: afterwards
    such a key has no item, every other key has the item it had, and
    the number returned is the number of items removed. *)
Theorem clearByPrefix_spec (prefix : string) (storage : gmap string string) :
  let cleared := fst (Utils.clearByPrefix prefix storage) in
  let storage' := snd (Utils.clearByPrefix prefix storage) in
  (forall key,
     storage' !! key =
       if JS.truthy key && JS.startsWith key prefix then None else storage !! key) /\
  (size storage' + cleared)%nat = size storage.
Proof.
  unfold Utils.clearByPrefix. cbn [fst snd].
  set (p := fun key => JS.truthy key && JS.startsWith key prefix).
  set (keys := List.map fst (map_to_list storage)).
  assert (Hkeys : forall k, k ∈ keys <-> is_Some (storage !! k)).
  { intros k. subst keys. rewrite list_elem_of_fmap. split.
    - intros ([k' v] & -> & Hin). apply elem_of_map_to_list in Hin. eauto.
    - intros [v Hv]. exists (k, v). split; [reflexivity|].
      apply elem_of_map_to_list. exact Hv. }
  assert (Hnd : List.NoDup keys)
    by (subst keys; apply NoDup_ListNoDup, NoDup_fst_map_to_list).
  assert (Hfilter : forall k, k ∈ List.filter p keys <-> p k = true /\ k ∈ keys).
  { intros k. rewrite !list_elem_of_In, filter_In. tauto. }
  split.
  - intros key. rewrite lookup_fold_delete. fold (p key).
    destruct (bool_decide (key ∈ List.filter p keys)) eqn:Hd.
    + apply bool_decide_eq_true in Hd. apply Hfilter in Hd as [-> _]. reflexivity.
    + apply bool_decide_eq_false in Hd.
      destruct (p key) eqn:Hp; [|reflexivity].
      destruct (storage !! key) as [v|] eqn:Hv; [|reflexivity].
      exfalso. apply Hd, Hfilter. split; [exact Hp|]. apply Hkeys. eauto.
  - apply size_fold_delete.
    + apply List.NoDup_filter. exact Hnd.
    + intros k Hk. apply Hfilter in Hk as [_ Hk]. apply Hkeys. exact Hk.
Qed.

Lemma div_lt_iff (a b q : Z) : (0 < b)%Z -> (a / b < q <-> a < b * q)%Z.
Proof.
  intros Hb. split; intros H.
  - destruct (Z.lt_ge_cases a (b * q)) as [|Hge]; [assumption|].
    apply (Z.div_le_lower_bound a b q Hb) in Hge. lia.
  - apply Z.div_lt_upper_bound; assumption.
Qed.

Section TimeAgo.
Context {host : JSHost} {format : JSFormat}.

(** X12.  [Utils.DateTime.getTimeAgo] reads the age of a valid date in
    bands: below a minute, and for every date in the future, it says
    "Just now"; then the whole minutes below an hour, the whole hours
    below a day, the whole days below a week, each with a count of at
    least one; and from a week on the short date. *)
Theorem getTimeAgo_bands (t now : Z) :
  let age := (now - t)%Z in
  let says := Utils.getTimeAgo (Utils.DateObject (Some t)) now in
  ((age < 60000)%Z -> says = "Just now") /\
  ((60000 <= age < 3600000)%Z ->
   says = Utils.ago (age / 60000) "minute" /\ (1 <= age / 60000 < 60)%Z) /\
  ((3600000 <= age < 86400000)%Z ->
   says = Utils.ago (age / 3600000) "hour" /\ (1 <= age / 3600000 < 24)%Z) /\
  ((86400000 <= age < 604800000)%Z ->
   says = Utils.ago (age / 86400000) "day" /\ (1 <= age / 86400000 < 7)%Z) /\
  ((604800000 <= age)%Z -> says = toLocaleDateString_short t).
Proof.
  intros age says. subst says. unfold Utils.getTimeAgo. cbn [Utils.time_value].
  fold age.
  assert (Hm : (age / 1000 / 60 = age / 60000)%Z)
    by (rewrite Z.div_div by lia; reflexivity).
  assert (Hh : (age / 1000 / 60 / 60 = age / 3600000)%Z)
    by (rewrite !Z.div_div by lia; reflexivity).
  assert (Hd : (age / 1000 / 60 / 60 / 24 = age / 86400000)%Z)
    by (rewrite !Z.div_div by lia; reflexivity).
  rewrite Hd, Hh, Hm.
  assert (B1 : (age / 1000 < 60 <-> age < 60000)%Z)
    by (rewrite div_lt_iff by lia; reflexivity).
  assert (B2 : (age / 60000 < 60 <-> age < 3600000)%Z)
    by (rewrite div_lt_iff by lia; reflexivity).
  assert (B3 : (age / 3600000 < 24 <-> age < 86400000)%Z)
    by (rewrite div_lt_iff by lia; reflexivity).
  assert (B4 : (age / 86400000 < 7 <-> age < 604800000)%Z)
    by (rewrite div_lt_iff by lia; reflexivity).
  assert (L2 : (60000 <= age -> 1 <= age / 60000)%Z)
    by (intros H; apply Z.div_le_lower_bound; lia).
  assert (L3 : (3600000 <= age -> 1 <= age / 3600000)%Z)
    by (intros H; apply Z.div_le_lower_bound; lia).
  assert (L4 : (86400000 <= age -> 1 <= age / 86400000)%Z)
    by (intros H; apply Z.div_le_lower_bound; lia).
  destruct (age / 1000 <? 60)%Z eqn:E1;
    [apply Z.ltb_lt in E1|apply Z.ltb_ge in E1].
  { repeat split; intros; try reflexivity; lia. }
  destruct (age / 60000 <? 60)%Z eqn:E2;
    [apply Z.ltb_lt in E2|apply Z.ltb_ge in E2].
  { repeat split; intros; try reflexivity; lia. }
  destruct (age / 3600000 <? 24)%Z eqn:E3;
    [apply Z.ltb_lt in E3|apply Z.ltb_ge in E3].
  { repeat split; intros; try reflexivity; lia. }
  destruct (age / 86400000 <? 7)%Z eqn:E4;
    [apply Z.ltb_lt in E4|apply Z.ltb_ge in E4].
  { repeat split; intros; try reflexivity; lia. }
  repeat split; intros; try reflexivity; lia.
Qed.

End TimeAgo.

(** ** Recovery, the error log and retries *)

Section Replace.

Lemma prefix_split (p s : string) :
  String.prefix p s = true -> exists rest, s = p ++ rest.
Proof.
  revert s; induction p as [|c p IH]; intros s H.
  - exists s. reflexivity.
  - destruct s as [|d s]; [discriminate H|].
    cbn [String.prefix] in H. destruct (Ascii.ascii_dec c d) as [->|]; [|discriminate H].
    destruct (IH s H) as [rest ->]. exists rest. reflexivity.
Qed.

Lemma prefix_app (p rest : string) : String.prefix p (p ++ rest) = true.
Proof.
  induction p as [|c p IH]; [destruct rest; reflexivity|].
  change (String.prefix (String c p) (String c (p ++ rest)) = true).
  cbn [String.prefix]. destruct (Ascii.ascii_dec c c); [exact IH|congruence].
Qed.

Lemma substring_app_drop (p rest : string) :
  String.substring (String.length p) (String.length (p ++ rest) - String.length p) (p ++ rest)
  = rest.
Proof.
  induction p as [|c p IH].
  - change (EmptyString ++ rest) with rest. cbn [String.length].
    rewrite Nat.sub_0_r. apply substring_all.
  - change (String c p ++ rest) with (String c (p ++ rest)). cbn [String.length String.substring].
    exact IH.
Qed.

Lemma includes_app_r (a s sub : string) :
  JS.includes s sub = true -> JS.includes (a ++ s) sub = true.
Proof.
  intros H. induction a as [|c a IH]; [exact H|].
  change (String c a ++ s) with (String c (a ++ s)). cbn [JS.includes].
  rewrite IH. apply orb_true_r.
Qed.

Lemma includes_prefix (p rest : string) : JS.includes (p ++ rest) p = true.
Proof.
  destruct (p ++ rest) eqn:E; cbn [JS.includes]; rewrite <- E, prefix_app; reflexivity.
Qed.

(** Replacing an occurrence: the text before it and the text after it
    stay. *)
Lemma replace_occurrence (pattern replacement s : string) :
  JS.includes s pattern = true ->
  exists before after,
    s = before ++ pattern ++ after /\
    JS.replace pattern replacement s = before ++ replacement ++ after.
Proof.
  induction s as [|c s IH]; intros H.
  - cbn [JS.includes] in H. rewrite orb_false_r in H.
    destruct pattern as [|d pattern]; [|discriminate H].
    exists EmptyString, EmptyString. split; reflexivity.
  - cbn [JS.includes] in H. cbn [JS.replace].
    destruct (String.prefix pattern (String c s)) eqn:Hp.
    + destruct (prefix_split _ _ Hp) as [rest Hs].
      exists EmptyString, rest. split; [exact Hs|].
      change (EmptyString ++ replacement ++ rest) with (replacement ++ rest).
      f_equal. rewrite Hs. apply substring_app_drop.
    + cbn [orb] in H. destruct (IH H) as (before & after & Hs & Hr).
      exists (String c before), after. split.
      * rewrite Hs. reflexivity.
      * rewrite Hr. reflexivity.
Qed.

End Replace.

(** X13.  [ErrorManager.getFallbackUrl] has no fallback exactly for
    the URLs that contain neither "/api/" nor "/auth/".  A fallback it
    gives is three or four characters longer than the URL, hence never
    the URL itself, and contains "/api/": it has a fallback of its own
    again. *)
Theorem getFallbackUrl_spec (url : string) :
  (ErrorManager.getFallbackUrl url = None <->
   JS.includes url "/api/" = false /\ JS.includes url "/auth/" = false) /\
  (forall fallback,
     ErrorManager.getFallbackUrl url = Some fallback ->
     (String.length fallback = String.length url + 3 \/
      String.length fallback = String.length url + 4)%nat /\
     fallback <> url /\
     JS.includes fallback "/api/" = true /\
     ErrorManager.getFallbackUrl fallback <> None).
Proof.
  unfold ErrorManager.getFallbackUrl, ErrorManager.fallbackUrls.
  cbn [ErrorManager.first_fallback].
  assert (Grow : forall pattern replacement extra n,
            replacement = "/api/" ++ extra ->
            (String.length replacement = String.length pattern + n)%nat -> (0 < n)%nat ->
            JS.includes url pattern = true ->
            let fallback := JS.replace pattern replacement url in
            String.length fallback = (String.length url + n)%nat /\
            fallback <> url /\ JS.includes fallback "/api/" = true).
  { intros pattern replacement extra n Hrep Hlen Hn Hinc fallback.
    destruct (replace_occurrence pattern replacement url Hinc)
      as (before & after & Hs & Hr).
    subst fallback. rewrite Hr.
    assert (Hl : String.length (before ++ replacement ++ after)
                 = (String.length url + n)%nat).
    { rewrite Hs, !length_append, Hlen. lia. }
    split; [exact Hl|]. split.
    - intros Heq. rewrite Heq in Hl. lia.
    - apply includes_app_r. rewrite Hrep, append_assoc. apply includes_prefix. }
  split.
  - destruct (JS.includes url "/api/"); [split; [discriminate|intros [H _]; discriminate H]|].
    destruct (JS.includes url "/auth/"); [split; [discriminate|intros [_ H]; discriminate H]|].
    split; auto.
  - intros fallback H.
    assert (Hshape : (String.length fallback = String.length url + 3 \/
                      String.length fallback = String.length url + 4)%nat /\
                     fallback <> url /\ JS.includes fallback "/api/" = true).
    { destruct (JS.includes url "/api/") eqn:H1.
      - injection H as <-.
        destruct (Grow "/api/" "/api/v1/" "v1/" 3%nat eq_refl eq_refl ltac:(lia) H1)
          as (Hl & Hne & Hin). auto.
      - destruct (JS.includes url "/auth/") eqn:H2; [|discriminate H].
        injection H as <-.
        destruct (Grow "/auth/" "/api/auth/" "auth/" 4%nat eq_refl eq_refl ltac:(lia) H2)
          as (Hl & Hne & Hin). auto. }
    destruct Hshape as (Hl & Hne & Hin). repeat split; auto.
    rewrite Hin. discriminate.
Qed.

Section ErrorLog.
Import ErrorManager.

Lemma logError_log_take (e : ErrorObject) (log : list ErrorObject) :
  logError_log e log = firstn maxLogEntries (e :: log).
Proof.
  unfold logError_log.
  destruct (maxLogEntries <? List.length (e :: log))%nat eqn:H; [reflexivity|].
  apply Nat.ltb_ge in H. symmetry. apply firstn_all2. exact H.
Qed.

Lemma take_cons_take {A : Type} (n : nat) (x : A) (l : list A) :
  firstn n (x :: firstn n l) = firstn n (x :: l).
Proof.
  destruct n as [|n]; [reflexivity|]. cbn [firstn]. f_equal.
  rewrite firstn_firstn. f_equal. lia.
Qed.

Lemma logError_series (errors : list ErrorObject) : forall log,
  fold_left (fun l x => logError_log x l) errors (firstn maxLogEntries log)
  = firstn maxLogEntries (List.rev errors ++ log).
Proof.
  induction errors as [|x errors IH]; intros log; cbn [fold_left List.rev]; [reflexivity|].
  rewrite logError_log_take, take_cons_take, IH, <- app_assoc. reflexivity.
Qed.

End ErrorLog.

(** X14.  The error log is bounded and keeps the latest errors: after
    [ErrorManager.logError] has recorded one error or more, whatever
    the log held before, the log is the errors recorded, the latest
    first, followed by what it held, cut at 100 entries. *)
Theorem errorLog_bounded (first : ErrorManager.ErrorObject)
    (others log : list ErrorManager.ErrorObject) :
  let log' := fold_left (fun l x => ErrorManager.logError_log x l) (first :: others) log in
  log' = firstn ErrorManager.maxLogEntries (List.rev (first :: others) ++ log) /\
  (List.length log' <= ErrorManager.maxLogEntries)%nat.
Proof.
  intros log'.
  assert (H : log' = firstn ErrorManager.maxLogEntries (List.rev (first :: others) ++ log)).
  { subst log'. cbn [fold_left]. rewrite logError_log_take, logError_series.
    cbn [List.rev]. rewrite <- app_assoc. reflexivity. }
  split; [exact H|]. rewrite H. apply firstn_le_length.
Qed.

Section Retries.
Import ErrorManager.

(** One call with a retry function keeps every counter between one
    and the limit, and is not refused. *)
Lemma attemptRetry_step (retryKey : string) (outcome : JS.completion string) (m : manager) :
  (forall key n, retryAttempts m !! key = Some n -> (1 <= n < maxAttempts)%nat) ->
  let r := fst (attemptRetry retryKey (Some outcome) m) in
  let m' := snd (attemptRetry retryKey (Some outcome) m) in
  (exists n, (r = RetrySucceeded n \/ r = RetryFailed n) /\ (1 <= n <= maxAttempts)%nat) /\
  (forall key n, retryAttempts m' !! key = Some n -> (1 <= n < maxAttempts)%nat).
Proof.
  intros Hinv. unfold attemptRetry.
  set (cur := default 0%nat (retryAttempts m !! retryKey)).
  assert (Hcur : (cur < maxAttempts)%nat).
  { subst cur. destruct (retryAttempts m !! retryKey) as [n|] eqn:Hk; simpl.
    - apply (Hinv _ _ Hk).
    - unfold maxAttempts. lia. }
  assert (Hle : (maxAttempts <=? cur)%nat = false) by (apply Nat.leb_gt; exact Hcur).
  rewrite Hle.
  assert (Hdel : forall key n,
            delete retryKey (<[retryKey := (cur + 1)%nat]> (retryAttempts m)) !! key = Some n ->
            (1 <= n < maxAttempts)%nat).
  { intros key n. destruct (decide (key = retryKey)) as [->|Hne].
    - rewrite lookup_delete_eq. discriminate.
    - rewrite lookup_delete_ne, lookup_insert_ne by congruence. apply Hinv. }
  destruct outcome as [result|e].
  - cbn [fst snd retryAttempts]. split; [|exact Hdel].
    exists (cur + 1)%nat. split; [left; reflexivity|lia].
  - destruct (maxAttempts <=? cur + 1)%nat eqn:Hmax; cbn [fst snd retryAttempts].
    + split; [|exact Hdel]. exists (cur + 1)%nat. split; [right; reflexivity|lia].
    + apply Nat.leb_gt in Hmax. split.
      * exists (cur + 1)%nat. split; [right; reflexivity|lia].
      * intros key n. destruct (decide (key = retryKey)) as [->|Hne].
        -- rewrite lookup_insert_eq. intros H. injection H as <-. lia.
        -- rewrite lookup_insert_ne by congruence. apply Hinv.
Qed.

End Retries.

(** X15.  With a retry function at hand, [ErrorManager.attemptRetry]
    never refuses a retry: in a series of calls that starts with no
    counter above two, every call runs the retry function and resolves
    with one, two or three attempts, and no counter ever reaches the
    limit of three, because the third failure in a row removes the
    counter. *)
Theorem attemptRetry_never_refuses (calls : list (string * JS.completion string))
    (m : ErrorManager.manager) :
  (forall key n, ErrorManager.retryAttempts m !! key = Some n ->
                 (1 <= n < ErrorManager.maxAttempts)%nat) ->
  Forall (fun r => exists n,
            (r = ErrorManager.RetrySucceeded n \/ r = ErrorManager.RetryFailed n) /\
            (1 <= n <= ErrorManager.maxAttempts)%nat)
         (fst (ErrorManager.retry_series calls m)) /\
  (forall key n,
     ErrorManager.retryAttempts (snd (ErrorManager.retry_series calls m)) !! key = Some n ->
     (1 <= n < ErrorManager.maxAttempts)%nat).
Proof.
  revert m; induction calls as [|[retryKey outcome] rest IH]; intros m Hinv.
  - cbn. split; [constructor|exact Hinv].
  - cbn [ErrorManager.retry_series].
    destruct (attemptRetry_step retryKey outcome m Hinv) as [Hr Hinv1].
    destruct (ErrorManager.attemptRetry retryKey (Some outcome) m) as [r m1].
    cbn [fst snd] in Hr, Hinv1.
    destruct (IH m1 Hinv1) as [Hrs Hinv2].
    destruct (ErrorManager.retry_series rest m1) as [rs m2].
    cbn [fst snd] in *. split; [constructor; assumption|exact Hinv2].
Qed.

(** Three failures in a row, then a fourth call for the same
    operation: a retry again, at attempt one. *)
Lemma attemptRetry_never_refuses_witness :
  fst (ErrorManager.retry_series
         [("op", JS.Throw (JS.Error "down")); ("op", JS.Throw (JS.Error "down"));
          ("op", JS.Throw (JS.Error "down")); ("op", JS.Throw (JS.Error "down"))]
         {| ErrorManager.retryAttempts := ∅; ErrorManager.notices := [] |})
  = [ErrorManager.RetryFailed 1; ErrorManager.RetryFailed 2;
     ErrorManager.RetryFailed 3; ErrorManager.RetryFailed 1] /\
  Forall (fun r => exists n,
            (r = ErrorManager.RetrySucceeded n \/ r = ErrorManager.RetryFailed n) /\
            (1 <= n <= ErrorManager.maxAttempts)%nat)
         (fst (ErrorManager.retry_series
                 [("op", JS.Throw (JS.Error "down")); ("op", JS.Throw (JS.Error "down"));
                  ("op", JS.Throw (JS.Error "down")); ("op", JS.Throw (JS.Error "down"))]
                 {| ErrorManager.retryAttempts := ∅; ErrorManager.notices := [] |})).
Proof.
  split; [vm_compute; reflexivity|].
  apply (attemptRetry_never_refuses _ _).
  intros key n H. change ((∅ : gmap string nat) !! key = Some n) in H.
  rewrite lookup_empty in H. discriminate H.
Defined.

(** X16.  Automatic recovery never takes place for an error that
    [ErrorManager.standardizeError] has built, whatever was raised and
    whatever the context offers: the object keeps the category
    UNKNOWN, and [attemptRecovery] tries a fallback URL, the caches or
    the session for the categories API, DATA and AUTH only.  It makes
    no call and shows no notification. *)
Theorem standardized_error_is_never_recovered (error : ErrorManager.raised)
    (id timestamp : string) (context : ErrorManager.recovery_context) :
  ErrorManager.attemptRecovery (ErrorManager.standardizeError error id timestamp) context
  = (ErrorManager.NotRecovered "No recovery method available", []).
Proof. destruct error; reflexivity. Qed.

(** ** Rules from [data-rules] and the validation of a form *)

Section RuleFacts.
Context {host : JSHost}.
Import FormValidator.

Lemma getRuleConfig_pattern (param : string) :
  match getRuleConfig ("pattern:" ++ param) with
  | RuleObj cfg => forall value, test cfg value = None
  | _ => False
  end.
Proof.
  unfold getRuleConfig.
  assert (Hr : rules ("pattern:" ++ param) = None) by reflexivity.
  assert (Hm : medicalRules ("pattern:" ++ param) = None) by reflexivity.
  assert (Hi : JS.includes ("pattern:" ++ param) ":" = true).
  { apply (includes_app_r "pattern" (":" ++ param)), includes_prefix. }
  assert (Hs : JS.split ":" ("pattern:" ++ param) = "pattern" :: JS.split ":" param)
    by reflexivity.
  rewrite Hr, Hm, Hi, Hs. cbv zeta. cbn [nth].
  change (rules "pattern") with (Some (Factory pattern)). intros value. reflexivity.
Qed.

(** A rule whose lookup or test throws ends the loop with an
    exception, wherever it stands in the list. *)
Lemma apply_rules_throws (rs : list string) (value : string) : forall errors seen r,
  In r rs ->
  match getRuleConfig r with
  | RuleObj cfg => test cfg value = None
  | RuleNull => False
  | _ => True
  end ->
  exists e, fst (apply_rules rs value errors seen) = JS.Throw e.
Proof.
  induction rs as [|r0 rs IH]; intros errors seen r Hin Hr; [destruct Hin|].
  cbn [apply_rules].
  destruct Hin as [->|Hin].
  - destruct (getRuleConfig r) as [|cfg| |e]; [destruct Hr| |cbn; eauto..].
    rewrite Hr. cbn. eauto.
  - destruct (getRuleConfig r0) as [|cfg| |e]; [eauto| |cbn; eauto..].
    destruct (test cfg value) as [[]|]; [eauto..|cbn; eauto].
Qed.

End RuleFacts.

Section PatternRule.
Context {host : JSHost}.

(** X17.  The rule [pattern] cannot be used from the attribute
    [data-rules]: for a field that lists [pattern:...] among its rules
    and holds a value, [FormValidator.validateField] throws instead of
    returning, and leaves the error state of the field as it was. *)
Theorem pattern_rule_throws (f : DOM.field) (u : FormValidator.field_ui) (param : string) :
  In ("pattern:" ++ param) (FormValidator.getFieldRules f) ->
  JS.truthy (JS.trim (DOM.value f)) = true ->
  (exists e, FormValidator.result (FormValidator.validateField f u) = JS.Throw e) /\
  FormValidator.ui (FormValidator.validateField f u) = u.
Proof.
  intros Hin Hv. unfold FormValidator.validateField. rewrite Hv. cbn [negb andb].
  pose proof (getRuleConfig_pattern param) as Hp.
  destruct (apply_rules_throws (FormValidator.getFieldRules f) (JS.trim (DOM.value f))
              [] [] _ Hin) as [e He].
  { destruct (FormValidator.getRuleConfig ("pattern:" ++ param)); try exact I; auto. }
  destruct (FormValidator.apply_rules _ _ _ _) as [[errs|e'] seen];
    cbn [fst] in He; [discriminate He|].
  cbn. eauto.
Qed.

End PatternRule.

Lemma pattern_rule_throws_witness :
  (exists e, FormValidator.result
               (FormValidator.validateField (host := Reference.host)
                  Examples.code_field Examples.no_ui) = JS.Throw e) /\
  FormValidator.ui
    (FormValidator.validateField (host := Reference.host) Examples.code_field Examples.no_ui)
  = Examples.no_ui.
Proof.
  apply (pattern_rule_throws (host := Reference.host) Examples.code_field Examples.no_ui
           "^[0-9]+$"); [left; reflexivity | reflexivity].
Defined.

Section EmailShape.
Import Regex.

Lemma nonempty_plus p s :
  matches (plus (Class p)) s = true <-> s <> EmptyString /\ forall_chars p s = true.
Proof.
  rewrite matches_plus_class. destruct s as [|c s]; cbn [JS.is_empty negb andb].
  - split; [discriminate|]. intros [H _]. congruence.
  - split; [intros H; split; [discriminate|exact H]|intros [_ H]; exact H].
Qed.

(** X18.  The e-mail test of both validators accepts exactly the
    strings of the form local@domain.tld in which the three parts are
    not empty and hold neither white space nor another at sign; dots
    inside the parts are allowed. *)
Theorem isValidEmail_shape (value : string) :
  (FormHandler.isValidEmail value = true <->
   exists loc domain tld,
     value = loc ++ "@" ++ domain ++ "." ++ tld /\
     loc <> EmptyString /\ domain <> EmptyString /\ tld <> EmptyString /\
     forall_chars not_space_at loc = true /\
     forall_chars not_space_at domain = true /\
     forall_chars not_space_at tld = true) /\
  (forall host : JSHost,
     FormValidator.test FormValidator.email value = Some (FormHandler.isValidEmail value)).
Proof.
  split; [|reflexivity].
  unfold FormHandler.isValidEmail, email_re. cbn [seqs]. split.
  - intros H.
    apply matches_Seq in H as (loc & r1 & -> & Hloc & H).
    apply matches_Seq_chr in H as (r2 & -> & H).
    apply matches_Seq in H as (domain & r3 & -> & Hdom & H).
    apply matches_Seq_chr in H as (tld & -> & H).
    rewrite matches_Seq_Eps_r in H.
    apply nonempty_plus in Hloc as [? ?], Hdom as [? ?], H as [? ?].
    exists loc, domain, tld. repeat split; auto.
  - intros (loc & domain & tld & -> & H1 & H2 & H3 & C1 & C2 & C3).
    apply matches_Seq. exists loc, ("@" ++ domain ++ "." ++ tld).
    split; [reflexivity|]. split; [apply nonempty_plus; auto|].
    apply matches_Seq_chr. exists (domain ++ "." ++ tld). split; [reflexivity|].
    apply matches_Seq. exists domain, ("." ++ tld).
    split; [reflexivity|]. split; [apply nonempty_plus; auto|].
    apply matches_Seq_chr. exists tld. split; [reflexivity|].
    rewrite matches_Seq_Eps_r. apply nonempty_plus; auto.
Qed.

End EmailShape.

Section FormRun.
Context {host : JSHost}.
Import FormValidator.




End FormRun.


Section LengthRules.
Context {host : JSHost}.
Import FormValidator.

Lemma split_no_colon (n : string) : JS.includes n ":" = false -> JS.split ":" n = [n].
Proof.
  induction n as [|c n IH]; intros H; [reflexivity|].
  cbn [JS.includes String.prefix] in H. apply orb_false_elim in H as [Hc Hn].
  cbn [JS.split]. destruct (Ascii.eqb c ":") eqn:E.
  - apply Ascii.eqb_eq in E. subst c. destruct (Ascii.ascii_dec ":" ":"); [|congruence].
    destruct n; discriminate Hc.
  - rewrite (IH Hn). reflexivity.
Qed.

Lemma num_ge_of_nat (a b : nat) : JS.num_ge (JS.of_nat a) (JS.of_nat b) = (b <=? a)%nat.
Proof.
  unfold JS.num_ge, JS.of_nat, JS.of_Z, JS.num_lt, JS.Qlt_bool. rewrite negb_involutive.
  destruct (b <=? a)%nat eqn:E.
  - apply Nat.leb_le in E. apply Qle_bool_iff. rewrite <- Zle_Qle. lia.
  - apply Nat.leb_gt in E. apply not_true_is_false. intros H.
    apply Qle_bool_iff in H. rewrite <- Zle_Qle in H. lia.
Qed.

(** X20.  The parameterised rules of the attribute [data-rules]: for a
    parameter without a colon that converts to the number [k],
    [minLength:k] passes the values of at least [k] characters and
    [maxLength:k] those of at most [k], each with a message that quotes
    the parameter as written. *)
Theorem length_rules (param : string) (k : nat) :
  JS.includes param ":" = false ->
  ToNumber param = JS.of_nat k ->
  (exists cfg,
     getRuleConfig ("minLength:" ++ param) = RuleObj cfg /\
     (forall value, test cfg value = Some (k <=? String.length value)%nat) /\
     message cfg = "Must be at least " ++ param ++ " characters long") /\
  (exists cfg,
     getRuleConfig ("maxLength:" ++ param) = RuleObj cfg /\
     (forall value, test cfg value = Some (String.length value <=? k)%nat) /\
     message cfg = "Must not exceed " ++ param ++ " characters").
Proof.
  intros Hcolon Hnum.
  assert (Hmin : getRuleConfig ("minLength:" ++ param) = RuleObj (minLength param)).
  { unfold getRuleConfig.
    assert (Hr : rules ("minLength:" ++ param) = None) by reflexivity.
    assert (Hm : medicalRules ("minLength:" ++ param) = None) by reflexivity.
    assert (Hi : JS.includes ("minLength:" ++ param) ":" = true).
    { apply (includes_app_r "minLength" (":" ++ param)), includes_prefix. }
    assert (Hs : JS.split ":" ("minLength:" ++ param) = "minLength" :: JS.split ":" param)
      by reflexivity.
    rewrite Hr, Hm, Hi, Hs, (split_no_colon param Hcolon). reflexivity. }
  assert (Hmax : getRuleConfig ("maxLength:" ++ param) = RuleObj (maxLength param)).
  { unfold getRuleConfig.
    assert (Hr : rules ("maxLength:" ++ param) = None) by reflexivity.
    assert (Hm : medicalRules ("maxLength:" ++ param) = None) by reflexivity.
    assert (Hi : JS.includes ("maxLength:" ++ param) ":" = true).
    { apply (includes_app_r "maxLength" (":" ++ param)), includes_prefix. }
    assert (Hs : JS.split ":" ("maxLength:" ++ param) = "maxLength" :: JS.split ":" param)
      by reflexivity.
    rewrite Hr, Hm, Hi, Hs, (split_no_colon param Hcolon). reflexivity. }
  split.
  - exists (minLength param). split; [exact Hmin|]. split; [|reflexivity].
    intros value. cbn [minLength test]. rewrite Hnum, num_ge_of_nat. reflexivity.
  - exists (maxLength param). split; [exact Hmax|]. split; [|reflexivity].
    intros value. cbn [maxLength test]. unfold JS.num_le. rewrite Hnum, num_ge_of_nat.
    reflexivity.
Qed.

End LengthRules.

Lemma length_rules_witness :
  exists cfg,
    FormValidator.getRuleConfig (host := Reference.host) "minLength:3" = FormValidator.RuleObj cfg /\
    FormValidator.test cfg "ab" = Some false /\ FormValidator.test cfg "abc" = Some true.
Proof.
  destruct (length_rules (host := Reference.host) "3" 3 eq_refl eq_refl)
    as [(cfg & Hcfg & Htest & _) _].
  exists cfg. split; [exact Hcfg|]. split; apply Htest.
Defined.

Section TimeShape.
Import Regex.

Lemma matches_two_classes p q s :
  matches (Seq (Class p) (Seq (Class q) Eps)) s = true <->
  exists a b, s = String a (String b EmptyString) /\ p a = true /\ q b = true.
Proof.
  split.
  - intros H. apply matches_Seq in H as (s1 & s2 & -> & H1 & H2).
    rewrite matches_Seq_Eps_r in H2.
    apply matches_Class in H1 as (a & -> & Ha), H2 as (b & -> & Hb).
    exists a, b. repeat split; assumption.
  - intros (a & b & -> & Ha & Hb). apply matches_Seq.
    exists (String a EmptyString), (String b EmptyString).
    split; [reflexivity|]. rewrite matches_Seq_Eps_r. split; apply matches_Class; eauto.
Qed.

(** X28.  The time test of [FormHandler] accepts exactly the strings
    H:MM and HH:MM with an hour from 0 to 23, written with one digit or
    two, and a minute from 00 to 59 written with two digits. *)
Theorem isValidTime_shape (timeString : string) :
  FormHandler.isValidTime timeString = true <->
  exists hour m1 m2,
    timeString = hour ++ ":" ++ String m1 (String m2 EmptyString) /\
    JS.in_range 48 53 m1 = true /\ JS.is_digit m2 = true /\
    ((exists d, hour = String d EmptyString /\ JS.is_digit d = true) \/
     (exists a d, hour = String a (String d EmptyString) /\
                  JS.in_range 48 49 a = true /\ JS.is_digit d = true) \/
     (exists d, hour = String "2" (String d EmptyString) /\ JS.in_range 48 51 d = true)).
Proof.
  unfold FormHandler.isValidTime, time_re. cbn [seqs]. split.
  - intros H. apply matches_Seq in H as (hour & rest & -> & Hh & H).
    apply matches_Seq_chr in H as (mm & -> & H).
    apply matches_two_classes in H as (m1 & m2 & -> & H1 & H2).
    exists hour, m1, m2. repeat split; try assumption.
    rewrite matches_Alt in Hh. apply orb_prop in Hh as [Hh|Hh].
    + apply matches_Seq in Hh as (a & d & -> & Ha & Hd).
      apply matches_Class in Hd as (d' & -> & Hd).
      unfold opt in Ha. rewrite matches_Alt, matches_Eps in Ha.
      apply orb_prop in Ha as [Ha|Ha].
      * destruct a; [|discriminate Ha]. left. eauto.
      * apply matches_Class in Ha as (a' & -> & Ha). right. left. eauto 6.
    + apply matches_Seq_chr in Hh as (d & -> & Hd).
      apply matches_Class in Hd as (d' & -> & Hd). right. right. eauto.
  - intros (hour & m1 & m2 & -> & H1 & H2 & Hh).
    apply matches_Seq. exists hour, (":" ++ String m1 (String m2 EmptyString)).
    split; [reflexivity|]. split.
    + rewrite matches_Alt. destruct Hh as [(d & -> & Hd)|[(a & d & -> & Ha & Hd)|(d & -> & Hd)]].
      * apply orb_true_intro. left. apply matches_Seq.
        exists EmptyString, (String d EmptyString). split; [reflexivity|].
        split; [reflexivity|]. apply matches_Class. eauto.
      * apply orb_true_intro. left. apply matches_Seq.
        exists (String a EmptyString), (String d EmptyString). split; [reflexivity|].
        split.
        -- unfold opt. rewrite matches_Alt. apply orb_true_intro. right.
           apply matches_Class. eauto.
        -- apply matches_Class. eauto.
      * apply orb_true_intro. right. apply matches_Seq_chr.
        exists (String d EmptyString). split; [reflexivity|]. apply matches_Class. eauto.
    + apply matches_Seq_chr. exists (String m1 (String m2 EmptyString)).
      split; [reflexivity|]. apply matches_two_classes. eauto.
Qed.

End TimeShape.

(** ** Files, field results and the validity of a form *)

Section FileFields.
Import FormHandler.

Lemma check_files_spec (fs : list DOM.file) : forall r,
  isValid (check_files fs r)
  = isValid r &&
    forallb (fun x => negb (maxSize <? DOM.file_size x)%Z &&
                      JS.arr_includes allowedTypes (DOM.file_type x)) fs /\
  ((isValid r = true <-> errors r = []) ->
   (isValid (check_files fs r) = true <-> errors (check_files fs r) = [])).
Proof.
  induction fs as [|x fs IH]; intros r.
  - cbn. rewrite andb_true_r. split; [reflexivity|auto].
  - cbn [check_files forallb].
    set (r1 := if (maxSize <? DOM.file_size x)%Z then add_error _ r else r).
    set (r2 := if negb (JS.arr_includes allowedTypes (DOM.file_type x))
               then add_error _ r1 else r1).
    set (r3 := if isPotenitallyDangerous (DOM.file_name x) then add_warning _ r2 else r2).
    destruct (IH r3) as [E1 E2].
    assert (H3 : isValid r3 = isValid r && (negb (maxSize <? DOM.file_size x)%Z &&
                                           JS.arr_includes allowedTypes (DOM.file_type x)) /\
                 ((isValid r = true <-> errors r = []) ->
                  (isValid r3 = true <-> errors r3 = []))).
    { subst r3 r2 r1.
      destruct (maxSize <? DOM.file_size x)%Z,
               (JS.arr_includes allowedTypes (DOM.file_type x)),
               (isPotenitallyDangerous (DOM.file_name x));
        cbn; rewrite ?andb_true_r, ?andb_false_r; (split; [reflexivity|]); intros Hr;
        try exact Hr;
        (split; [discriminate|]); intros H; exfalso;
        repeat (apply app_eq_nil in H as [H ?]); discriminate. }
    destruct H3 as [V3 I3]. split.
    + rewrite E1, V3. symmetry. apply andb_assoc.
    + intros Hr. apply E2, I3, Hr.
Qed.

Lemma check_files_warnings (fs : list DOM.file) : forall r,
  warnings (check_files fs r)
  = app (warnings r)
        (List.map (fun x => "File " ++ JS.dquote ++ DOM.file_name x ++ JS.dquote ++
                            " has a potentially dangerous extension")
                  (List.filter (fun x => isPotenitallyDangerous (DOM.file_name x)) fs)).
Proof.
  induction fs as [|x fs IH]; intros r; cbn [check_files List.filter List.map].
  - rewrite app_nil_r. reflexivity.
  - rewrite IH.
    destruct (maxSize <? DOM.file_size x)%Z,
             (negb (JS.arr_includes allowedTypes (DOM.file_type x))),
             (isPotenitallyDangerous (DOM.file_name x));
      cbn [warnings add_error add_warning List.map]; rewrite <- ?app_assoc; reflexivity.
Qed.

(** X24.  [FormHandler.validateFileField] accepts a file input exactly
    when it holds at most five files, none of them larger than ten
    megabytes and each of an allowed MIME type.  The name of a file
    never makes the input invalid: a dangerous extension adds a
    warning only, one for each such file. *)
Theorem validateFileField_spec (fileField : DOM.field) :
  (isValid (validateFileField fileField) = true <->
   (List.length (DOM.files fileField) <= 5)%nat /\
   forall x, In x (DOM.files fileField) ->
     (DOM.file_size x <= 10 * 1024 * 1024)%Z /\
     In (DOM.file_type x)
        ["image/jpeg"; "image/png"; "image/gif"; "application/pdf"; "text/csv"]) /\
  ((List.length (DOM.files fileField) <= 5)%nat ->
   List.length (warnings (validateFileField fileField))
   = List.length (List.filter (fun x => isPotenitallyDangerous (DOM.file_name x))
                              (DOM.files fileField))).
Proof.
  unfold validateFileField.
  destruct (DOM.files fileField) as [|x0 fs0] eqn:Hfs.
  - split; [|reflexivity]. cbn. split; [intros _; split; [lia|intros x []]|reflexivity].
  - rewrite <- Hfs. clear Hfs. set (fs := DOM.files fileField).
    destruct (maxFiles <? List.length fs)%nat eqn:Hn.
    + apply Nat.ltb_lt in Hn. unfold maxFiles in Hn. split.
      * cbn. split; [discriminate|]. intros [H _]. lia.
      * intros H. lia.
    + apply Nat.ltb_ge in Hn. unfold maxFiles in Hn. split.
      * destruct (check_files_spec fs valid_result) as [-> _]. cbn [valid_result isValid andb].
        rewrite forallb_forall. split.
        -- intros H. split; [exact Hn|]. intros x Hx. specialize (H x Hx).
           apply andb_prop in H as [Hs Ht]. split.
           ++ apply negb_true_iff, Z.ltb_ge in Hs. exact Hs.
           ++ unfold JS.arr_includes in Ht. apply existsb_exists in Ht as (t & Hin & Ht).
              apply String.eqb_eq in Ht. subst t. exact Hin.
        -- intros [_ H] x Hx. destruct (H x Hx) as [Hs Ht]. apply andb_true_intro. split.
           ++ apply negb_true_iff, Z.ltb_ge. exact Hs.
           ++ unfold JS.arr_includes. apply existsb_exists. exists (DOM.file_type x).
              split; [exact Ht|apply String.eqb_refl].
      * intros _. rewrite check_files_warnings. cbn [valid_result warnings app].
        apply length_map.
Qed.

End FileFields.

Section FieldResults.
Context {host : JSHost}.
Import FormHandler.

Lemma validateFileField_errors (f : DOM.field) :
  isValid (validateFileField f) = true <-> errors (validateFileField f) = [].
Proof.
  unfold validateFileField. destruct (DOM.files f) as [|x fs]; [cbn; tauto|].
  destruct (maxFiles <? _)%nat; [cbn; split; discriminate|].
  apply check_files_spec. cbn. tauto.
Qed.

(** A field result is invalid exactly when it carries an error. *)
Lemma validateField_errors (f : DOM.field) (now : Z) :
  isValid (validateField f now) = true <-> errors (validateField f now) = [].
Proof.
  assert (Hadd : forall m r, (isValid (add_error m r) = true <-> errors (add_error m r) = [])).
  { intros m r. cbn. split; [discriminate|]. intros H. apply app_eq_nil in H as [_ H].
    discriminate H. }
  assert (Hwarn : forall m r, (isValid r = true <-> errors r = []) ->
                              (isValid (add_warning m r) = true <-> errors (add_warning m r) = [])).
  { intros m r H. exact H. }
  assert (Hv : isValid valid_result = true <-> errors valid_result = []) by (cbn; tauto).
  unfold validateField.
  destruct (_ && negb _); [apply Hadd|].
  destruct (negb _); [exact Hv|].
  set (value := JS.trim (DOM.value f)).
  assert (H1 : isValid (validate_type f value now valid_result) = true <->
               errors (validate_type f value now valid_result) = []).
  { unfold validate_type.
    repeat match goal with
           | |- context [if ?b then _ else _] => destruct b
           end; auto.
    cbn [isValid errors valid_result app]. apply validateFileField_errors. }
  set (r1 := validate_type f value now valid_result) in *.
  repeat match goal with
         | |- context [if ?b then _ else _] => destruct b
         end; auto.
Qed.

Lemma validate_inputs_spec (now : Z) (fs : list DOM.field) : forall i errs warns ms,
  fst (fst (validate_inputs fs i now errs warns ms))
  = (errs ++ List.concat (List.map (fun f => errors (validateField f now)) fs))%list.
Proof.
  induction fs as [|f fs IH]; intros i errs warns ms; cbn [validate_inputs List.map List.concat].
  - rewrite app_nil_r. reflexivity.
  - rewrite IH. destruct (isValid (validateField f now)) eqn:Hv.
    + apply validateField_errors in Hv. rewrite Hv. reflexivity.
    + rewrite <- app_assoc. reflexivity.
Qed.

(** X27.  [FormHandler.validateForm] decides by the list of errors and
    [validateField] by a flag, and the two agree: a form is valid
    exactly when every one of its fields is valid and the cross-field
    checks raise nothing; its errors are those of its fields, in the
    order of the fields, followed by the cross-field errors. *)
Theorem validateForm_iff_fields (w : world) :
  (isValid (fst (validateForm w)) = true <->
   (forall f, In f (DOM.fields (w_form w)) -> isValid (validateField f (w_now w)) = true) /\
   validateCrossFields (w_form w) = []) /\
  errors (fst (validateForm w))
  = (List.concat (List.map (fun f => errors (validateField f (w_now w)))
                           (DOM.fields (w_form w))) ++
     validateCrossFields (w_form w))%list.
Proof.
  unfold validateForm.
  pose proof (validate_inputs_spec (w_now w) (DOM.fields (w_form w)) 0 [] [] []) as H.
  destruct (validate_inputs _ _ _ _ _ _) as [[errs warns] ms]. cbn [fst] in H.
  cbn [app] in H. subst errs. cbn [fst isValid errors]. split; [|reflexivity].
  set (all := List.concat _).
  assert (Hall : all = [] <->
                 forall f, In f (DOM.fields (w_form w)) ->
                           isValid (validateField f (w_now w)) = true).
  { subst all. induction (DOM.fields (w_form w)) as [|f fs IH]; cbn [List.map List.concat].
    - split; [intros _ f []|reflexivity].
    - split.
      + intros H. apply app_eq_nil in H as [Hf Hfs]. intros g [<-|Hg].
        * apply validateField_errors, Hf.
        * apply IH; assumption.
      + intros H. rewrite (proj1 (validateField_errors f (w_now w)) (H f (or_introl eq_refl))).
        apply IH. intros g Hg. apply H. right. exact Hg. }
  destruct (all ++ validateCrossFields (w_form w))%list eqn:E.
  - apply app_eq_nil in E as [E1 E2]. split; [intros _|reflexivity].
    split; [apply Hall, E1|exact E2].
  - split; [discriminate|]. intros [H1 H2]. apply Hall in H1. rewrite H1, H2 in E.
    discriminate E.
Qed.

End FieldResults.

(** ** Submissions with files *)

Section Uploads.
Import FormHandler.
Context {host : JSHost} {backend : Backend}.

(** The upload of the files of one input never returns: a file fails,
    or completing the progress bar throws. *)
Lemma upload_input_throws (i : DOM.field) (acc : obj * world) :
  exists e w', upload_input i acc = (JS.Throw e, w') /\ w_posts w' = w_posts (snd acc) /\
               w_form w' = w_form (snd acc).
Proof.
  destruct acc as [formData w]. unfold upload_input, showProgress.
  destruct (upload_all (DOM.files i) []) as [uploaded|e]; cbn; eauto.
Qed.

Lemma upload_inputs_throws (inputs : list DOM.field) : forall acc,
  (exists i, In i inputs /\ DOM.files i <> []) ->
  exists e w', upload_inputs inputs acc = (JS.Throw e, w') /\ w_posts w' = w_posts (snd acc).
Proof.
  induction inputs as [|i inputs IH]; intros acc (j & Hin & Hfiles); [destruct Hin|].
  cbn [upload_inputs].
  destruct (DOM.files i) as [|x fs] eqn:Hf.
  - destruct Hin as [->|Hin]; [congruence|]. apply IH. eauto.
  - destruct (upload_input_throws i acc) as (e & w' & -> & Hp & _). eauto.
Qed.

Lemma submit_catch_never_succeeds (e : JS.js_error) (w : world) (r : submit_result) :
  fst (submit_catch e w) = JS.Return r -> res_success r = false.
Proof.
  unfold submit_catch.
  destruct (w_globals w !! "loadingId") as [id|]; [|discriminate].
  destruct (DOM.submitButton _) as [b|].
  - destruct (w_globals w !! "originalText") as [t|]; cbn; [|discriminate].
    intros [= <-]. reflexivity.
  - cbn. intros [= <-]. reflexivity.
Qed.

(** X21.  A form in which a file has been chosen is never submitted:
    whatever its type and its other fields, and whatever the upload
    service answers, [FormHandler.submitForm] makes no call of
    [ApiHelper.post] and does not report success. *)
Theorem chosen_file_blocks_submission (o : option string) (w : world) (f : DOM.field) :
  In f (DOM.fields (w_form w)) ->
  DOM.tagName f = "INPUT" -> DOM.ftype f = "file" -> DOM.files f <> [] ->
  w_posts (snd (submitForm o w)) = w_posts w /\
  forall r, fst (submitForm o w) = JS.Return r -> res_success r = false.
Proof.
  intros Hin Htag Htype Hfiles. unfold submitForm.
  destruct (submit_begin o w) as [fr w1] eqn:Hb.
  pose proof (submit_begin_frame o w) as Fb. rewrite Hb in Fb. cbn in Fb.
  destruct Fb as (Bp & _ & _ & _ & _ & _ & Bfs & _ & _).
  assert (Hsend : exists e w2, submit_send fr w1 = (JS.Throw e, w2) /\ w_posts w2 = w_posts w).
  { unfold submit_send.
    pose proof (validateForm_frame w1) as Fv.
    destruct (validateForm w1) as [vr wv]. cbn [fst snd] in Fv.
    destruct Fv as (Vp & _ & _ & _ & _ & _ & Vform).
    destruct (negb (isValid vr)); [do 2 eexists; split; [reflexivity|congruence]|].
    destruct (prepareFormData wv false) as [formData|e];
      [|do 2 eexists; split; [reflexivity|congruence]].
    destruct (String.eqb (formType fr) "pharmacyCSV").
    - destruct (handleCSVUpload_never_posts (endpoint fr) wv) as [Hp [e He]].
      destruct (handleCSVUpload (endpoint fr) wv) as [[res|e'] w2]; cbn [fst snd] in *;
        [discriminate He|]. do 2 eexists; split; [reflexivity|congruence].
    - assert (Hhas : hasFileUploads (w_form wv) = true).
      { unfold hasFileUploads. apply existsb_exists. exists f. split.
        - rewrite Vform, Bfs. exact Hin.
        - rewrite Htag, Htype. reflexivity. }
      rewrite Hhas. unfold handleFileUploads.
      destruct (upload_inputs_throws
                  (List.filter (fun g => is_type g "file") (DOM.fields (w_form wv)))
                  (formData, wv)) as (e & w2 & -> & Hp).
      { exists f. split; [|exact Hfiles]. apply filter_In. split.
        - rewrite Vform, Bfs. exact Hin.
        - unfold is_type. rewrite Htag, Htype. reflexivity. }
      cbn [snd] in Hp. do 2 eexists; split; [reflexivity|congruence]. }
  destruct Hsend as (e & w2 & -> & Hp). cbn [submit_settle]. split.
  - rewrite (proj1 (submit_catch_frame e w2)). exact Hp.
  - intros r. apply submit_catch_never_succeeds.
Qed.

End Uploads.

Lemma chosen_file_blocks_submission_witness :
  FormHandler.w_posts
    (snd (FormHandler.submitForm (host := Reference.host) (backend := Reference.accepting)
            None (Reference.page CsvExample.report_form))) = [] /\
  forall r,
    fst (FormHandler.submitForm (host := Reference.host) (backend := Reference.accepting)
           None (Reference.page CsvExample.report_form)) = JS.Return r ->
    FormHandler.res_success r = false.
Proof.
  apply (chosen_file_blocks_submission (host := Reference.host) (backend := Reference.accepting)
           None (Reference.page CsvExample.report_form)
           (CsvExample.file_input CsvExample.stock_file));
    [right; left; reflexivity | reflexivity | reflexivity | discriminate].
Defined.

(** ** The records of a CSV file *)

Section Records.
Import FormHandler.
Context {host : JSHost} {backend : Backend}.

Lemma process_from_spec (endpoint : table_value) (rs : list (gmap string string)) :
  forall i results w,
  let out := process_from endpoint i rs (results, w) in
  w_posts (snd out)
  = (w_posts w ++
     List.map (fun record =>
                 (endpoint,
                  CsvPayload (record !! "medicine")
                             (parseBoolean (record !! "availability"))
                             (record !! "datestocked"))) rs)%list /\
  (failed results + List.length rs <= failed (fst out))%nat /\
  (successful results <= successful (fst out) <= successful results + List.length rs)%nat /\
  (List.length (csv_errors (fst out)) - failed (fst out)
   = List.length (csv_errors results) - failed results)%nat /\
  (failed (fst out) - List.length (csv_errors (fst out))
   = failed results - List.length (csv_errors results))%nat.
Proof.
  induction rs as [|record rs IH]; intros i results w.
  - cbn. rewrite app_nil_r. repeat split; lia.
  - cbn [process_from List.map List.length].
    destruct (process_record endpoint i record (results, w)) as [r1 w1] eqn:Hstep.
    assert (Hone : w_posts w1
                   = (w_posts w ++
                      [(endpoint,
                        CsvPayload (record !! "medicine")
                                   (parseBoolean (record !! "availability"))
                                   (record !! "datestocked"))])%list /\
                   (S (failed results) <= failed r1)%nat /\
                   (successful results <= successful r1 <= S (successful results))%nat /\
                   (List.length (csv_errors r1) + failed results
                    = List.length (csv_errors results) + failed r1)%nat).
    { unfold process_record in Hstep.
      destruct (api_post _ _ _) as [resp|e].
      - destruct (success resp); cbn in Hstep; injection Hstep as <- <-; cbn;
          unfold JS.push; rewrite ?length_app; cbn; repeat split; lia.
      - injection Hstep as <- <-. cbn. unfold JS.push. rewrite length_app. cbn.
        repeat split; lia. }
    destruct Hone as (P1 & F1 & S1 & E1).
    specialize (IH (S i) r1 w1). cbv zeta in IH. destruct IH as (P & F & S & E & E').
    cbv zeta. rewrite P, P1, <- app_assoc. repeat split; try reflexivity; lia.
Qed.

(** X23.  [FormHandler.processCSVRecords] posts every record once, in
    the order of the file, with its availability as a boolean.  Each
    record is counted as failed, also those the backend accepted, as
    the progress update after the request throws inside the [try]; so
    the failures number at least the records, the successes at most
    the records, and there is one error line for each failure. *)
Theorem processCSVRecords_counts (rs : list (gmap string string)) (endpoint : table_value)
    (w : world) :
  w_posts (snd (processCSVRecords rs endpoint w))
  = (w_posts w ++
     List.map (fun record =>
                 (endpoint,
                  CsvPayload (record !! "medicine")
                             (parseBoolean (record !! "availability"))
                             (record !! "datestocked"))) rs)%list /\
  (List.length rs <= failed (fst (processCSVRecords rs endpoint w)))%nat /\
  (successful (fst (processCSVRecords rs endpoint w)) <= List.length rs)%nat /\
  List.length (csv_errors (fst (processCSVRecords rs endpoint w)))
  = failed (fst (processCSVRecords rs endpoint w)).
Proof.
  unfold processCSVRecords.
  pose proof (process_from_spec endpoint rs 0
                {| successful := 0; failed := 0; csv_errors := [] |} w) as H.
  cbv zeta in H. cbn [successful failed csv_errors List.length] in H.
  destruct H as (P & F & S & E & E'). repeat split; try assumption; lia.
Qed.

Lemma availability_cases (v : string) :
  JS.arr_includes ["true"; "false"; "1"; "0"; "yes"; "no"] (JS.toLowerCase v) = true ->
  JS.trim (JS.toLowerCase v) = JS.toLowerCase v.
Proof.
  intros H. unfold JS.arr_includes in H. apply existsb_exists in H as (t & Hin & Ht).
  apply String.eqb_eq in Ht. rewrite Ht.
  repeat (destruct Hin as [<-|Hin]; [reflexivity|]). destruct Hin.
Qed.

(** X25.  On a record that passes the checks of [validateCSVData],
    [parseBoolean] reads the availability as true exactly for the
    values true, 1 and yes in any letter case, and as false for false,
    0, no and for a missing or empty value; the fourth value it knows,
    available, does not pass the checks. *)
Theorem accepted_availability (index : nat) (record : gmap string string) :
  validate_record index record = [] ->
  parseBoolean (record !! "availability")
  = match record !! "availability" with
    | Some v => JS.arr_includes ["true"; "1"; "yes"] (JS.toLowerCase v)
    | None => false
    end /\
  (forall v, record !! "availability" = Some v -> JS.toLowerCase v <> "available").
Proof.
  intros Hv. unfold validate_record in Hv.
  apply app_eq_nil in Hv as [_ Hv]. apply app_eq_nil in Hv as [Hv _].
  destruct (record !! "availability") as [v|]; [|split; [reflexivity|discriminate]].
  cbn [opt_truthy default id] in Hv. unfold parseBoolean.
  destruct (JS.truthy v) eqn:Ht.
  - cbn [andb negb] in Hv |- *.
    destruct (JS.arr_includes ["true"; "false"; "1"; "0"; "yes"; "no"] (JS.toLowerCase v))
      eqn:Hin; [|discriminate Hv].
    rewrite (availability_cases v Hin). split.
    + unfold JS.arr_includes in Hin |- *. apply existsb_exists in Hin as (t & Hin & Heq).
      apply String.eqb_eq in Heq. rewrite Heq.
      repeat (destruct Hin as [<-|Hin]; [reflexivity|]). destruct Hin.
    + intros v' [= <-] Heq. rewrite Heq in Hin. discriminate Hin.
  - cbn [negb]. destruct v; [|discriminate Ht]. split; [reflexivity|].
    intros v' [= <-]. discriminate.
Qed.

End Records.

Lemma accepted_availability_witness :
  FormHandler.validate_record (host := Reference.host) 0 CsvExample.yes_record = [] /\
  FormHandler.parseBoolean (CsvExample.yes_record !! "availability") = true.
Proof.
  split; [vm_compute; reflexivity|].
  destruct (accepted_availability (host := Reference.host) 0 CsvExample.yes_record) as [H _];
    [vm_compute; reflexivity|].
  rewrite H. vm_compute. reflexivity.
Defined.

(** ** Toast notifications *)

Section Toasts.
Import NotificationManager.

Lemma limit_children_drop (children : list toast) :
  limit_children children = drop (List.length children - 5) children.
Proof.
  induction children as [|t rest IH]; [reflexivity|].
  cbn [limit_children]. unfold maxNotifications.
  destruct (5 <? List.length (t :: rest))%nat eqn:Hn.
  - apply Nat.ltb_lt in Hn. cbn [List.length] in Hn |- *.
    replace (S (List.length rest) - 5)%nat with (S (List.length rest - 5)) by lia.
    exact IH.
  - apply Nat.ltb_ge in Hn. replace (List.length (t :: rest) - 5)%nat with 0%nat by lia.
    reflexivity.
Qed.

Lemma drop_drop_app (k : nat) (l : list toast) (t : toast) :
  (k = List.length l - 5)%nat ->
  drop (List.length (drop k l ++ [t]) - 5) (drop k l ++ [t])
  = drop (List.length (l ++ [t]) - 5) (l ++ [t]).
Proof.
  intros ->. rewrite !length_app, length_drop. cbn [List.length].
  destruct (Nat.le_gt_cases (List.length l) 5) as [Hle|Hgt].
  - replace (List.length l - 5)%nat with 0%nat by lia. rewrite drop_0, Nat.sub_0_r.
    reflexivity.
  - replace (List.length l - (List.length l - 5) + 1 - 5)%nat with 1%nat by lia.
    replace (List.length l + 1 - 5)%nat with (S (List.length l - 5)) by lia.
    rewrite !drop_app_le by (rewrite ?length_drop; lia).
    rewrite drop_drop. f_equal. f_equal. lia.
Qed.

(** X26.  After a series of calls of [NotificationManager.show] the
    container holds exactly the last five of the toasts it had before
    and those shown since, oldest first, whatever their types: the toast shown last is always there, and a persistent
    toast leaves as soon as five later ones have been shown. *)
Theorem show_keeps_last_five (c : container) (toasts : list toast) (duration : Z) :
  toasts <> [] ->
  fold_left (fun c t => after (show (toast_id t) (toast_message t) (toast_type t)
                                    duration (toast_persistent t) c))
            toasts c
  = Some (drop (List.length (ensureContainer c ++ toasts) - 5) (ensureContainer c ++ toasts)).
Proof.
  intros Hne.
  assert (Hgen : forall ts old,
            fold_left (fun c t => after (show (toast_id t) (toast_message t) (toast_type t)
                                              duration (toast_persistent t) c))
                      ts (Some (drop (List.length old - 5) old))
            = Some (drop (List.length (old ++ ts) - 5) (old ++ ts))).
  { induction ts as [|t ts IH]; intros old.
    - rewrite app_nil_r. reflexivity.
    - cbn [fold_left]. unfold show at 2. cbn [after limitNotifications option_map ensureContainer
                                              default id].
      rewrite limit_children_drop.
      replace {| toast_id := toast_id t; toast_type := toast_type t;
                 toast_message := toast_message t; toast_persistent := toast_persistent t |}
        with t by (destruct t; reflexivity).
      rewrite (drop_drop_app _ old t eq_refl).
      rewrite (IH (old ++ [t])%list), <- app_assoc. reflexivity. }
  destruct toasts as [|t ts]; [congruence|].
  cbn [fold_left]. unfold show at 2. cbn [after limitNotifications option_map].
  rewrite limit_children_drop.
  replace {| toast_id := toast_id t; toast_type := toast_type t;
             toast_message := toast_message t; toast_persistent := toast_persistent t |}
    with t by (destruct t; reflexivity).
  rewrite (Hgen ts (ensureContainer c ++ [t])%list), <- app_assoc. reflexivity.
Qed.

End Toasts.

Lemma show_keeps_last_five_witness :
  fold_left (fun c t =>
               NotificationManager.after
                 (NotificationManager.show
                    (NotificationManager.toast_id t) (NotificationManager.toast_message t)
                    (NotificationManager.toast_type t) 5000
                    (NotificationManager.toast_persistent t) c))
            Examples.six_toasts None
  = Some (List.map Examples.numbered_toast (seq 1 5)).
Proof.
  exact (show_keeps_last_five None Examples.six_toasts 5000 ltac:(discriminate)).
Defined.
